(** * DBF-to-MongoDB import scripts: a shallow embedding

    The repository holds one import script, [scripts/dbfToMongo.js], and three
    variants of it ([part_001], [part_002], [part_003]).  Each script
    reads legacy DBF archives, one per site and record type, cleans every
    record and replaces the contents of a MongoDB collection with them.

    The embedding follows the scripts function by function:
    - JavaScript values and objects ([value], [obj]), with IEEE-754 doubles
      as Rocq's primitive floats;
    - the outside world the scripts only read ([Env]): environment
      variables, the file system, the DBF reader, the model modules, the
      error-log sink, the clock;
    - the destination ([DB]) as the only mutable state, and everything a
      script emits as a trace of [event]s;
    - a monad [M] for state, output, JavaScript exceptions and
      [process.exit]. *)

From Stdlib Require Import List String Bool Arith Lia.
From Stdlib Require Import Floats.PrimFloat.
Import ListNotations.
Local Open Scope string_scope.
Local Open Scope list_scope.

(** ** JavaScript values and objects *)

(** The scalar values the DBF reader puts in a record.  A number is a
    binary64 float, as in JavaScript; a date is kept by its time value. *)
Inductive value : Type :=
| VNull
| VBool (b : bool)
| VNum (f : float)
| VStr (s : string)
| VDate (t : float).

(** [typeof value === "number" && isNaN(value)]: the right operand is only
    evaluated on numbers, where the global [isNaN] does no coercion. *)
Definition nan_guard (v : value) : bool :=
  match v with
  | VNum f => is_nan f
  | _ => false
  end.

(** [typeof value === "number" && isNaN(value) ? 0 : value] *)
Definition clean (v : value) : value :=
  if nan_guard v then VNum 0%float else v.

(** An object is the list of its own enumerable string-keyed properties in
    insertion order, which is the list [Object.entries] returns.  Field names
    of an archive are short identifiers: none is an array index, which
    JavaScript would list first, nor a name with a meaning of its own on a
    plain object, such as [__proto__].  An object holds a name once: a list
    of fields is an object when no name comes twice ([is_object]), and every
    record the reader hands over is one. *)
Definition entry : Type := string * value.
Definition obj : Type := list entry.

Fixpoint hasOwnProperty (o : obj) (key : string) : bool :=
  match o with
  | [] => false
  | (k, _) :: o' => if String.eqb k key then true else hasOwnProperty o' key
  end.

(** [o[key]]: [None] stands for [undefined]. *)
Fixpoint get_prop (o : obj) (key : string) : option value :=
  match o with
  | [] => None
  | (k, w) :: o' => if String.eqb k key then Some w else get_prop o' key
  end.

(** [o[key] = v]: an existing property keeps its place, a new one goes last. *)
Fixpoint set_prop (o : obj) (key : string) (v : value) : obj :=
  match o with
  | [] => [(key, v)]
  | (k, w) :: o' =>
      if String.eqb k key then (k, v) :: o' else (k, w) :: set_prop o' key v
  end.

(** [Object.fromEntries(entries)]: properties are defined one after the
    other, so a repeated key is overwritten by its later value. *)
Definition Object_fromEntries (entries : list entry) : obj :=
  fold_left (fun o e => set_prop o (fst e) (snd e)) entries [].

Definition keys (o : obj) : list string := map fst o.


(** ** The sanitizers *)

Module DbfToMongo_Sanitizer.

(** Body of the [for (const [key, value] of Object.entries(record))] loop. *)
Definition sanitize_step (sanitized : obj) (e : entry) : obj :=
  let '(key, value) := e in
  if negb (hasOwnProperty sanitized key)
  then set_prop sanitized key (clean value)
  else sanitized.

(** [sanitizeRecord] of [scripts/dbfToMongo.js], on the fields of the
    record as [Object.entries] lists them. *)
Definition sanitizeRecord (record : list entry) : obj :=
  fold_left sanitize_step record [].

End DbfToMongo_Sanitizer.

Module Part001.

(** [sanitizeRecord] of [part_001], on the fields of the record as
    [Object.entries] lists them; [part_002] and [part_003] have the same
    text. *)
Definition sanitizeRecord (record : list entry) : obj :=
  Object_fromEntries (map (fun '(key, value) => (key, clean value)) record).

End Part001.

(** ** The world outside the script *)

(** The seven record types, in the order the scripts list them; a script
    names a record type by the property key it uses for it. *)
Inductive RecordType : Type :=
| article | classnum | fournisseur | client | facture | factureDetail | tier.

Definition record_types : list RecordType :=
  [article; classnum; fournisseur; client; facture; factureDetail; tier].

Definition key_of (t : RecordType) : string :=
  match t with
  | article => "article"
  | classnum => "classnum"
  | fournisseur => "fournisseur"
  | client => "client"
  | facture => "facture"
  | factureDetail => "factureDetail"
  | tier => "tier"
  end.

(** The [modelFileName] table of [loadModel]. *)
Definition modelFileName (folder : string) (t : RecordType) : string :=
  (folder ++
   match t with
   | article => "Article"
   | classnum => "Classnum"
   | fournisseur => "Fournisseur"
   | client => "Client"
   | facture => "Facture"
   | factureDetail => "FactureDetail"
   | tier => "Tier"
   end)%string.

(** The [fileMap] table of [importDbfsData]. *)
Definition fileMap (t : RecordType) : string :=
  match t with
  | article => "article.dbf"
  | classnum => "classes.dbf"
  | fournisseur => "fourniss.dbf"
  | client => "clients.dbf"
  | facture => "facture.dbf"
  | factureDetail => "detail.dbf"
  | tier => "tiers.dbf"
  end.

Definition folders : list string :=
  ["AVB"; "AW"; "DQ"; "FMB"; "HD"; "KONE"; "KOUMAC"; "LD";
   "LE_BROUSSARD"; "MEARE"; "PAITA_BRICOLAGE"; "QC"; "SITEC"; "VKP"].

(** [path.resolve("./_dbf")], relative to the working directory. *)
Definition DBF_FOLDER : string := "_dbf".

Definition path_join (a b : string) : string := (a ++ "/" ++ b)%string.

(** The module path [loadModel] imports. *)
Definition model_path (folder name : string) : string :=
  ("./models/bases/" ++ folder ++ "/" ++ name ++ ".js")%string.

(** A Mongoose model, as far as the scripts use one: the collection it
    writes to; the validation of a document against the schema, which
    Mongoose runs in the script before it sends anything ([None] when the
    document is valid, the message of the validation error otherwise);
    whether the server refuses to write a document given the current
    contents of the collection, a duplicate key for example ([None] when it
    is written, the message of the write error otherwise); and whether
    [deleteMany] is rejected. *)
Record Model : Type := {
  collection : string;
  validate : obj -> option string;
  write_error : list obj -> obj -> option string;
  deleteMany_error : option string
}.

(** Whether a document is refused, by its validation or else by the server
    given the contents [coll] of the collection. *)
Definition refusal (model : Model) (coll : list obj) (doc : obj)
  : option string :=
  match validate model doc with
  | Some err => Some err
  | None => write_error model coll doc
  end.

(** The document passes the validation of the schema. *)
Definition valid (model : Model) (doc : obj) : bool :=
  match validate model doc with
  | None => true
  | Some _ => false
  end.

(** The error of the first document that fails validation, if any. *)
Fixpoint first_invalid (model : Model) (docs : list obj) : option string :=
  match docs with
  | [] => None
  | d :: ds =>
      match validate model d with
      | Some err => Some err
      | None => first_invalid model ds
      end
  end.

(** An opened archive: the record count of its header and what
    [readRecords] resolves to or is rejected with. *)
Record Dbf : Type := {
  recordCount : nat;
  readRecords_result : string + list obj
}.

(** Everything a script reads from outside and never changes. *)
Record Env : Type := {
  MONGO_URI : option string;
  MONGO_URI_DEV : option string;
  mongoose_connect : string -> option string;
  fs_existsSync : string -> bool;
  DBFFile_open : string -> string + Dbf;
  import_module : string -> string + Model;
  appendFileSync_error : option string;
  now_ISO : string
}.

(** ** What a script emits *)

Inductive message : Type :=
| MongoUriUndefined
| Connecting
| Connected
| MongoError (err : string)
| ModelLoadFailed (name err : string)
| FileMissing (fileName folder : string)
| Reading (fileName : string) (count : nat)
| Deleting (fileName : string)
| InsertErrorIn (fileName err : string)
| InsertError (err : string)
| ImportDone (fileName : string) (insertedCount total : nat)
| ImportDoneFolder (folder : string) (insertedCount : nat)
| FolderMissing (folderPath : string)
| FolderStart (folder : string)
| Elapsed
| ElapsedBeforeError
| AllDone
| TotalElapsed
| TimeEnd
| ErrorMsg (err : string)
| Critical (err : string).

Inductive level : Type := LLog | LWarn | LError.

Inductive dbop : Type :=
| DeleteMany
| Create (doc : obj)
| InsertMany (docs : list obj) (ordered : bool).

Inductive progress : Type :=
| PStart (total : nat)
| PUpdate (n : nat)
| PStop.

Inductive event : Type :=
| Console (l : level) (m : message)
| LogAppend (timestamp : string) (m : message)
| FsExists (path : string)
| MongoConnect (uri : string)
| ImportModule (path : string)
| DbfOpen (path : string)
| DbfReadRecords
| Db (coll : string) (op : dbop)
| Progress (p : progress).

(** ** The monad of a script *)

(** The destination: the documents of each collection, oldest first. *)
Definition DB : Type := string -> list obj.

Definition db_set (db : DB) (c : string) (docs : list obj) : DB :=
  fun c' => if String.eqb c c' then docs else db c'.

(** How a computation ends: with a value, with a thrown error (its
    message), with [process.exit(code)], or never. *)
Inductive outcome (A : Type) : Type :=
| Ret (a : A)
| Throw (err : string)
| Exit (code : nat)
| Diverge.
Arguments Ret {A} a.
Arguments Throw {A} err.
Arguments Exit {A} code.
Arguments Diverge {A}.

Record run (A : Type) : Type := Run {
  trace : list event;
  final : DB;
  result : outcome A
}.
Arguments Run {A} trace final result.
Arguments trace {A} r.
Arguments final {A} r.
Arguments result {A} r.

Definition M (A : Type) : Type := DB -> run A.

Definition ret {A : Type} (a : A) : M A := fun db => Run [] db (Ret a).

Definition throw {A : Type} (err : string) : M A := fun db => Run [] db (Throw err).

(** [process.exit(code)]: the process ends there, no handler runs. *)
Definition process_exit {A : Type} (code : nat) : M A :=
  fun db => Run [] db (Exit code).

Definition emit (e : event) : M unit := fun db => Run [e] db (Ret tt).

Definition bind {A B : Type} (m : M A) (f : A -> M B) : M B :=
  fun db =>
    let r := m db in
    match result r with
    | Ret a =>
        let r' := f a (final r) in
        Run (trace r ++ trace r') (final r') (result r')
    | Throw err => Run (trace r) (final r) (Throw err)
    | Exit code => Run (trace r) (final r) (Exit code)
    | Diverge => Run (trace r) (final r) Diverge
    end.

(** [try { m } catch (err) { h err }] *)
Definition try_catch {A : Type} (m : M A) (h : string -> M A) : M A :=
  fun db =>
    let r := m db in
    match result r with
    | Throw err =>
        let r' := h err (final r) in
        Run (trace r ++ trace r') (final r') (result r')
    | _ => r
    end.

(** [try { m } finally { fin }] *)
Definition try_finally {A : Type} (m : M A) (fin : M unit) : M A :=
  fun db =>
    let r := m db in
    match result r with
    | Ret _ | Throw _ =>
        let r' := fin (final r) in
        Run (trace r ++ trace r') (final r')
          match result r' with
          | Ret _ => result r
          | Throw err => Throw err
          | Exit code => Exit code
          | Diverge => Diverge
          end
    | _ => r
    end.

Declare Scope script_scope.
Delimit Scope script_scope with script.
Notation "x <- m ;; k" := (bind m (fun x => k))
  (at level 61, m at next level, right associativity) : script_scope.
Notation "m ;; k" := (bind m (fun _ => k))
  (at level 61, right associativity) : script_scope.
Local Open Scope script_scope.

Definition console_log (m : message) : M unit := emit (Console LLog m).
Definition console_warn (m : message) : M unit := emit (Console LWarn m).
Definition console_error (m : message) : M unit := emit (Console LError m).
Definition progressBar (p : progress) : M unit := emit (Progress p).

(** ** Mongoose, as the scripts rely on it *)

(** Mongoose is not part of the repository; the scripts rely on this much
    of it.  The server accepts or refuses a write document by document,
    given what the collection holds at that point ([v]).  An unordered bulk
    write tries every document; the accepted ones are stored, and the first
    refusal is what the call is rejected with in the end. *)
Fixpoint write_unordered (v : list obj -> obj -> option string)
  (coll docs : list obj) : list obj * option string :=
  match docs with
  | [] => (coll, None)
  | d :: ds =>
      match v coll d with
      | None => write_unordered v (coll ++ [d]) ds
      | Some err => (fst (write_unordered v coll ds), Some err)
      end
  end.

(** An ordered bulk write stops at the first rejected document. *)
Fixpoint write_ordered (v : list obj -> obj -> option string)
  (coll docs : list obj) : list obj * option string :=
  match docs with
  | [] => (coll, None)
  | d :: ds =>
      match v coll d with
      | None => write_ordered v (coll ++ [d]) ds
      | Some err => (coll, Some err)
      end
  end.


(** [await model.deleteMany()] *)
Definition deleteMany (model : Model) : M unit :=
  fun db =>
    match deleteMany_error model with
    | None =>
        Run [Db (collection model) DeleteMany]
          (db_set db (collection model) []) (Ret tt)
    | Some err => Run [Db (collection model) DeleteMany] db (Throw err)
    end.

(** [await model.create(doc)]: the document is validated, then sent; the
    call is rejected with the validation error or with the write error. *)
Definition create (model : Model) (doc : obj) : M unit :=
  fun db =>
    match refusal model (db (collection model)) doc with
    | None =>
        Run [Db (collection model) (Create doc)]
          (db_set db (collection model) (db (collection model) ++ [doc]))
          (Ret tt)
    | Some err => Run [Db (collection model) (Create doc)] db (Throw err)
    end.

(** [await model.insertMany(docs, { ordered })].  Mongoose validates every
    document before it sends any.  In ordered mode, which is the default, a
    document that fails validation rejects the call with its error and
    nothing is sent; otherwise the documents are written in order up to the
    first write error, which rejects the call.  In unordered mode the
    documents that fail validation are left out without an error and the
    others are all tried; the call is rejected when one of them meets a
    write error.  A call that is not rejected resolves to the documents it
    sent.  [insert_ordered] and [insert_unordered] give the contents the
    call leaves in a collection that held [coll], and its error if any. *)
Definition insert_ordered (model : Model) (coll docs : list obj)
  : list obj * option string :=
  match first_invalid model docs with
  | Some err => (coll, Some err)
  | None => write_ordered (write_error model) coll docs
  end.

Definition insert_unordered (model : Model) (coll docs : list obj)
  : list obj * option string :=
  write_unordered (write_error model) coll (filter (valid model) docs).

Definition insertMany (model : Model) (docs : list obj) (ordered : bool)
  : M (list obj) :=
  fun db =>
    let w := (if ordered then insert_ordered else insert_unordered)
               model (db (collection model)) docs in
    Run [Db (collection model) (InsertMany docs ordered)]
      (db_set db (collection model) (fst w))
      match snd w with
      | None => Ret (if ordered then docs else filter (valid model) docs)
      | Some err => Throw err
      end.

(** [records.slice(start, stop)] *)
Definition slice {A : Type} (l : list A) (start stop : nat) : list A :=
  firstn (stop - start) (skipn start l).

(** Truthiness of an environment variable, and [a || b]. *)
Definition truthy (v : option string) : bool :=
  match v with
  | Some s => negb (String.eqb s "")
  | None => false
  end.

Definition js_or (a b : option string) : option string :=
  if truthy a then a else b.

Section World.

Variable env : Env.

(** [process.env.MONGO_URI || process.env.MONGO_URI_DEV] *)
Definition mongoUri : option string :=
  js_or (MONGO_URI env) (MONGO_URI_DEV env).

Definition existsSync (path : string) : M bool :=
  emit (FsExists path);; ret (fs_existsSync env path).

(** [await mongoose.connect(mongoUri)] *)
Definition connect : M unit :=
  let uri := match mongoUri with Some u => u | None => "" end in
  emit (MongoConnect uri);;
  match mongoose_connect env uri with
  | None => ret tt
  | Some err => throw err
  end.

(** [await DBFFile.open(filePath)] *)
Definition open (filePath : string) : M Dbf :=
  emit (DbfOpen filePath);;
  match DBFFile_open env filePath with
  | inr dbf => ret dbf
  | inl err => throw err
  end.

(** [await dbf.readRecords()] *)
Definition readRecords (dbf : Dbf) : M (list obj) :=
  emit DbfReadRecords;;
  match readRecords_result dbf with
  | inr records => ret records
  | inl err => throw err
  end.

(** [await import(modelPath)] and its default export. *)
Definition import (path : string) : M Model :=
  emit (ImportModule path);;
  match import_module env path with
  | inr model => ret model
  | inl err => throw err
  end.

(** [fs.appendFileSync(ERROR_LOG_FILE, `${new Date().toISOString()} - ${message}\n`)]:
    one line more in the sink, or the error of the write. *)
Definition appendFileSync (m : message) : M unit :=
  match appendFileSync_error env with
  | None => emit (LogAppend (now_ISO env) m)
  | Some err => throw err
  end.

End World.

(** ** [scripts/dbfToMongo.js] *)

Module DbfToMongo.

Definition sanitizeRecord := DbfToMongo_Sanitizer.sanitizeRecord.

Section Script.

Variable env : Env.

(** [logError]: a bare [fs.appendFileSync], with no handler around it. *)
Definition logError (m : message) : M unit := appendFileSync env m.

Definition connectDB : M unit :=
  try_catch
    (console_log Connecting;;
     connect env;;
     console_log Connected)
    (fun err =>
       console_error (MongoError err);;
       process_exit 1).

(** [loadModel]: [None] stands for the [null] it returns on failure. *)
Definition loadModel (folder : string) (modelType : RecordType)
  : M (option Model) :=
  let name := modelFileName folder modelType in
  try_catch
    (model <- import env (model_path folder name);;
     ret (Some model))
    (fun err =>
       console_warn (ModelLoadFailed name err);;
       logError (ModelLoadFailed name err);;
       ret None).

(** The [for (const record of records)] loop of [processFile], from the
    current value of [insertedCount] to its last. *)
Fixpoint insert_loop (model : Model) (fileName : string)
  (records : list obj) (insertedCount : nat) : M nat :=
  match records with
  | [] => ret insertedCount
  | record :: rest =>
      let sanitizedRecord := sanitizeRecord record in
      n <- try_catch
             (create model sanitizedRecord;;
              progressBar (PUpdate (S insertedCount));;
              ret (S insertedCount))
             (fun err =>
                console_error (InsertErrorIn fileName err);;
                logError (InsertErrorIn fileName err);;
                ret insertedCount);;
      insert_loop model fileName rest n
  end.

Definition processFile (filePath : string) (model : Model)
  (fileName folder : string) : M unit :=
  found <- existsSync env filePath;;
  if negb found then
    console_warn (FileMissing fileName folder);;
    logError (FileMissing fileName folder)
  else
    dbf <- open env filePath;;
    console_log (Reading fileName (recordCount dbf));;
    console_log (Deleting fileName);;
    deleteMany model;;
    progressBar (PStart (recordCount dbf));;
    records <- readRecords dbf;;
    insertedCount <- insert_loop model fileName records 0;;
    progressBar PStop;;
    console_log (ImportDone fileName insertedCount (recordCount dbf)).

(** The [models] object literal: one [loadModel] per record type, in order. *)
Fixpoint load_models (folder : string) (types : list RecordType)
  : M (list (RecordType * option Model)) :=
  match types with
  | [] => ret []
  | t :: types' =>
      model <- loadModel folder t;;
      rest <- load_models folder types';;
      ret ((t, model) :: rest)
  end.

(** The [for (const [fileName, model] of Object.entries(models))] loop. *)
Fixpoint process_models (folderPath folder : string)
  (models : list (RecordType * option Model)) : M unit :=
  match models with
  | [] => ret tt
  | (t, model) :: rest =>
      match model with
      | Some model =>
          processFile (path_join folderPath (fileMap t)) model (key_of t) folder;;
          console_log Elapsed
      | None => ret tt
      end;;
      process_models folderPath folder rest
  end.

(** One turn of the [for (const folder of folders)] loop. *)
Definition site_body (folder : string) : M unit :=
  let folderPath := path_join DBF_FOLDER folder in
  found <- existsSync env folderPath;;
  if negb found then
    console_warn (FolderMissing folderPath);;
    logError (FolderMissing folderPath)
  else
    console_log (FolderStart folder);;
    models <- load_models folder record_types;;
    process_models folderPath folder models.

Fixpoint site_loop (sites : list string) : M unit :=
  match sites with
  | [] => ret tt
  | folder :: rest => site_body folder;; site_loop rest
  end.

(** [importDbfsData], over a list of sites. *)
Definition importDbfsData_on (sites : list string) : M unit :=
  try_finally
    (try_catch
       (connectDB;;
        site_loop sites;;
        console_log AllDone;;
        console_log TotalElapsed;;
        console_log TimeEnd)
       (fun error =>
          console_error (ErrorMsg error);;
          logError (Critical error)))
    (process_exit 0).

Definition importDbfsData : M unit := importDbfsData_on folders.

(** The whole module: the check of [mongoUri], then the call of
    [importDbfsData]. *)
Definition script_on (sites : list string) : M unit :=
  (if negb (truthy (mongoUri env))
   then console_error MongoUriUndefined;; process_exit 1
   else ret tt);;
  importDbfsData_on sites.

Definition script : M unit := script_on folders.

End Script.

End DbfToMongo.

(** ** [part_003]: the batched variant *)

Module Part003.

Definition sanitizeRecord := Part001.sanitizeRecord.

Definition batchSize : nat := 1000.

Section Script.

Variable env : Env.

Definition connectDB : M unit :=
  try_catch
    (console_log Connecting;;
     connect env;;
     console_log Connected)
    (fun err =>
       console_error (MongoError err);;
       process_exit 1).

Definition loadModel (folder : string) (modelType : RecordType)
  : M (option Model) :=
  let name := modelFileName folder modelType in
  try_catch
    (model <- import env (model_path folder name);;
     ret (Some model))
    (fun err =>
       console_warn (ModelLoadFailed name err);;
       ret None).

(** The [for (let i = 0; i < records.length; i += batchSize)] loop, for a
    batch size [size]; [fuel] bounds the number of turns, and a loop that
    outlives it has not ended. *)
Fixpoint batch_loop (size : nat) (model : Model) (records : list obj)
  (fuel i insertedCount : nat) : M nat :=
  match fuel with
  | 0 => fun db => Run [] db Diverge
  | S fuel' =>
      if Nat.ltb i (List.length records) then
        let batch := map sanitizeRecord (slice records i (i + size)) in
        n <- try_catch
               (result <- insertMany model batch false;;
                ret (insertedCount + List.length result))
               (fun err =>
                  console_error (InsertError err);;
                  ret insertedCount);;
        progressBar (PUpdate n);;
        batch_loop size model records fuel' (i + size) n
      else ret insertedCount
  end.

(** The loop from [i = 0]: with a batch size of one or more it takes at
    most [records.length] turns and one last test. *)
Definition insert_batches (size : nat) (model : Model) (records : list obj)
  : M nat :=
  batch_loop size model records (S (List.length records)) 0 0.

Definition processFile_with (size : nat) (filePath : string) (model : Model)
  (fileName folder : string) : M unit :=
  found <- existsSync env filePath;;
  if negb found then
    console_warn (FileMissing fileName folder)
  else
    dbf <- open env filePath;;
    console_log (Reading fileName (recordCount dbf));;
    console_log (Deleting fileName);;
    deleteMany model;;
    progressBar (PStart (recordCount dbf));;
    records <- readRecords dbf;;
    insertedCount <- insert_batches size model records;;
    progressBar PStop;;
    console_log (ImportDone fileName insertedCount (recordCount dbf)).

Definition processFile : string -> Model -> string -> string -> M unit :=
  processFile_with batchSize.

Fixpoint load_models (folder : string) (types : list RecordType)
  : M (list (RecordType * option Model)) :=
  match types with
  | [] => ret []
  | t :: types' =>
      model <- loadModel folder t;;
      rest <- load_models folder types';;
      ret ((t, model) :: rest)
  end.

Fixpoint process_models (folderPath folder : string)
  (models : list (RecordType * option Model)) : M unit :=
  match models with
  | [] => ret tt
  | (t, model) :: rest =>
      match model with
      | Some model =>
          processFile (path_join folderPath (fileMap t)) model (key_of t) folder;;
          console_log Elapsed
      | None => ret tt
      end;;
      process_models folderPath folder rest
  end.

Definition site_body (folder : string) : M unit :=
  let folderPath := path_join DBF_FOLDER folder in
  found <- existsSync env folderPath;;
  if negb found then
    console_warn (FolderMissing folderPath)
  else
    console_log (FolderStart folder);;
    models <- load_models folder record_types;;
    process_models folderPath folder models.

Fixpoint site_loop (sites : list string) : M unit :=
  match sites with
  | [] => ret tt
  | folder :: rest => site_body folder;; site_loop rest
  end.

Definition importDbfsData_on (sites : list string) : M unit :=
  try_finally
    (try_catch
       (connectDB;;
        site_loop sites;;
        console_log AllDone;;
        console_log TotalElapsed;;
        console_log TimeEnd)
       (fun error =>
          console_error (ErrorMsg error);;
          console_log ElapsedBeforeError;;
          console_log TimeEnd))
    (process_exit 0).

Definition importDbfsData : M unit := importDbfsData_on folders.

Definition script_on (sites : list string) : M unit :=
  (if negb (truthy (mongoUri env))
   then console_error MongoUriUndefined;; process_exit 1
   else ret tt);;
  importDbfsData_on sites.

Definition script : M unit := script_on folders.

End Script.

End Part003.

(** ** [part_002]: articles only, ordered batches, no handler around a write *)

Module Part002.

Definition sanitizeRecord := Part001.sanitizeRecord.

Definition batchSize : nat := 1000.

Section Script.

Variable env : Env.

Definition connectDB : M unit :=
  try_catch
    (console_log Connecting;;
     connect env;;
     console_log Connected)
    (fun err =>
       console_error (MongoError err);;
       process_exit 1).

Definition loadModel (folder : string) : M (option Model) :=
  try_catch
    (model <- import env (model_path folder (modelFileName folder article));;
     ret (Some model))
    (fun err =>
       console_warn (ModelLoadFailed folder err);;
       ret None).

(** The batch loop: [insertMany(batch)] with the default, ordered mode and
    nothing to catch its rejection. *)
Fixpoint batch_loop (size : nat) (model : Model) (records : list obj)
  (fuel i insertedCount : nat) : M nat :=
  match fuel with
  | 0 => fun db => Run [] db Diverge
  | S fuel' =>
      if Nat.ltb i (List.length records) then
        let batch := map sanitizeRecord (slice records i (i + size)) in
        result <- insertMany model batch true;;
        let n := insertedCount + List.length result in
        progressBar (PUpdate n);;
        batch_loop size model records fuel' (i + size) n
      else ret insertedCount
  end.

Definition site_body (folder : string) : M unit :=
  let folderPath := path_join DBF_FOLDER folder in
  found <- existsSync env folderPath;;
  if negb found then
    console_warn (FolderMissing folderPath)
  else
    console_log (FolderStart folder);;
    model <- loadModel folder;;
    match model with
    | None => ret tt
    | Some model =>
        let filePath := path_join folderPath "article.dbf" in
        found <- existsSync env filePath;;
        if negb found then
          console_warn (FileMissing "article" folderPath)
        else
          dbf <- open env filePath;;
          console_log (Reading filePath (recordCount dbf));;
          console_log (Deleting folder);;
          deleteMany model;;
          progressBar (PStart (recordCount dbf));;
          records <- readRecords dbf;;
          insertedCount <-
            batch_loop batchSize model records (S (List.length records)) 0 0;;
          progressBar PStop;;
          console_log (ImportDoneFolder folder insertedCount)
    end.

Fixpoint site_loop (sites : list string) : M unit :=
  match sites with
  | [] => ret tt
  | folder :: rest => site_body folder;; site_loop rest
  end.

Definition importDbfsData_on (sites : list string) : M unit :=
  try_catch
    (connectDB;;
     site_loop sites;;
     console_log AllDone;;
     process_exit 0)
    (fun error =>
       console_error (ErrorMsg error);;
       process_exit 1).

Definition importDbfsData : M unit := importDbfsData_on folders.

Definition script_on (sites : list string) : M unit :=
  (if negb (truthy (mongoUri env))
   then console_error MongoUriUndefined;; process_exit 1
   else ret tt);;
  importDbfsData_on sites.

Definition script : M unit := script_on folders.

End Script.

End Part002.

(** ** Reading a run *)

(** The exit code of the process, when the run ends in [process.exit]. *)
Definition exit_code {A : Type} (r : run A) : option nat :=
  match result r with
  | Exit code => Some code
  | _ => None
  end.

(** The operations on the destination that a trace holds. *)
Definition is_db_event (e : event) : bool :=
  match e with
  | Db _ _ => true
  | _ => false
  end.

(** The lines of a trace that report the counts of a finished load. *)
Definition is_import_done (e : event) : bool :=
  match e with
  | Console _ (ImportDone _ _ _) => true
  | Console _ (ImportDoneFolder _ _) => true
  | _ => false
  end.

(** The lines of a trace that print an error, and the lines appended to the
    error log. *)
Definition is_error_line (e : event) : bool :=
  match e with
  | Console LError _ => true
  | _ => false
  end.

Definition is_log_line (e : event) : bool :=
  match e with
  | LogAppend _ _ => true
  | _ => false
  end.

(** Visits of the file system and of archives. *)
Definition is_source_event (e : event) : bool :=
  match e with
  | FsExists _ | DbfOpen _ | DbfReadRecords | ImportModule _ => true
  | _ => false
  end.

(** A computation that ends, with a value or a thrown error: it neither
    leaves the process nor runs for ever. *)
Definition settles {A : Type} (m : M A) : Prop :=
  forall db, match result (m db) with
             | Ret _ | Throw _ => True
             | Exit _ | Diverge => False
             end.


(** The connection string [connectDB] hands to [mongoose.connect]. *)
Definition uri_of (env : Env) : string :=
  match mongoUri env with Some u => u | None => "" end.


(** What a load emits before its first write, and how it ends after its
    insert loop [r]. *)
Definition load_prefix (filePath fileName : string) (model : Model) (dbf : Dbf)
  : list event :=
  [FsExists filePath; DbfOpen filePath;
   Console LLog (Reading fileName (recordCount dbf));
   Console LLog (Deleting fileName);
   Db (collection model) DeleteMany;
   Progress (PStart (recordCount dbf));
   DbfReadRecords].

Definition load_end (r : run nat) (pre : list event) (fileName : string)
  (dbf : Dbf) : run unit :=
  match result r with
  | Ret n =>
      Run (pre ++ trace r ++
           [Progress PStop;
            Console LLog (ImportDone fileName n (recordCount dbf))])
        (final r) (Ret tt)
  | Throw err => Run (pre ++ trace r) (final r) (Throw err)
  | Exit code => Run (pre ++ trace r) (final r) (Exit code)
  | Diverge => Run (pre ++ trace r) (final r) Diverge
  end.


(** A field with its value cleaned. *)
Definition clean_entry (e : entry) : entry :=
  let '(key, value) := e in (key, clean value).

(** ** Notions the statements use *)


(** The run [r] after the events [t]. *)
Definition prepend {A : Type} (t : list event) (r : run A) : run A :=
  Run (t ++ trace r) (final r) (result r).

(** What a skipped site leaves in the trace of each script. *)
Definition skip_events (folderPath : string) : list event :=
  [FsExists folderPath; Console LWarn (FolderMissing folderPath)].

Definition skip_events_logged (env : Env) (folderPath : string) : list event :=
  [FsExists folderPath; Console LWarn (FolderMissing folderPath);
   LogAppend (now_ISO env) (FolderMissing folderPath)].

(** Two runs that leave the same destination, end the same way and report the
    same loads with the same counts, in the same order. *)
Definition same_outcomes (r r' : run unit) : Prop :=
  final r = final r' /\
  result r = result r' /\
  filter is_import_done (trace r) = filter is_import_done (trace r').

(** ** A world to run the scripts in *)

Module Example.

Definition rec1 : obj := [("CODE", VStr "A1"); ("PRIX", VNum nan)].
Definition rec2 : obj := [("CODE", VStr "A2"); ("PRIX", VNum 2%float)].
Definition rec3 : obj := [("CODE", VStr "A3"); ("PRIX", VNull)].

Definition accept_all : list obj -> obj -> option string := fun _ _ => None.

(** A server that refuses to write the documents whose [CODE] is [code]. *)
Definition reject_code (code : string) : list obj -> obj -> option string :=
  fun _ doc =>
    match get_prop doc "CODE" with
    | Some (VStr c) =>
        if String.eqb c code then Some "E11000 duplicate key" else None
    | _ => None
    end.

(** A model with no validation rule, on a server that refuses what [v]
    refuses. *)
Definition model_of (name : string) (v : list obj -> obj -> option string)
  : Model :=
  {| collection := name;
     validate := fun _ => None;
     write_error := v;
     deleteMany_error := None |}.

(** The validation rule [required: true] on the path [field]: the field
    must be there and not null. *)
Definition required (field : string) : obj -> option string :=
  fun doc =>
    match get_prop doc field with
    | None | Some VNull =>
        Some ("Path `" ++ field ++ "` is required.")%string
    | Some _ => None
    end.

(** A model whose schema is [s], on a server that refuses nothing. *)
Definition model_with_schema (name : string) (s : obj -> option string)
  : Model :=
  {| collection := name;
     validate := s;
     write_error := accept_all;
     deleteMany_error := None |}.

Definition archive : Dbf :=
  {| recordCount := 3; readRecords_result := inr [rec1; rec2; rec3] |}.

(** Every site, archive and model module is there but the paths of
    [missing]; every archive holds the three records above, but those of
    [unreadable], which do not open; the model of a module writes to the
    collection named after the module and accepts what [v] accepts;
    [sink] is the error of a write to the error log, if any. *)
Definition world (uri : option string) (refused : option string)
  (missing unreadable : list string) (sink : option string)
  (v : list obj -> obj -> option string) : Env :=
  {| MONGO_URI := uri;
     MONGO_URI_DEV := None;
     mongoose_connect := fun _ => refused;
     fs_existsSync := fun p => negb (existsb (String.eqb p) missing);
     DBFFile_open := fun p =>
       if existsb (String.eqb p) unreadable
       then inl "Invalid DBF file"
       else inr archive;
     import_module := fun p => inr (model_of p v);
     appendFileSync_error := sink;
     now_ISO := "2024-05-01T08:00:00.000Z" |}.

Definition uri : option string := Some "mongodb://localhost:27017/robot".

Definition empty : DB := fun _ => [].

End Example.

(** ** What a computation leaves alone, emits and returns *)

(** The computation leaves every collection of [Q] as it found it. *)
Definition keeps (Q : string -> Prop) {A : Type} (m : M A) : Prop :=
  forall db c, Q c -> final (m db) c = db c.

(** Every event the computation emits satisfies [P]. *)
Definition emits (P : event -> Prop) {A : Type} (m : M A) : Prop :=
  forall db, Forall P (trace (m db)).

(** Every value the computation returns satisfies [R]. *)
Definition returns {A : Type} (R : A -> Prop) (m : M A) : Prop :=
  forall db a, result (m db) = Ret a -> R a.

(** An event that is no operation on the destination, or a write (not a
    [deleteMany]) to the collection [coll]. *)
Definition writes_to (coll : string) (e : event) : Prop :=
  match e with
  | Db c DeleteMany => False
  | Db c _ => c = coll
  | _ => True
  end.

(** An event that is no operation on the destination, or an operation on a
    collection of [Q]. *)
Definition db_within (Q : string -> Prop) (e : event) : Prop :=
  match e with
  | Db c _ => Q c
  | _ => True
  end.

(** ** [part_001]: one [create] per record, no error log *)

Module Part001Script.

Definition sanitizeRecord := Part001.sanitizeRecord.

Section Script.

Variable env : Env.

Definition connectDB : M unit :=
  try_catch
    (console_log Connecting;;
     connect env;;
     console_log Connected)
    (fun err =>
       console_error (MongoError err);;
       process_exit 1).

Definition loadModel (folder : string) (modelType : RecordType)
  : M (option Model) :=
  let name := modelFileName folder modelType in
  try_catch
    (model <- import env (model_path folder name);;
     ret (Some model))
    (fun err =>
       console_warn (ModelLoadFailed name err);;
       ret None).

(** The [for (const record of records)] loop of [processFile]. *)
Fixpoint insert_loop (model : Model) (records : list obj)
  (insertedCount : nat) : M nat :=
  match records with
  | [] => ret insertedCount
  | record :: rest =>
      let sanitizedRecord := sanitizeRecord record in
      n <- try_catch
             (create model sanitizedRecord;;
              progressBar (PUpdate (S insertedCount));;
              ret (S insertedCount))
             (fun err =>
                console_error (InsertError err);;
                ret insertedCount);;
      insert_loop model rest n
  end.

Definition processFile (filePath : string) (model : Model)
  (fileName folder : string) : M unit :=
  found <- existsSync env filePath;;
  if negb found then
    console_warn (FileMissing fileName folder)
  else
    dbf <- open env filePath;;
    console_log (Reading fileName (recordCount dbf));;
    console_log (Deleting fileName);;
    deleteMany model;;
    progressBar (PStart (recordCount dbf));;
    records <- readRecords dbf;;
    insertedCount <- insert_loop model records 0;;
    progressBar PStop;;
    console_log (ImportDone fileName insertedCount (recordCount dbf)).

Fixpoint load_models (folder : string) (types : list RecordType)
  : M (list (RecordType * option Model)) :=
  match types with
  | [] => ret []
  | t :: types' =>
      model <- loadModel folder t;;
      rest <- load_models folder types';;
      ret ((t, model) :: rest)
  end.

Fixpoint process_models (folderPath folder : string)
  (models : list (RecordType * option Model)) : M unit :=
  match models with
  | [] => ret tt
  | (t, model) :: rest =>
      match model with
      | Some model =>
          processFile (path_join folderPath (fileMap t)) model (key_of t) folder;;
          console_log Elapsed
      | None => ret tt
      end;;
      process_models folderPath folder rest
  end.

Definition site_body (folder : string) : M unit :=
  let folderPath := path_join DBF_FOLDER folder in
  found <- existsSync env folderPath;;
  if negb found then
    console_warn (FolderMissing folderPath)
  else
    console_log (FolderStart folder);;
    models <- load_models folder record_types;;
    process_models folderPath folder models.

Fixpoint site_loop (sites : list string) : M unit :=
  match sites with
  | [] => ret tt
  | folder :: rest => site_body folder;; site_loop rest
  end.

Definition importDbfsData_on (sites : list string) : M unit :=
  try_finally
    (try_catch
       (connectDB;;
        site_loop sites;;
        console_log AllDone;;
        console_log TotalElapsed;;
        console_log TimeEnd)
       (fun error =>
          console_error (ErrorMsg error);;
          console_log ElapsedBeforeError;;
          console_log TimeEnd))
    (process_exit 0).

Definition importDbfsData : M unit := importDbfsData_on folders.

Definition script_on (sites : list string) : M unit :=
  (if negb (truthy (mongoUri env))
   then console_error MongoUriUndefined;; process_exit 1
   else ret tt);;
  importDbfsData_on sites.

Definition script : M unit := script_on folders.

End Script.

End Part001Script.

(** A load, by its tests: the run of [processFile] on a path that exists,
    given the run [loop] of its insert loop on the records and the emptied
    collection. *)
Definition load_cases (env : Env) (filePath : string) (model : Model)
  (fileName : string) (db : DB) (loop : list obj -> DB -> run nat) : run unit :=
  match DBFFile_open env filePath with
  | inl err => Run [FsExists filePath; DbfOpen filePath] db (Throw err)
  | inr dbf =>
      match deleteMany_error model with
      | Some err =>
          Run [FsExists filePath; DbfOpen filePath;
               Console LLog (Reading fileName (recordCount dbf));
               Console LLog (Deleting fileName);
               Db (collection model) DeleteMany] db (Throw err)
      | None =>
          match readRecords_result dbf with
          | inl err =>
              Run (load_prefix filePath fileName model dbf)
                (db_set db (collection model) []) (Throw err)
          | inr records =>
              load_end (loop records (db_set db (collection model) []))
                (load_prefix filePath fileName model dbf) fileName dbf
          end
      end
  end.

(** The three scripts with a [processFile] run it to the same result [r]. *)
Definition every_load_is (env : Env) (filePath : string) (model : Model)
  (fileName folder : string) (db : DB) (r : run unit) : Prop :=
  DbfToMongo.processFile env filePath model fileName folder db = r /\
  Part001Script.processFile env filePath model fileName folder db = r /\
  Part003.processFile env filePath model fileName folder db = r.

(** ** More worlds *)

Module Broken.

(** A world like [Example.world] whose archives open and then cannot be
    read. *)
Definition unread_world : Env :=
  {| MONGO_URI := Example.uri;
     MONGO_URI_DEV := None;
     mongoose_connect := fun _ => None;
     fs_existsSync := fun _ => true;
     DBFFile_open := fun _ =>
       inr {| recordCount := 3;
              readRecords_result := inl "Premature end of file" |};
     import_module := fun p => inr (Example.model_of p Example.accept_all);
     appendFileSync_error := None;
     now_ISO := "2024-05-01T08:00:00.000Z" |}.

(** A model whose [deleteMany] is rejected. *)
Definition undeletable (name : string) : Model :=
  {| collection := name;
     validate := fun _ => None;
     write_error := Example.accept_all;
     deleteMany_error := Some "not primary" |}.

(** A destination that holds two articles of an earlier run. *)
Definition stale : DB :=
  fun c =>
    if String.eqb c "articles"
    then [[("CODE", VStr "OLD1")]; [("CODE", VStr "OLD2")]]
    else [].

End Broken.

(** A model that some module of the world exports. *)
Definition imported (env : Env) (model : Model) : Prop :=
  exists path, import_module env path = inr model.

(** What [loadModel] returns is [null] or an imported model. *)
Definition model_imported (env : Env) (o : option Model) : Prop :=
  forall model, o = Some model -> imported env model.

(** A collection that some model of the world writes to. *)
Definition bound (env : Env) (c : string) : Prop :=
  exists model, imported env model /\ collection model = c.

(** The models of a list, as [load_models] returns it, are all imported. *)
Definition all_imported (env : Env) (models : list (RecordType * option Model))
  : Prop :=
  Forall (fun tm => forall model, snd tm = Some model -> imported env model)
    models.

(** The operations on the destination of a trace are none, or one
    [deleteMany] of the collection [coll] followed by writes to it only. *)
Definition delete_then_writes (coll : string) (t : list event) : Prop :=
  filter is_db_event t = [] \/
  exists writes,
    filter is_db_event t = Db coll DeleteMany :: writes /\
    Forall (fun e => exists op, e = Db coll op /\ op <> DeleteMany) writes.

Module Single.

(** A world with one model module, the articles of site AVB. *)
Definition world : Env :=
  {| MONGO_URI := Example.uri;
     MONGO_URI_DEV := None;
     mongoose_connect := fun _ => None;
     fs_existsSync := fun _ => true;
     DBFFile_open := fun _ => inr Example.archive;
     import_module := fun p =>
       if String.eqb p "./models/bases/AVB/AVBArticle.js"
       then inr (Example.model_of "articles" Example.accept_all)
       else inl "Cannot find module";
     appendFileSync_error := None;
     now_ISO := "2024-05-01T08:00:00.000Z" |}.

End Single.

(** The entry of the [models] object for a record type: the model its module
    exports, or [null] when the import fails. *)
Definition binding (env : Env) (folder : string) (t : RecordType)
  : RecordType * option Model :=
  (t,
   match import_module env (model_path folder (modelFileName folder t)) with
   | inr model => Some model
   | inl _ => None
   end).

(** Every module of the record types [types] of a site can be imported. *)
Definition all_bound (env : Env) (folder : string) (types : list RecordType)
  : Prop :=
  Forall (fun t => snd (binding env folder t) <> None) types.

(** The entry [(t, o)] of the [models] object has no model, or its archive
    is not in the directory [folderPath]. *)
Definition nothing_to_load (env : Env) (folderPath : string)
  (t : RecordType) (o : option Model) : Prop :=
  o = None \/ fs_existsSync env (path_join folderPath (fileMap t)) = false.


(** The start of a run succeeds: a connection string is set and
    [mongoose.connect] accepts it. *)
Definition started (env : Env) : bool :=
  truthy (mongoUri env) &&
  match mongoose_connect env (uri_of env) with
  | None => true
  | Some _ => false
  end.

(** A site [part_002] has nothing to load for: its directory is missing, its
    article model cannot be imported, or its directory holds no
    [article.dbf]. *)
Definition nothing_to_do (env : Env) (s : string) : Prop :=
  fs_existsSync env (path_join DBF_FOLDER s) = false \/
  (exists err,
     import_module env (model_path s (modelFileName s article)) = inl err) \/
  fs_existsSync env (path_join (path_join DBF_FOLDER s) "article.dbf") = false.

(** ** Facts on objects *)

Lemma clean_not_nan (v : value) : nan_guard (clean v) = false.
Proof.
  unfold clean. destruct (nan_guard v) eqn:E; [reflexivity | exact E].
Qed.

Lemma hasOwnProperty_get (o : obj) (k : string) :
  hasOwnProperty o k = match get_prop o k with Some _ => true | None => false end.
Proof.
  induction o as [|[k' w] o IH]; simpl; [reflexivity|].
  destruct (String.eqb k' k); [reflexivity | exact IH].
Qed.

Lemma get_set_prop (o : obj) (k k' : string) (v : value) :
  get_prop (set_prop o k v) k' =
  if String.eqb k k' then Some v else get_prop o k'.
Proof.
  induction o as [|[k0 w] o IH]; simpl.
  - reflexivity.
  - destruct (String.eqb k0 k) eqn:E0; simpl.
    + apply String.eqb_eq in E0. subst k0.
      destruct (String.eqb k k'); reflexivity.
    + destruct (String.eqb k0 k') eqn:E1.
      * apply String.eqb_eq in E1. subst k0.
        rewrite String.eqb_sym, E0. reflexivity.
      * exact IH.
Qed.

Lemma keys_set_prop (o : obj) (k : string) (v : value) :
  keys (set_prop o k v) = if hasOwnProperty o k then keys o else keys o ++ [k].
Proof.
  unfold keys. induction o as [|[k0 w] o IH]; simpl.
  - reflexivity.
  - destruct (String.eqb k0 k) eqn:E0; simpl.
    + reflexivity.
    + rewrite IH. destruct (hasOwnProperty o k); reflexivity.
Qed.

Lemma hasOwnProperty_keys (o : obj) (k : string) :
  hasOwnProperty o k = true <-> In k (keys o).
Proof.
  unfold keys. induction o as [|[k0 w] o IH]; simpl.
  - split; [discriminate | tauto].
  - destruct (String.eqb k0 k) eqn:E0.
    + apply String.eqb_eq in E0. tauto.
    + apply String.eqb_neq in E0. rewrite IH. tauto.
Qed.

Lemma NoDup_keys_set_prop (o : obj) (k : string) (v : value) :
  NoDup (keys o) -> NoDup (keys (set_prop o k v)).
Proof.
  intros H. rewrite keys_set_prop.
  destruct (hasOwnProperty o k) eqn:E; [exact H|].
  apply NoDup_app; [exact H | repeat constructor; simpl; tauto |].
  intros x Hx [Hk|[]]. subst x.
  apply hasOwnProperty_keys in Hx. congruence.
Qed.

Lemma get_prop_app (a b : obj) (k : string) :
  get_prop (a ++ b) k =
  match get_prop a k with Some v => Some v | None => get_prop b k end.
Proof.
  induction a as [|[k0 w] a IH]; simpl; [reflexivity|].
  destruct (String.eqb k0 k); [reflexivity | exact IH].
Qed.

Lemma get_prop_In (o : obj) (k : string) (v : value) :
  get_prop o k = Some v -> In (k, v) o.
Proof.
  induction o as [|[k0 w] o IH]; simpl; [discriminate|].
  destruct (String.eqb k0 k) eqn:E0.
  - apply String.eqb_eq in E0. intros [= ->]. subst. now left.
  - intros H. right. now apply IH.
Qed.

Lemma In_get_prop (o : obj) (k : string) (v : value) :
  NoDup (keys o) -> In (k, v) o -> get_prop o k = Some v.
Proof.
  unfold keys. induction o as [|[k0 w] o IH]; simpl; [tauto|].
  intros Hnd [Heq|Hin].
  - injection Heq as -> ->. now rewrite String.eqb_refl.
  - inversion Hnd as [|? ? Hk0 Hnd']; subst.
    destruct (String.eqb k0 k) eqn:E0.
    + apply String.eqb_eq in E0. subst k0. exfalso. apply Hk0.
      change k with (fst (k, v)). now apply in_map.
    + now apply IH.
Qed.


(** ** The sanitizers on fields with a repeated name *)

Lemma fold_sanitize_step (r : list entry) (acc : obj) :
  NoDup (keys acc) ->
  NoDup (keys (fold_left DbfToMongo_Sanitizer.sanitize_step r acc)) /\
  forall k,
    get_prop (fold_left DbfToMongo_Sanitizer.sanitize_step r acc) k =
    match get_prop acc k with
    | Some v => Some v
    | None => option_map clean (get_prop r k)
    end.
Proof.
  revert acc. induction r as [|[k0 v0] r IH]; intros acc Hnd; simpl.
  - split; [exact Hnd|]. intros k. now destruct (get_prop acc k).
  - rewrite hasOwnProperty_get.
    destruct (get_prop acc k0) as [w|] eqn:E0; simpl.
    + destruct (IH acc Hnd) as [H1 H2]. split; [exact H1|].
      intros k. rewrite H2.
      destruct (String.eqb k0 k) eqn:Ek; [|reflexivity].
      apply String.eqb_eq in Ek. subst k0. now rewrite E0.
    + destruct (IH (set_prop acc k0 (clean v0))
                  (NoDup_keys_set_prop acc k0 (clean v0) Hnd)) as [H1 H2].
      split; [exact H1|].
      intros k. rewrite H2, get_set_prop.
      destruct (String.eqb k0 k) eqn:Ek.
      * apply String.eqb_eq in Ek. subst k0. now rewrite E0.
      * reflexivity.
Qed.

Lemma fold_set_prop (es : list entry) (acc : obj) :
  NoDup (keys acc) ->
  NoDup (keys (fold_left (fun o e => set_prop o (fst e) (snd e)) es acc)) /\
  forall k,
    get_prop (fold_left (fun o e => set_prop o (fst e) (snd e)) es acc) k =
    match get_prop (rev es) k with
    | Some v => Some v
    | None => get_prop acc k
    end.
Proof.
  revert acc. induction es as [|[k0 v0] es IH]; intros acc Hnd; simpl.
  - split; [exact Hnd | reflexivity].
  - destruct (IH (set_prop acc k0 v0) (NoDup_keys_set_prop acc k0 v0 Hnd))
      as [H1 H2].
    split; [exact H1|].
    intros k. rewrite H2, get_prop_app, get_set_prop. simpl.
    destruct (get_prop (rev es) k); [reflexivity|].
    now destruct (String.eqb k0 k).
Qed.

Lemma get_prop_map_clean (r : list entry) (k : string) :
  get_prop (map (fun '(key, value) => (key, clean value)) r) k =
  option_map clean (get_prop r k).
Proof.
  induction r as [|[k0 v0] r IH]; simpl; [reflexivity|].
  destruct (String.eqb k0 k); [reflexivity | exact IH].
Qed.

Lemma main_sanitize_get (r : list entry) (k : string) :
  get_prop (DbfToMongo.sanitizeRecord r) k = option_map clean (get_prop r k).
Proof.
  unfold DbfToMongo.sanitizeRecord, DbfToMongo_Sanitizer.sanitizeRecord.
  destruct (fold_sanitize_step r [] (NoDup_nil _)) as [_ H].
  now rewrite H.
Qed.

Lemma main_sanitize_NoDup (r : list entry) :
  NoDup (keys (DbfToMongo.sanitizeRecord r)).
Proof.
  apply (fold_sanitize_step r [] (NoDup_nil _)).
Qed.

Lemma variant_sanitize_get (r : list entry) (k : string) :
  get_prop (Part001.sanitizeRecord r) k =
  option_map clean (get_prop (rev r) k).
Proof.
  unfold Part001.sanitizeRecord, Object_fromEntries.
  destruct (fold_set_prop (map (fun '(key, value) => (key, clean value)) r)
              [] (NoDup_nil _)) as [_ H].
  rewrite H, <- map_rev, get_prop_map_clean.
  unfold entry, obj in *.
  destruct (get_prop (rev r) k); reflexivity.
Qed.

Lemma variant_sanitize_NoDup (r : list entry) :
  NoDup (keys (Part001.sanitizeRecord r)).
Proof.
  apply (fold_set_prop _ [] (NoDup_nil _)).
Qed.

(** ** The two sanitizers on a record without repeated names *)

Lemma set_prop_new (o : obj) (k : string) (w : value) :
  ~ In k (keys o) -> set_prop o k w = o ++ [(k, w)].
Proof.
  unfold keys. induction o as [|[k0 w0] o IH]; simpl; intros H.
  - reflexivity.
  - destruct (String.eqb k0 k) eqn:E.
    + apply String.eqb_eq in E. tauto.
    + rewrite IH; [reflexivity | tauto].
Qed.

Lemma keys_map_clean (r : list entry) : keys (map clean_entry r) = keys r.
Proof.
  unfold keys. rewrite map_map. apply map_ext. now intros [k w].
Qed.

Lemma fold_sanitize_fresh (r : list entry) (acc : obj) :
  NoDup (keys acc ++ keys r) ->
  fold_left DbfToMongo_Sanitizer.sanitize_step r acc = acc ++ map clean_entry r.
Proof.
  revert acc. induction r as [|[k w] r IH]; intros acc H; simpl.
  - now rewrite app_nil_r.
  - assert (Hk : ~ In k (keys acc)).
    { intros Hin. simpl in H. apply NoDup_remove_2 in H. apply H.
      apply in_or_app. now left. }
    rewrite hasOwnProperty_get.
    destruct (get_prop acc k) eqn:E.
    + exfalso. apply Hk. apply hasOwnProperty_keys.
      rewrite hasOwnProperty_get. now rewrite E.
    + simpl. rewrite (set_prop_new _ _ _ Hk), IH.
      * now rewrite <- app_assoc.
      * unfold keys in *. rewrite map_app, <- app_assoc. exact H.
Qed.

Lemma fold_set_prop_fresh (es : list entry) (acc : obj) :
  NoDup (keys acc ++ keys es) ->
  fold_left (fun o e => set_prop o (fst e) (snd e)) es acc = acc ++ es.
Proof.
  revert acc. induction es as [|[k w] es IH]; intros acc H; simpl.
  - now rewrite app_nil_r.
  - assert (Hk : ~ In k (keys acc)).
    { intros Hin. simpl in H. apply NoDup_remove_2 in H. apply H.
      apply in_or_app. now left. }
    rewrite (set_prop_new _ _ _ Hk), IH.
    + now rewrite <- app_assoc.
    + unfold keys in *. rewrite map_app, <- app_assoc. exact H.
Qed.

Lemma sanitizers_agree (r : list entry) :
  NoDup (keys r) -> DbfToMongo.sanitizeRecord r = Part001.sanitizeRecord r.
Proof.
  intros H.
  unfold DbfToMongo.sanitizeRecord, DbfToMongo_Sanitizer.sanitizeRecord.
  unfold Part001.sanitizeRecord, Object_fromEntries.
  rewrite (fold_sanitize_fresh r [] H).
  change (fun '(key, value) => (key, clean value)) with clean_entry.
  rewrite fold_set_prop_fresh; [reflexivity|].
  simpl. now rewrite keys_map_clean.
Qed.




(** ** The sanitizers on not-a-number values *)

Lemma In_sanitized (out r' : obj) (r : list entry) (k : string) (v : value) :
  NoDup (keys out) ->
  get_prop out k = option_map clean (get_prop r' k) ->
  (forall w, In (k, w) r' -> In (k, w) r) ->
  In (k, v) out ->
  nan_guard v = false /\
  exists v0, In (k, v0) r /\ v = (if nan_guard v0 then VNum 0%float else v0).
Proof.
  intros Hnd Hget Hsub Hin.
  apply (In_get_prop _ _ _ Hnd) in Hin. rewrite Hget in Hin.
  destruct (get_prop r' k) as [v0|] eqn:E; [|discriminate].
  injection Hin as <-. split; [apply clean_not_nan|].
  exists v0. split; [|reflexivity].
  apply Hsub. now apply get_prop_In.
Qed.

(** C4.  The value a sanitized record holds under a name is the value the
    raw record holds under it, the first of them for the sanitizer of
    [scripts/dbfToMongo.js] and the last for the one of [part_003], with zero
    in its place when it is a number that is not-a-number and unchanged
    otherwise (a string, a boolean, a date, null, or a number that is a
    number).  So every field of a sanitized record comes from a field of the
    same name of the raw record, and none is a not-a-number. *)
Theorem sanitizer_nan_becomes_zero (r : list entry) (k : string) :
  get_prop (DbfToMongo.sanitizeRecord r) k =
    option_map (fun v0 => if nan_guard v0 then VNum 0%float else v0)
      (get_prop r k) /\
  get_prop (Part003.sanitizeRecord r) k =
    option_map (fun v0 => if nan_guard v0 then VNum 0%float else v0)
      (get_prop (rev r) k) /\
  forall v,
    In (k, v) (DbfToMongo.sanitizeRecord r) \/
    In (k, v) (Part003.sanitizeRecord r) ->
    nan_guard v = false /\
    exists v0,
      In (k, v0) r /\ v = (if nan_guard v0 then VNum 0%float else v0).
Proof.
  split; [apply main_sanitize_get|]. split; [apply variant_sanitize_get|].
  intros v [Hin|Hin].
  - apply (In_sanitized _ r r k v (main_sanitize_NoDup r)
             (main_sanitize_get r k)); auto.
  - apply (In_sanitized _ (rev r) r k v (variant_sanitize_NoDup r)
             (variant_sanitize_get r k)); auto.
    intros w Hw. now apply in_rev.
Qed.

Lemma sanitizer_nan_becomes_zero_witness :
  nan_guard (VNum 0%float) = false /\
  exists v0,
    In ("PRIX", v0) Example.rec1 /\
    VNum 0%float = (if nan_guard v0 then VNum 0%float else v0).
Proof.
  exact (proj2 (proj2 (sanitizer_nan_becomes_zero Example.rec1 "PRIX"))
           (VNum 0%float) (or_introl (or_intror (or_introl eq_refl)))).
Defined.

(** ** Bulk writes *)

Section Writes.

Variable v : list obj -> obj -> option string.

Lemma write_unordered_app (c a b : list obj) :
  write_unordered v c (a ++ b) =
  (fst (write_unordered v (fst (write_unordered v c a)) b),
   match snd (write_unordered v c a) with
   | Some err => Some err
   | None => snd (write_unordered v (fst (write_unordered v c a)) b)
   end).
Proof.
  revert c. induction a as [|d a IH]; intros c; simpl.
  - now destruct (write_unordered v c b).
  - destruct (v c d) as [err|]; simpl.
    + now rewrite IH.
    + apply IH.
Qed.

Lemma write_unordered_length (c docs : list obj) :
  List.length c <= List.length (fst (write_unordered v c docs)) /\
  List.length (fst (write_unordered v c docs))
    <= List.length c + List.length docs /\
  (List.length (fst (write_unordered v c docs))
     = List.length c + List.length docs
   <-> snd (write_unordered v c docs) = None).
Proof.
  revert c. induction docs as [|d docs IH]; intros c; simpl.
  - repeat split; auto; lia.
  - destruct (v c d) as [err|]; simpl.
    + destruct (IH c) as (H1 & H2 & _).
      repeat split; try lia; intros H; try lia; discriminate.
    + destruct (IH (c ++ [d])) as (H1 & H2 & H3).
      rewrite length_app in *. simpl in *.
      repeat split; try lia.
      * intros H. apply H3. lia.
      * intros H. apply H3 in H. lia.
Qed.

Lemma write_ordered_accepted (c docs : list obj) :
  snd (write_unordered v c docs) = None ->
  write_ordered v c docs = write_unordered v c docs.
Proof.
  revert c. induction docs as [|d docs IH]; intros c; simpl; [reflexivity|].
  destruct (v c d) as [err|]; simpl; [discriminate | apply IH].
Qed.

End Writes.

(** ** Validation first, then the server *)

Lemma first_invalid_filter (model : Model) (docs : list obj) :
  first_invalid model docs = None <-> filter (valid model) docs = docs.
Proof.
  unfold valid. induction docs as [|d docs IH]; simpl; [tauto|].
  destruct (validate model d) as [err|].
  - split; [discriminate|]. intros H.
    assert (L : List.length (filter
                 (fun doc => match validate model doc with
                             | Some _ => false
                             | None => true
                             end) docs) <= List.length docs)
      by apply filter_length_le.
    rewrite H in L. simpl in L. lia.
  - rewrite IH. split; [now intros -> | now intros [= ->]].
Qed.

Lemma filter_valid_length (model : Model) (docs : list obj) :
  List.length (filter (valid model) docs) <= List.length docs /\
  (List.length (filter (valid model) docs) = List.length docs <->
   first_invalid model docs = None).
Proof.
  split; [apply filter_length_le|]. rewrite first_invalid_filter.
  split; [|now intros ->].
  induction docs as [|d docs IH]; simpl; [reflexivity|].
  destruct (valid model d); simpl; intros H.
  - f_equal. apply IH. lia.
  - pose proof (filter_length_le (valid model) docs). lia.
Qed.

(** What an unordered [insertMany] stores, and when it leaves nothing out
    and meets no write error. *)
Lemma write_unordered_sent (model : Model) (c docs : list obj) :
  fst (write_unordered (write_error model) c (filter (valid model) docs))
    = fst (write_unordered (refusal model) c docs) /\
  (snd (write_unordered (refusal model) c docs) = None <->
   first_invalid model docs = None /\
   snd (write_unordered (write_error model) c (filter (valid model) docs))
     = None).
Proof.
  unfold refusal, valid. revert c.
  induction docs as [|d docs IH]; intros c; simpl; [tauto|].
  destruct (validate model d) as [err|]; simpl.
  - split; [apply IH|]. split; [discriminate | intros [H _]; discriminate].
  - destruct (write_error model c d) as [err|]; simpl.
    + split; [apply IH|]. split; [discriminate | intros [_ H]; discriminate].
    + apply IH.
Qed.

(** ** Laws of the monad *)

Lemma run_eta {A : Type} (r : run A) : Run (trace r) (final r) (result r) = r.
Proof. now destruct r. Qed.

Lemma bind_ret_l {A B : Type} (a : A) (f : A -> M B) (db : DB) :
  bind (ret a) f db = f a db.
Proof. unfold bind, ret. simpl. apply run_eta. Qed.

Lemma bind_assoc {A B C : Type} (m : M A) (f : A -> M B) (g : B -> M C)
  (db : DB) :
  bind (bind m f) g db = bind m (fun a => bind (f a) g) db.
Proof.
  unfold bind. destruct (m db) as [t1 d1 [a|e|c|]]; simpl; try reflexivity.
  destruct (f a d1) as [t2 d2 [b|e|c|]]; simpl; try reflexivity.
  now rewrite app_assoc.
Qed.

Lemma bind_emit {B : Type} (e : event) (f : unit -> M B) (db : DB) :
  bind (emit e) f db =
  Run (e :: trace (f tt db)) (final (f tt db)) (result (f tt db)).
Proof. reflexivity. Qed.

Lemma bind_throw {A B : Type} (err : string) (f : A -> M B) (db : DB) :
  bind (throw err) f db = Run [] db (Throw err).
Proof. reflexivity. Qed.

Lemma result_bind {A B : Type} (m : M A) (f : A -> M B) (db : DB) :
  result (bind m f db) =
  match result (m db) with
  | Ret a => result (f a (final (m db)))
  | Throw err => Throw err
  | Exit code => Exit code
  | Diverge => Diverge
  end.
Proof. unfold bind. now destruct (result (m db)). Qed.

Lemma final_bind {A B : Type} (m : M A) (f : A -> M B) (db : DB) :
  final (bind m f db) =
  match result (m db) with
  | Ret a => final (f a (final (m db)))
  | _ => final (m db)
  end.
Proof. unfold bind. now destruct (result (m db)). Qed.

Lemma trace_bind {A B : Type} (m : M A) (f : A -> M B) (db : DB) :
  trace (bind m f db) =
  match result (m db) with
  | Ret a => trace (m db) ++ trace (f a (final (m db)))
  | _ => trace (m db)
  end.
Proof. unfold bind. now destruct (result (m db)). Qed.

Lemma settles_ret {A : Type} (a : A) : settles (ret a).
Proof. intros db. exact I. Qed.

Lemma settles_throw {A : Type} (err : string) : settles (@throw A err).
Proof. intros db. exact I. Qed.

Lemma settles_emit (e : event) : settles (emit e).
Proof. intros db. exact I. Qed.

Lemma settles_bind {A B : Type} (m : M A) (f : A -> M B) :
  settles m -> (forall a, settles (f a)) -> settles (bind m f).
Proof.
  intros Hm Hf db. rewrite result_bind. specialize (Hm db).
  destruct (result (m db)); try exact Hm; try exact I. apply Hf.
Qed.

Lemma settles_try_catch {A : Type} (m : M A) (h : string -> M A) :
  settles m -> (forall err, settles (h err)) -> settles (try_catch m h).
Proof.
  intros Hm Hh db. unfold try_catch. specialize (Hm db).
  destruct (result (m db)) eqn:E; try (rewrite E; exact I); try contradiction.
  simpl. apply Hh.
Qed.

(** ** Running a bind whose first part is known *)

Lemma bind_Ret {A B : Type} (m : M A) (f : A -> M B) (db d : DB) t a :
  m db = Run t d (Ret a) ->
  bind m f db = Run (t ++ trace (f a d)) (final (f a d)) (result (f a d)).
Proof. intros H. unfold bind. now rewrite H. Qed.

Lemma bind_Throw {A B : Type} (m : M A) (f : A -> M B) (db d : DB) t err :
  m db = Run t d (Throw err) -> bind m f db = Run t d (Throw err).
Proof. intros H. unfold bind. now rewrite H. Qed.

Lemma bind_Exit {A B : Type} (m : M A) (f : A -> M B) (db d : DB) t code :
  m db = Run t d (Exit code) -> bind m f db = Run t d (Exit code).
Proof. intros H. unfold bind. now rewrite H. Qed.

Lemma bind_Diverge {A B : Type} (m : M A) (f : A -> M B) (db d : DB) t :
  m db = Run t d Diverge -> bind m f db = Run t d Diverge.
Proof. intros H. unfold bind. now rewrite H. Qed.

Lemma try_catch_Ret {A : Type} (m : M A) (h : string -> M A) (db d : DB) t a :
  m db = Run t d (Ret a) -> try_catch m h db = Run t d (Ret a).
Proof. intros H. unfold try_catch. now rewrite H. Qed.

Lemma try_catch_Throw {A : Type} (m : M A) (h : string -> M A) (db d : DB) t
  err :
  m db = Run t d (Throw err) ->
  try_catch m h db =
  Run (t ++ trace (h err d)) (final (h err d)) (result (h err d)).
Proof. intros H. unfold try_catch. now rewrite H. Qed.

Lemma create_ok (model : Model) (doc : obj) (db : DB) :
  refusal model (db (collection model)) doc = None ->
  create model doc db =
  Run [Db (collection model) (Create doc)]
    (db_set db (collection model) (db (collection model) ++ [doc])) (Ret tt).
Proof. intros H. unfold create. now rewrite H. Qed.

Lemma create_rejected (model : Model) (doc : obj) (db : DB) (err : string) :
  refusal model (db (collection model)) doc = Some err ->
  create model doc db = Run [Db (collection model) (Create doc)] db (Throw err).
Proof. intros H. unfold create. now rewrite H. Qed.

Lemma appendFileSync_run env m db :
  appendFileSync env m db =
  match appendFileSync_error env with
  | None => Run [LogAppend (now_ISO env) m] db (Ret tt)
  | Some err => Run [] db (Throw err)
  end.
Proof. unfold appendFileSync. now destruct (appendFileSync_error env). Qed.

Ltac run_cbn := cbn [trace final result app negb].

(** ** The destination as a function *)

Lemma db_set_same (db : DB) (c : string) (docs : list obj) :
  db_set db c docs c = docs.
Proof. unfold db_set. now rewrite String.eqb_refl. Qed.

Lemma db_set_other (db : DB) (c c' : string) (docs : list obj) :
  String.eqb c c' = false -> db_set db c docs c' = db c'.
Proof. unfold db_set. now intros ->. Qed.

Section MainLoop.

Variable env : Env.
Variable model : Model.
Variable fileName : string.

Let coll := collection model.
Let v := refusal model.

Lemma insert_loop_accepted (record : obj) (rest : list obj) (n : nat) (db : DB) :
  v (db coll) (DbfToMongo.sanitizeRecord record) = None ->
  DbfToMongo.insert_loop env model fileName (record :: rest) n db =
  let doc := DbfToMongo.sanitizeRecord record in
  let r := DbfToMongo.insert_loop env model fileName rest (S n)
             (db_set db coll (db coll ++ [doc])) in
  Run (Db coll (Create doc) :: Progress (PUpdate (S n)) :: trace r)
    (final r) (result r).
Proof.
  intros H. subst coll v. cbn [DbfToMongo.insert_loop]. cbv zeta.
  erewrite bind_Ret; cycle 1.
  { apply try_catch_Ret.
    rewrite (bind_Ret _ _ _ _ _ _ (create_ok _ _ _ H)).
    unfold progressBar. rewrite bind_emit. reflexivity. }
  reflexivity.
Qed.

Lemma insert_loop_rejected_logged (record : obj) (rest : list obj) (n : nat)
  (db : DB) (err : string) :
  v (db coll) (DbfToMongo.sanitizeRecord record) = Some err ->
  appendFileSync_error env = None ->
  DbfToMongo.insert_loop env model fileName (record :: rest) n db =
  let doc := DbfToMongo.sanitizeRecord record in
  let r := DbfToMongo.insert_loop env model fileName rest n db in
  Run (Db coll (Create doc)
         :: Console LError (InsertErrorIn fileName err)
         :: LogAppend (now_ISO env) (InsertErrorIn fileName err)
         :: trace r)
    (final r) (result r).
Proof.
  intros H Hlog. subst coll v. cbn [DbfToMongo.insert_loop]. cbv zeta.
  erewrite bind_Ret; cycle 1.
  { erewrite try_catch_Throw;
      [|exact (bind_Throw _ _ _ _ _ _ (create_rejected _ _ _ _ H))].
    unfold console_error, DbfToMongo.logError.
    rewrite bind_emit. unfold bind. rewrite appendFileSync_run, Hlog.
    reflexivity. }
  reflexivity.
Qed.

Lemma insert_loop_rejected_unlogged (record : obj) (rest : list obj) (n : nat)
  (db : DB) (err err' : string) :
  v (db coll) (DbfToMongo.sanitizeRecord record) = Some err ->
  appendFileSync_error env = Some err' ->
  DbfToMongo.insert_loop env model fileName (record :: rest) n db =
  Run [Db coll (Create (DbfToMongo.sanitizeRecord record));
       Console LError (InsertErrorIn fileName err)]
    db (Throw err').
Proof.
  intros H Hlog. subst coll v. cbn [DbfToMongo.insert_loop]. cbv zeta.
  erewrite bind_Throw; cycle 1.
  { erewrite try_catch_Throw;
      [|exact (bind_Throw _ _ _ _ _ _ (create_rejected _ _ _ _ H))].
    unfold console_error, DbfToMongo.logError.
    rewrite bind_emit. unfold bind. rewrite appendFileSync_run, Hlog.
    reflexivity. }
  reflexivity.
Qed.

Lemma insert_loop_spec (records : list obj) (n : nat) (db : DB) :
  let w := write_unordered v (db coll) (map DbfToMongo.sanitizeRecord records) in
  let r := DbfToMongo.insert_loop env model fileName records n db in
  match result r with
  | Ret m =>
      m = n + (List.length (fst w) - List.length (db coll)) /\
      forall c, final r c = if String.eqb coll c then fst w else db c
  | Throw err => appendFileSync_error env = Some err /\ snd w <> None
  | _ => False
  end.
Proof.
  revert n db. induction records as [|record rest IH]; intros n db;
    cbv zeta; cbn [map write_unordered].
  - simpl. split; [lia|]. intros c.
    destruct (String.eqb coll c) eqn:E; [|reflexivity].
    apply String.eqb_eq in E. now subst c.
  - destruct (v (db coll) (DbfToMongo.sanitizeRecord record)) as [err|] eqn:Hv.
    + destruct (appendFileSync_error env) as [err'|] eqn:Hlog.
      * rewrite (insert_loop_rejected_unlogged _ _ _ _ _ _ Hv Hlog). simpl.
        split; [reflexivity | discriminate].
      * rewrite (insert_loop_rejected_logged _ _ _ _ _ Hv Hlog). simpl.
        specialize (IH n db). simpl in IH.
        destruct (result (DbfToMongo.insert_loop env model fileName rest n db));
          try exact IH.
        split; [apply IH | discriminate].
    + rewrite (insert_loop_accepted _ _ _ _ Hv). simpl.
      specialize (IH (S n) (db_set db coll
                              (db coll ++ [DbfToMongo.sanitizeRecord record]))).
      simpl in IH. rewrite db_set_same in IH.
      destruct (write_unordered_length v
                  (db coll ++ [DbfToMongo.sanitizeRecord record])
                  (map DbfToMongo.sanitizeRecord rest)) as (Hge & _).
      rewrite length_app in Hge. simpl in Hge.
      destruct (result (DbfToMongo.insert_loop env model fileName rest (S n) _));
        try exact IH.
      destruct IH as [Hm Hf]. split.
      * rewrite Hm, length_app. simpl. lia.
      * intros c. rewrite Hf. unfold db_set.
        now destruct (String.eqb coll c).
Qed.

End MainLoop.


(** ** The batch loop of [part_003] *)

Section BatchLoop.

Variable size : nat.
Variable model : Model.
Variable records : list obj.

Let coll := collection model.
Let v := refusal model.

(** The batch the loop writes at index [i], and the documents of it that
    pass validation, which are the ones [insertMany] sends. *)
Let batch (i : nat) : list obj :=
  map Part003.sanitizeRecord (slice records i (i + size)).

Let sent (i : nat) : list obj := filter (valid model) (batch i).

Lemma batch_loop_end (fuel i n : nat) (db : DB) :
  List.length records <= i ->
  Part003.batch_loop size model records (S fuel) i n db = Run [] db (Ret n).
Proof.
  intros H. simpl. apply Nat.ltb_ge in H. now rewrite H.
Qed.

Lemma batch_loop_written (fuel i n : nat) (db : DB) :
  i < List.length records ->
  snd (write_unordered (write_error model) (db coll) (sent i)) = None ->
  Part003.batch_loop size model records (S fuel) i n db =
  let r := Part003.batch_loop size model records fuel (i + size)
             (n + List.length (sent i))
             (db_set db coll (fst (write_unordered v (db coll) (batch i)))) in
  Run (Db coll (InsertMany (batch i) false)
         :: Progress (PUpdate (n + List.length (sent i)))
         :: trace r)
    (final r) (result r).
Proof.
  intros Hi Hw. subst v.
  rewrite <- (proj1 (write_unordered_sent model (db coll) (batch i))).
  subst coll sent batch. cbn [Part003.batch_loop].
  apply Nat.ltb_lt in Hi. rewrite Hi.
  unfold bind, try_catch, insertMany, insert_unordered. simpl.
  rewrite Hw. simpl. reflexivity.
Qed.

Lemma batch_loop_failed (fuel i n : nat) (db : DB) (err : string) :
  i < List.length records ->
  snd (write_unordered (write_error model) (db coll) (sent i)) = Some err ->
  Part003.batch_loop size model records (S fuel) i n db =
  let r := Part003.batch_loop size model records fuel (i + size) n
             (db_set db coll (fst (write_unordered v (db coll) (batch i)))) in
  Run (Db coll (InsertMany (batch i) false)
         :: Console LError (InsertError err)
         :: Progress (PUpdate n)
         :: trace r)
    (final r) (result r).
Proof.
  intros Hi Hw. subst v.
  rewrite <- (proj1 (write_unordered_sent model (db coll) (batch i))).
  subst coll sent batch. cbn [Part003.batch_loop].
  apply Nat.ltb_lt in Hi. rewrite Hi.
  unfold bind, try_catch, insertMany, insert_unordered. simpl.
  rewrite Hw. simpl. reflexivity.
Qed.

Lemma skipn_batch (i : nat) :
  map Part003.sanitizeRecord (skipn i records) =
  batch i ++ map Part003.sanitizeRecord (skipn (i + size) records).
Proof.
  subst batch. unfold slice. cbv beta.
  replace (i + size - i) with size by lia.
  rewrite <- map_app, Nat.add_comm, <- skipn_skipn.
  now rewrite firstn_skipn.
Qed.

Lemma batch_length (i : nat) :
  1 <= size -> i < List.length records -> 1 <= List.length (batch i).
Proof.
  intros Hs Hi. subst batch. unfold slice. cbv beta.
  replace (i + size - i) with size by lia.
  rewrite length_map, length_firstn, length_skipn. lia.
Qed.

(** The count a batch adds is the number of documents it stored when
    nothing was refused, and never more than it stored. *)
Lemma sent_length (i : nat) (c : list obj) :
  snd (write_unordered (write_error model) c (sent i)) = None ->
  List.length (fst (write_unordered v c (batch i)))
    = List.length c + List.length (sent i) /\
  List.length (sent i) <= List.length (batch i) /\
  (List.length (sent i) = List.length (batch i) <->
   snd (write_unordered v c (batch i)) = None).
Proof.
  intros Hw. subst v.
  destruct (write_unordered_sent model c (batch i)) as [Hf Hs].
  destruct (write_unordered_length (write_error model) c (sent i))
    as (_ & _ & L3).
  destruct (filter_valid_length model (batch i)) as [F1 F2].
  fold (sent i) in Hf, Hs, F1, F2.
  rewrite <- Hf. split; [now apply L3|]. split; [exact F1|].
  rewrite F2, Hs. tauto.
Qed.

Lemma batch_loop_spec (fuel i n : nat) (db : DB) :
  1 <= size ->
  List.length records - i < fuel ->
  let rest := map Part003.sanitizeRecord (skipn i records) in
  let w := write_unordered v (db coll) rest in
  let r := Part003.batch_loop size model records fuel i n db in
  exists m,
    result r = Ret m /\
    n <= m /\
    m <= n + (List.length (fst w) - List.length (db coll)) /\
    (m = n + List.length rest <-> snd w = None) /\
    forall c, final r c = if String.eqb coll c then fst w else db c.
Proof.
  intros Hs. revert i n db.
  induction fuel as [|fuel IH]; intros i n db Hfuel; [lia|].
  cbv zeta.
  destruct (Nat.lt_ge_cases i (List.length records)) as [Hi|Hi].
  - rewrite skipn_batch, write_unordered_app.
    pose proof (batch_length i Hs Hi) as Hb.
    destruct (write_unordered_length v (db coll) (batch i)) as (L1 & L2 & L3).
    set (db1 := db_set db coll (fst (write_unordered v (db coll) (batch i)))).
    assert (Hfuel' : List.length records - (i + size) < fuel) by lia.
    destruct (snd (write_unordered (write_error model) (db coll) (sent i)))
      as [err|] eqn:Hw.
    + rewrite (batch_loop_failed fuel i n db err Hi Hw). cbn [result final fst snd].
      destruct (IH (i + size) n db1 Hfuel') as (m & Hr & H1 & H2 & H3 & H4).
      subst db1. rewrite db_set_same in *.
      destruct (write_unordered_length v
                  (fst (write_unordered v (db coll) (batch i)))
                  (map Part003.sanitizeRecord (skipn (i + size) records)))
        as (K1 & K2 & K3).
      assert (Hv : snd (write_unordered v (db coll) (batch i)) <> None).
      { subst v. intros E.
        apply (write_unordered_sent model (db coll) (batch i)) in E.
        destruct E as [_ E]. fold (sent i) in E. congruence. }
      exists m. rewrite length_app.
      split; [exact Hr|]. split; [lia|]. split; [lia|]. split.
      * split; intros E; [exfalso; lia|].
        destruct (snd (write_unordered v (db coll) (batch i)));
          [discriminate E | now elim Hv].
      * intros c. rewrite H4. unfold db_set. now destruct (String.eqb coll c).
    + rewrite (batch_loop_written fuel i n db Hi Hw). cbn [result final fst snd].
      destruct (IH (i + size) (n + List.length (sent i)) db1 Hfuel')
        as (m & Hr & H1 & H2 & H3 & H4).
      subst db1. rewrite db_set_same in *.
      destruct (write_unordered_length v
                  (fst (write_unordered v (db coll) (batch i)))
                  (map Part003.sanitizeRecord (skipn (i + size) records)))
        as (K1 & K2 & K3).
      destruct (sent_length i (db coll) Hw) as (S1 & S2 & S3).
      exists m. rewrite length_app.
      split; [exact Hr|]. split; [lia|]. split; [lia|]. split.
      * split; intros E.
        -- assert (E1 : List.length (sent i) = List.length (batch i)) by lia.
           apply S3 in E1. rewrite E1. apply H3. lia.
        -- destruct (snd (write_unordered v (db coll) (batch i))) eqn:E1;
             [discriminate E|].
           assert (E2 : List.length (sent i) = List.length (batch i))
             by now apply S3.
           apply H3 in E. lia.
      * intros c. rewrite H4. unfold db_set. now destruct (String.eqb coll c).
  - rewrite (batch_loop_end fuel i n db Hi).
    rewrite (skipn_all2 records Hi). simpl.
    exists n. split; [reflexivity|]. split; [lia|]. split; [lia|].
    split; [split; intros _; [reflexivity | lia]|].
    intros c. destruct (String.eqb coll c) eqn:E; [|reflexivity].
    apply String.eqb_eq in E. now subst c.
Qed.

End BatchLoop.


(** ** What settles *)

Ltac settle :=
  repeat first
    [ apply settles_ret | apply settles_throw | apply settles_emit
    | apply settles_bind | apply settles_try_catch
    | progress unfold console_log, console_warn, console_error, progressBar
    | match goal with
      | |- forall _, _ => intro
      | |- settles (if ?b then _ else _) => destruct b
      | |- settles (match ?x with _ => _ end) => destruct x
      end ].

(** ** The primitives settle *)

Lemma settles_existsSync env p : settles (existsSync env p).
Proof. unfold existsSync. settle. Qed.

Lemma settles_open env p : settles (open env p).
Proof. unfold open. settle. Qed.

Lemma settles_readRecords dbf : settles (readRecords dbf).
Proof. unfold readRecords. settle. Qed.

Lemma settles_import env p : settles (import env p).
Proof. unfold import. settle. Qed.

Lemma settles_appendFileSync env m : settles (appendFileSync env m).
Proof. unfold appendFileSync. settle. Qed.

Lemma settles_deleteMany model : settles (deleteMany model).
Proof. intros db. unfold deleteMany. now destruct (deleteMany_error model). Qed.

Lemma settles_create model doc : settles (create model doc).
Proof.
  intros db. unfold create.
  now destruct (refusal model (db (collection model)) doc).
Qed.

Lemma settles_insertMany model docs ordered : settles (insertMany model docs ordered).
Proof.
  intros db. unfold insertMany. simpl.
  now destruct (snd _).
Qed.

Ltac settle_prim :=
  first [ apply settles_existsSync | apply settles_open
        | apply settles_readRecords | apply settles_import
        | apply settles_appendFileSync | apply settles_deleteMany
        | apply settles_create | apply settles_insertMany ].

Ltac settle_all := repeat (settle; try settle_prim).

Section MainSettles.
Variable env : Env.

Lemma main_settles_logError m : settles (DbfToMongo.logError env m).
Proof. apply settles_appendFileSync. Qed.

Lemma main_settles_loadModel folder t : settles (DbfToMongo.loadModel env folder t).
Proof. unfold DbfToMongo.loadModel. settle_all; apply main_settles_logError. Qed.

Lemma main_settles_insert_loop model fileName records n :
  settles (DbfToMongo.insert_loop env model fileName records n).
Proof.
  revert n. induction records as [|record rest IH]; intros n; simpl.
  - apply settles_ret.
  - settle_all; try apply main_settles_logError. apply IH.
Qed.

Lemma main_settles_processFile filePath model fileName folder :
  settles (DbfToMongo.processFile env filePath model fileName folder).
Proof.
  unfold DbfToMongo.processFile.
  settle_all; try apply main_settles_logError; apply main_settles_insert_loop.
Qed.

Lemma main_settles_load_models folder types :
  settles (DbfToMongo.load_models env folder types).
Proof.
  induction types as [|t types IH]; simpl.
  - apply settles_ret.
  - settle_all; try apply main_settles_loadModel. apply IH.
Qed.

Lemma main_settles_process_models folderPath folder models :
  settles (DbfToMongo.process_models env folderPath folder models).
Proof.
  induction models as [|[t model] models IH]; simpl.
  - apply settles_ret.
  - settle_all;
      first [ apply main_settles_processFile | apply main_settles_logError
            | apply main_settles_insert_loop | apply IH ].
Qed.

Lemma main_settles_site_body folder : settles (DbfToMongo.site_body env folder).
Proof.
  unfold DbfToMongo.site_body.
  settle_all; try apply main_settles_logError; try apply main_settles_load_models;
    apply main_settles_process_models.
Qed.

Lemma main_settles_site_loop sites : settles (DbfToMongo.site_loop env sites).
Proof.
  induction sites as [|s sites IH]; simpl.
  - apply settles_ret.
  - apply settles_bind; [apply main_settles_site_body | intros _; apply IH].
Qed.

End MainSettles.

Section VariantSettles.
Variable env : Env.

Lemma variant_settles_loadModel folder t : settles (Part003.loadModel env folder t).
Proof. unfold Part003.loadModel. settle_all. Qed.

Lemma variant_settles_insert_batches size model records :
  1 <= size -> settles (Part003.insert_batches size model records).
Proof.
  intros Hs db. unfold Part003.insert_batches.
  destruct (batch_loop_spec size model records (S (List.length records)) 0 0 db Hs)
    as (m & Hr & _); [lia|].
  now rewrite Hr.
Qed.

Lemma variant_settles_processFile_with size filePath model fileName folder :
  1 <= size ->
  settles (Part003.processFile_with env size filePath model fileName folder).
Proof.
  intros Hs. unfold Part003.processFile_with.
  settle_all. now apply variant_settles_insert_batches.
Qed.

Lemma batchSize_pos : 1 <= Part003.batchSize.
Proof. unfold Part003.batchSize. lia. Qed.

Lemma variant_settles_processFile filePath model fileName folder :
  settles (Part003.processFile env filePath model fileName folder).
Proof. apply variant_settles_processFile_with, batchSize_pos. Qed.

Lemma variant_settles_load_models folder types :
  settles (Part003.load_models env folder types).
Proof.
  induction types as [|t types IH]; simpl.
  - apply settles_ret.
  - settle_all; first [apply variant_settles_loadModel | apply IH].
Qed.

Lemma variant_settles_process_models folderPath folder models :
  settles (Part003.process_models env folderPath folder models).
Proof.
  induction models as [|[t model] models IH];
    cbn [Part003.process_models].
  - apply settles_ret.
  - settle_all; first [apply variant_settles_processFile | apply IH | apply variant_settles_insert_batches, batchSize_pos].
Qed.

Lemma variant_settles_site_body folder : settles (Part003.site_body env folder).
Proof.
  unfold Part003.site_body.
  settle_all; first [apply variant_settles_load_models | apply variant_settles_process_models].
Qed.

Lemma variant_settles_site_loop sites : settles (Part003.site_loop env sites).
Proof.
  induction sites as [|s sites IH]; simpl.
  - apply settles_ret.
  - apply settles_bind; [apply variant_settles_site_body | intros _; apply IH].
Qed.

End VariantSettles.


(** ** The run of a whole script *)

Lemma main_connectDB_ok env db :
  mongoose_connect env (uri_of env) = None ->
  DbfToMongo.connectDB env db =
  Run [Console LLog Connecting; MongoConnect (uri_of env);
       Console LLog Connected] db (Ret tt).
Proof.
  intros Hc. unfold uri_of in Hc.
  unfold DbfToMongo.connectDB, try_catch, connect, bind. simpl.
  rewrite Hc. reflexivity.
Qed.

Lemma main_connectDB_refused env db err :
  mongoose_connect env (uri_of env) = Some err ->
  DbfToMongo.connectDB env db =
  Run [Console LLog Connecting; MongoConnect (uri_of env);
       Console LError (MongoError err)] db (Exit 1).
Proof.
  intros Hc. unfold uri_of in Hc.
  unfold DbfToMongo.connectDB, try_catch, connect, bind. simpl.
  rewrite Hc. reflexivity.
Qed.

Lemma main_script_refused env sites db err :
  truthy (mongoUri env) = true ->
  mongoose_connect env (uri_of env) = Some err ->
  DbfToMongo.script_on env sites db =
  Run [Console LLog Connecting; MongoConnect (uri_of env);
       Console LError (MongoError err)] db (Exit 1).
Proof.
  intros H Hc. unfold DbfToMongo.script_on, DbfToMongo.importDbfsData_on.
  rewrite H. cbn [negb]. rewrite bind_ret_l.
  unfold try_finally, try_catch.
  rewrite (bind_Exit _ _ _ _ _ _ (main_connectDB_refused env db err Hc)).
  reflexivity.
Qed.

Lemma main_script_connected env sites db :
  truthy (mongoUri env) = true ->
  mongoose_connect env (uri_of env) = None ->
  let r := DbfToMongo.site_loop env sites db in
  let pre := [Console LLog Connecting; MongoConnect (uri_of env);
              Console LLog Connected] in
  DbfToMongo.script_on env sites db =
  match result r with
  | Ret _ =>
      Run (pre ++ trace r ++ [Console LLog AllDone; Console LLog TotalElapsed;
                              Console LLog TimeEnd])
        (final r) (Exit 0)
  | Throw err =>
      Run (pre ++ trace r ++
           Console LError (ErrorMsg err) ::
           match appendFileSync_error env with
           | None => [LogAppend (now_ISO env) (Critical err)]
           | Some _ => []
           end)
        (final r) (Exit 0)
  | Exit code => Run (pre ++ trace r) (final r) (Exit code)
  | Diverge => Run (pre ++ trace r) (final r) Diverge
  end.
Proof.
  intros H Hc. unfold DbfToMongo.script_on, DbfToMongo.importDbfsData_on.
  rewrite H. cbn [negb]. rewrite bind_ret_l.
  unfold try_finally, try_catch.
  rewrite (bind_Ret _ _ _ _ _ _ (main_connectDB_ok env db Hc)).
  destruct (DbfToMongo.site_loop env sites db) as [t d [[]|err|code|]] eqn:E;
    cbv zeta.
  - rewrite (bind_Ret _ _ _ _ _ _ E). cbn. rewrite ?app_nil_r. reflexivity.
  - rewrite (bind_Throw _ _ _ _ _ _ E). cbn [result trace final].
    unfold DbfToMongo.logError, appendFileSync, console_error, bind.
    cbn. destruct (appendFileSync_error env); cbn; rewrite ?app_nil_r;
      reflexivity.
  - rewrite (bind_Exit _ _ _ _ _ _ E). cbn. rewrite ?app_nil_r. reflexivity.
  - rewrite (bind_Diverge _ _ _ _ _ E). cbn. rewrite ?app_nil_r. reflexivity.
Qed.

Lemma existsSync_run env p db :
  existsSync env p db = Run [FsExists p] db (Ret (fs_existsSync env p)).
Proof. reflexivity. Qed.

Lemma open_ok env p db dbf :
  DBFFile_open env p = inr dbf -> open env p db = Run [DbfOpen p] db (Ret dbf).
Proof. intros H. unfold open, bind. simpl. now rewrite H. Qed.

Lemma readRecords_ok dbf db records :
  readRecords_result dbf = inr records ->
  readRecords dbf db = Run [DbfReadRecords] db (Ret records).
Proof. intros H. unfold readRecords, bind. simpl. now rewrite H. Qed.

Lemma deleteMany_ok model db :
  deleteMany_error model = None ->
  deleteMany model db =
  Run [Db (collection model) DeleteMany] (db_set db (collection model) [])
    (Ret tt).
Proof. intros H. unfold deleteMany. now rewrite H. Qed.

Lemma variant_script_unset env sites db :
  truthy (mongoUri env) = false ->
  Part003.script_on env sites db =
  Run [Console LError MongoUriUndefined] db (Exit 1).
Proof.
  intros H. unfold Part003.script_on. rewrite H. reflexivity.
Qed.

Lemma main_script_unset env sites db :
  truthy (mongoUri env) = false ->
  DbfToMongo.script_on env sites db =
  Run [Console LError MongoUriUndefined] db (Exit 1).
Proof.
  intros H. unfold DbfToMongo.script_on. rewrite H. reflexivity.
Qed.

Lemma variant_connectDB_ok env db :
  mongoose_connect env (uri_of env) = None ->
  Part003.connectDB env db =
  Run [Console LLog Connecting; MongoConnect (uri_of env);
       Console LLog Connected] db (Ret tt).
Proof.
  intros Hc. unfold uri_of in Hc.
  unfold Part003.connectDB, try_catch, connect, bind. simpl.
  rewrite Hc. reflexivity.
Qed.

Lemma variant_connectDB_refused env db err :
  mongoose_connect env (uri_of env) = Some err ->
  Part003.connectDB env db =
  Run [Console LLog Connecting; MongoConnect (uri_of env);
       Console LError (MongoError err)] db (Exit 1).
Proof.
  intros Hc. unfold uri_of in Hc.
  unfold Part003.connectDB, try_catch, connect, bind. simpl.
  rewrite Hc. reflexivity.
Qed.

Lemma variant_script_refused env sites db err :
  truthy (mongoUri env) = true ->
  mongoose_connect env (uri_of env) = Some err ->
  Part003.script_on env sites db =
  Run [Console LLog Connecting; MongoConnect (uri_of env);
       Console LError (MongoError err)] db (Exit 1).
Proof.
  intros H Hc. unfold Part003.script_on, Part003.importDbfsData_on.
  rewrite H. cbn [negb]. rewrite bind_ret_l.
  unfold try_finally, try_catch.
  rewrite (bind_Exit _ _ _ _ _ _ (variant_connectDB_refused env db err Hc)).
  reflexivity.
Qed.

Lemma variant_script_connected env sites db :
  truthy (mongoUri env) = true ->
  mongoose_connect env (uri_of env) = None ->
  let r := Part003.site_loop env sites db in
  let pre := [Console LLog Connecting; MongoConnect (uri_of env);
              Console LLog Connected] in
  Part003.script_on env sites db =
  match result r with
  | Ret _ =>
      Run (pre ++ trace r ++ [Console LLog AllDone; Console LLog TotalElapsed;
                              Console LLog TimeEnd])
        (final r) (Exit 0)
  | Throw err =>
      Run (pre ++ trace r ++
           [Console LError (ErrorMsg err); Console LLog ElapsedBeforeError;
            Console LLog TimeEnd])
        (final r) (Exit 0)
  | Exit code => Run (pre ++ trace r) (final r) (Exit code)
  | Diverge => Run (pre ++ trace r) (final r) Diverge
  end.
Proof.
  intros H Hc. unfold Part003.script_on, Part003.importDbfsData_on.
  rewrite H. cbn [negb]. rewrite bind_ret_l.
  unfold try_finally, try_catch.
  rewrite (bind_Ret _ _ _ _ _ _ (variant_connectDB_ok env db Hc)).
  destruct (Part003.site_loop env sites db) as [t d [[]|err|code|]] eqn:E;
    cbv zeta.
  - rewrite (bind_Ret _ _ _ _ _ _ E). cbn. rewrite ?app_nil_r. reflexivity.
  - rewrite (bind_Throw _ _ _ _ _ _ E). cbn. rewrite ?app_nil_r. reflexivity.
  - rewrite (bind_Exit _ _ _ _ _ _ E). cbn. rewrite ?app_nil_r. reflexivity.
  - rewrite (bind_Diverge _ _ _ _ _ E). cbn. rewrite ?app_nil_r. reflexivity.
Qed.

(** ** A load whose archive is there *)




(** ** A load whose archive is missing *)

Lemma variant_processFile_missing env filePath model fileName folder db :
  fs_existsSync env filePath = false ->
  Part003.processFile env filePath model fileName folder db =
  Run [FsExists filePath; Console LWarn (FileMissing fileName folder)]
    db (Ret tt).
Proof.
  intros He. unfold Part003.processFile, Part003.processFile_with.
  rewrite (bind_Ret _ _ _ _ _ _ (existsSync_run _ _ _)), He. reflexivity.
Qed.

Lemma main_processFile_missing env filePath model fileName folder db :
  fs_existsSync env filePath = false ->
  DbfToMongo.processFile env filePath model fileName folder db =
  match appendFileSync_error env with
  | None =>
      Run [FsExists filePath; Console LWarn (FileMissing fileName folder);
           LogAppend (now_ISO env) (FileMissing fileName folder)]
        db (Ret tt)
  | Some err =>
      Run [FsExists filePath; Console LWarn (FileMissing fileName folder)]
        db (Throw err)
  end.
Proof.
  intros He. unfold DbfToMongo.processFile.
  rewrite (bind_Ret _ _ _ _ _ _ (existsSync_run _ _ _)), He. run_cbn.
  unfold console_warn. rewrite bind_emit. unfold DbfToMongo.logError.
  rewrite appendFileSync_run.
  destruct (appendFileSync_error env); reflexivity.
Qed.

(** ** The loop over the sites *)

Lemma bind_ext {A B : Type} (m : M A) (f g : A -> M B) (db : DB) :
  (forall a d, f a d = g a d) -> bind m f db = bind m g db.
Proof.
  intros H. unfold bind. destruct (result (m db)); try reflexivity.
  now rewrite H.
Qed.

Lemma main_site_loop_app env l1 l2 db :
  DbfToMongo.site_loop env (l1 ++ l2) db =
  bind (DbfToMongo.site_loop env l1) (fun _ => DbfToMongo.site_loop env l2) db.
Proof.
  revert db. induction l1 as [|s l1 IH]; intros db;
    cbn [app DbfToMongo.site_loop].
  - now rewrite bind_ret_l.
  - rewrite bind_assoc. apply bind_ext. intros _ d. apply IH.
Qed.

Lemma variant_site_loop_app env l1 l2 db :
  Part003.site_loop env (l1 ++ l2) db =
  bind (Part003.site_loop env l1) (fun _ => Part003.site_loop env l2) db.
Proof.
  revert db. induction l1 as [|s l1 IH]; intros db;
    cbn [app Part003.site_loop].
  - now rewrite bind_ret_l.
  - rewrite bind_assoc. apply bind_ext. intros _ d. apply IH.
Qed.

Lemma variant_site_body_missing env s db :
  fs_existsSync env (path_join DBF_FOLDER s) = false ->
  Part003.site_body env s db =
  Run [FsExists (path_join DBF_FOLDER s);
       Console LWarn (FolderMissing (path_join DBF_FOLDER s))] db (Ret tt).
Proof.
  intros He. unfold Part003.site_body. cbv zeta.
  rewrite (bind_Ret _ _ _ _ _ _ (existsSync_run _ _ _)), He. reflexivity.
Qed.

Lemma main_site_body_missing env s db :
  fs_existsSync env (path_join DBF_FOLDER s) = false ->
  DbfToMongo.site_body env s db =
  match appendFileSync_error env with
  | None =>
      Run [FsExists (path_join DBF_FOLDER s);
           Console LWarn (FolderMissing (path_join DBF_FOLDER s));
           LogAppend (now_ISO env) (FolderMissing (path_join DBF_FOLDER s))]
        db (Ret tt)
  | Some err =>
      Run [FsExists (path_join DBF_FOLDER s);
           Console LWarn (FolderMissing (path_join DBF_FOLDER s))]
        db (Throw err)
  end.
Proof.
  intros He. unfold DbfToMongo.site_body. cbv zeta.
  rewrite (bind_Ret _ _ _ _ _ _ (existsSync_run _ _ _)), He. run_cbn.
  unfold console_warn. rewrite bind_emit. unfold DbfToMongo.logError.
  rewrite appendFileSync_run.
  destruct (appendFileSync_error env); reflexivity.
Qed.

(** ** [part_002]: a rejected batch *)

Lemma part002_batch_rejected (size : nat) (model : Model) (records : list obj)
  (fuel i n : nat) (db : DB) (err : string) :
  i < List.length records ->
  snd (insert_ordered model (db (collection model))
         (map Part002.sanitizeRecord (slice records i (i + size)))) = Some err ->
  Part002.batch_loop size model records (S fuel) i n db =
  Run [Db (collection model)
         (InsertMany (map Part002.sanitizeRecord (slice records i (i + size)))
            true)]
    (db_set db (collection model)
       (fst (insert_ordered model (db (collection model))
               (map Part002.sanitizeRecord (slice records i (i + size))))))
    (Throw err).
Proof.
  intros Hi Hw. cbn [Part002.batch_loop].
  apply Nat.ltb_lt in Hi. rewrite Hi.
  unfold bind, insertMany. simpl. rewrite Hw. reflexivity.
Qed.

Lemma part002_connectDB_ok env db :
  mongoose_connect env (uri_of env) = None ->
  Part002.connectDB env db =
  Run [Console LLog Connecting; MongoConnect (uri_of env);
       Console LLog Connected] db (Ret tt).
Proof.
  intros Hc. unfold uri_of in Hc.
  unfold Part002.connectDB, try_catch, connect, bind. simpl.
  rewrite Hc. reflexivity.
Qed.


(** ** The exit code after the connection *)

Lemma main_exit_zero env sites db :
  truthy (mongoUri env) = true ->
  mongoose_connect env (uri_of env) = None ->
  exit_code (DbfToMongo.script_on env sites db) = Some 0.
Proof.
  intros Hu Hc. rewrite (main_script_connected env sites db Hu Hc). cbv zeta.
  pose proof (main_settles_site_loop env sites db) as Hs.
  unfold exit_code.
  destruct (result (DbfToMongo.site_loop env sites db));
    try reflexivity; contradiction.
Qed.

Lemma variant_exit_zero env sites db :
  truthy (mongoUri env) = true ->
  mongoose_connect env (uri_of env) = None ->
  exit_code (Part003.script_on env sites db) = Some 0.
Proof.
  intros Hu Hc. rewrite (variant_script_connected env sites db Hu Hc). cbv zeta.
  pose proof (variant_settles_site_loop env sites db) as Hs.
  unfold exit_code.
  destruct (result (Part003.site_loop env sites db));
    try reflexivity; contradiction.
Qed.

(** ** The error log *)

(** C8 (as amended).  [logError] appends one line, the time of the call and
    the message, to the error log when the write succeeds.  It has no handler
    of its own: when the write fails, nothing is appended and the error of
    the write is raised to the caller, whose next steps do not run. *)
Theorem logError_appends_or_raises (env : Env) (m : message) (db : DB) :
  match appendFileSync_error env with
  | None =>
      DbfToMongo.logError env m db =
      Run [LogAppend (now_ISO env) m] db (Ret tt)
  | Some err =>
      DbfToMongo.logError env m db = Run [] db (Throw err) /\
      forall (B : Type) (k : unit -> M B),
        bind (DbfToMongo.logError env m) k db = Run [] db (Throw err)
  end.
Proof.
  unfold DbfToMongo.logError.
  pose proof (appendFileSync_run env m db) as H.
  destruct (appendFileSync_error env) as [err|]; [|exact H].
  split; [exact H|]. intros B k. now apply bind_Throw.
Qed.

(** C8, as stated, fails: with an error log that cannot be written,
    [logError] raises. *)
Lemma logError_raises_counterexample :
  DbfToMongo.logError
    (Example.world Example.uri None [] []
       (Some "EACCES: permission denied, open './error.log'")
       Example.accept_all)
    (FolderMissing "_dbf/AVB") Example.empty
  = Run [] Example.empty
      (Throw "EACCES: permission denied, open './error.log'").
Proof. reflexivity. Qed.

(** ** The start of a run *)

(** C2.  When neither environment variable gives a connection string,
    [scripts/dbfToMongo.js] prints one error and exits with code 1; when the
    connection is refused it prints the error and exits with code 1.  In
    both cases nothing else has happened: no directory looked up, no module
    imported, no archive opened or read, no operation on the destination, no
    load reported, and the destination is as it was.  In every other case
    the process exits with code 0. *)
Theorem start_failure_is_fatal (env : Env) (sites : list string) (db : DB) :
  match truthy (mongoUri env), mongoose_connect env (uri_of env) with
  | false, _ =>
      DbfToMongo.script_on env sites db =
      Run [Console LError MongoUriUndefined] db (Exit 1)
  | true, Some err =>
      DbfToMongo.script_on env sites db =
      Run [Console LLog Connecting; MongoConnect (uri_of env);
           Console LError (MongoError err)] db (Exit 1)
  | true, None =>
      exit_code (DbfToMongo.script_on env sites db) = Some 0
  end /\
  (truthy (mongoUri env) = false \/
   mongoose_connect env (uri_of env) <> None ->
   exit_code (DbfToMongo.script_on env sites db) = Some 1 /\
   final (DbfToMongo.script_on env sites db) = db /\
   filter is_source_event (trace (DbfToMongo.script_on env sites db)) = [] /\
   filter is_db_event (trace (DbfToMongo.script_on env sites db)) = [] /\
   filter is_import_done (trace (DbfToMongo.script_on env sites db)) = []).
Proof.
  destruct (truthy (mongoUri env)) eqn:Hu.
  - destruct (mongoose_connect env (uri_of env)) as [err|] eqn:Hc.
    + rewrite (main_script_refused env sites db err Hu Hc).
      split; [reflexivity|]. intros _. repeat split.
    + split; [now apply main_exit_zero|].
      intros [H|H]; [discriminate | now elim H].
  - rewrite (main_script_unset env sites db Hu).
    split; [now destruct (mongoose_connect env (uri_of env))|].
    intros _. repeat split.
Qed.

Lemma start_failure_is_fatal_witness :
  exit_code
    (DbfToMongo.script
       (Example.world None None [] [] None Example.accept_all) Example.empty)
  = Some 1 /\
  final
    (DbfToMongo.script
       (Example.world None None [] [] None Example.accept_all) Example.empty)
  = Example.empty /\
  filter is_source_event
    (trace (DbfToMongo.script
              (Example.world None None [] [] None Example.accept_all)
              Example.empty)) = [] /\
  filter is_db_event
    (trace (DbfToMongo.script
              (Example.world None None [] [] None Example.accept_all)
              Example.empty)) = [] /\
  filter is_import_done
    (trace (DbfToMongo.script
              (Example.world None None [] [] None Example.accept_all)
              Example.empty)) = [].
Proof.
  exact (proj2 (start_failure_is_fatal
                  (Example.world None None [] [] None Example.accept_all)
                  folders Example.empty) (or_introl eq_refl)).
Defined.

(** ** A load whose archive is missing *)

(** C5 (as amended).  When the archive path does not exist, [processFile]
    looks the path up, prints the warning and stops: it opens nothing, reads
    nothing, reports no counts, sends no operation to the destination (no
    [deleteMany]) and leaves it as it was.  In [part_003] it then returns.
    In [scripts/dbfToMongo.js] it also appends the warning to the error log,
    and returns when that write succeeds; when the write fails the load ends
    with the error of the write instead, the destination still untouched. *)
Theorem missing_archive_touches_nothing (env : Env) (filePath : string)
  (model : Model) (fileName folder : string) (db : DB) :
  fs_existsSync env filePath = false ->
  Part003.processFile env filePath model fileName folder db =
    Run [FsExists filePath; Console LWarn (FileMissing fileName folder)]
      db (Ret tt) /\
  DbfToMongo.processFile env filePath model fileName folder db =
    match appendFileSync_error env with
    | None =>
        Run [FsExists filePath; Console LWarn (FileMissing fileName folder);
             LogAppend (now_ISO env) (FileMissing fileName folder)]
          db (Ret tt)
    | Some err =>
        Run [FsExists filePath; Console LWarn (FileMissing fileName folder)]
          db (Throw err)
    end.
Proof.
  intros H. split.
  - now apply variant_processFile_missing.
  - now apply main_processFile_missing.
Qed.

Lemma missing_archive_touches_nothing_witness :
  Part003.processFile
    (Example.world Example.uri None ["_dbf/AVB/classes.dbf"] [] None
       Example.accept_all)
    "_dbf/AVB/classes.dbf" (Example.model_of "classes" Example.accept_all)
    "classnum" "AVB" Example.empty
  = Run [FsExists "_dbf/AVB/classes.dbf";
         Console LWarn (FileMissing "classnum" "AVB")]
      Example.empty (Ret tt) /\
  DbfToMongo.processFile
    (Example.world Example.uri None ["_dbf/AVB/classes.dbf"] [] None
       Example.accept_all)
    "_dbf/AVB/classes.dbf" (Example.model_of "classes" Example.accept_all)
    "classnum" "AVB" Example.empty
  = Run [FsExists "_dbf/AVB/classes.dbf";
         Console LWarn (FileMissing "classnum" "AVB");
         LogAppend "2024-05-01T08:00:00.000Z" (FileMissing "classnum" "AVB")]
      Example.empty (Ret tt).
Proof.
  apply (missing_archive_touches_nothing
           (Example.world Example.uri None ["_dbf/AVB/classes.dbf"] [] None
              Example.accept_all)).
  reflexivity.
Defined.

(** C5, as stated, fails in [scripts/dbfToMongo.js]: with a missing archive
    and an error log that cannot be written, [processFile] does not return,
    it raises the error of the write. *)
Lemma missing_archive_counterexample :
  fs_existsSync
    (Example.world Example.uri None ["_dbf/AVB/classes.dbf"] []
       (Some "EACCES: permission denied, open './error.log'")
       Example.accept_all)
    "_dbf/AVB/classes.dbf" = false /\
  result
    (DbfToMongo.processFile
       (Example.world Example.uri None ["_dbf/AVB/classes.dbf"] []
          (Some "EACCES: permission denied, open './error.log'")
          Example.accept_all)
       "_dbf/AVB/classes.dbf" (Example.model_of "classes" Example.accept_all)
       "classnum" "AVB" Example.empty)
  = Throw "EACCES: permission denied, open './error.log'".
Proof. split; reflexivity. Qed.

(** ** A site whose directory is missing *)

(** Skipping a turn that only emits [skip] changes neither the destination,
    nor the way the loop ends, nor the loads it reports. *)
Lemma skipped_turn (before after body : M unit) (skip : list event) (db : DB) :
  (forall d, body d = Run skip d (Ret tt)) ->
  filter is_import_done skip = [] ->
  let w := bind before (fun _ => bind body (fun _ => after)) db in
  let wo := bind before (fun _ => after) db in
  final w = final wo /\ result w = result wo /\
  filter is_import_done (trace w) = filter is_import_done (trace wo).
Proof.
  intros Hb Hs. cbv zeta. unfold bind.
  destruct (before db) as [t d [[]|err|code|]]; simpl; auto.
  rewrite Hb. simpl. repeat split.
  rewrite !filter_app, Hs. reflexivity.
Qed.

Lemma same_outcomes_script_main env sites sites' db :
  final (DbfToMongo.site_loop env sites db)
    = final (DbfToMongo.site_loop env sites' db) ->
  result (DbfToMongo.site_loop env sites db)
    = result (DbfToMongo.site_loop env sites' db) ->
  filter is_import_done (trace (DbfToMongo.site_loop env sites db))
    = filter is_import_done (trace (DbfToMongo.site_loop env sites' db)) ->
  same_outcomes (DbfToMongo.script_on env sites db)
    (DbfToMongo.script_on env sites' db).
Proof.
  intros Hf Hr Ht. unfold same_outcomes.
  destruct (truthy (mongoUri env)) eqn:Hu.
  - destruct (mongoose_connect env (uri_of env)) as [err|] eqn:Hc.
    + rewrite !(main_script_refused env _ db err Hu Hc). auto.
    + rewrite !(main_script_connected env _ db Hu Hc). cbv zeta.
      rewrite <- Hr.
      destruct (result (DbfToMongo.site_loop env sites db)); simpl;
        rewrite ?filter_app, Hf, Ht; auto.
  - rewrite !(main_script_unset env _ db Hu). auto.
Qed.

Lemma same_outcomes_script_variant env sites sites' db :
  final (Part003.site_loop env sites db)
    = final (Part003.site_loop env sites' db) ->
  result (Part003.site_loop env sites db)
    = result (Part003.site_loop env sites' db) ->
  filter is_import_done (trace (Part003.site_loop env sites db))
    = filter is_import_done (trace (Part003.site_loop env sites' db)) ->
  same_outcomes (Part003.script_on env sites db)
    (Part003.script_on env sites' db).
Proof.
  intros Hf Hr Ht. unfold same_outcomes.
  destruct (truthy (mongoUri env)) eqn:Hu.
  - destruct (mongoose_connect env (uri_of env)) as [err|] eqn:Hc.
    + rewrite !(variant_script_refused env _ db err Hu Hc). auto.
    + rewrite !(variant_script_connected env _ db Hu Hc). cbv zeta.
      rewrite <- Hr.
      destruct (result (Part003.site_loop env sites db)); simpl;
        rewrite ?filter_app, Hf, Ht; auto.
  - rewrite !(variant_script_unset env _ db Hu). auto.
Qed.

(** C9 (as amended).  Let the directory of site [s] be missing.  In
    [part_003] the loop over the sites, from [s] on, is the look-up of the
    directory and the warning followed by the loop over the sites after [s];
    so a run over a list that holds [s] leaves the same destination, ends the
    same way and reports the same loads with the same counts as the run over
    the list without [s], which has no entry for [s].  In
    [scripts/dbfToMongo.js] the warning is also appended to the error log,
    and the same holds when that write succeeds.  In both scripts the process
    exits with code 0 once the connection is made. *)
Theorem missing_site_is_skipped (env : Env) (l1 : list string) (s : string)
  (l2 : list string) (db : DB) :
  fs_existsSync env (path_join DBF_FOLDER s) = false ->
  (forall d,
     Part003.site_loop env (s :: l2) d =
     prepend (skip_events (path_join DBF_FOLDER s)) (Part003.site_loop env l2 d))
  /\
  same_outcomes (Part003.script_on env (l1 ++ s :: l2) db)
    (Part003.script_on env (l1 ++ l2) db)
  /\
  (appendFileSync_error env = None ->
   (forall d,
      DbfToMongo.site_loop env (s :: l2) d =
      prepend (skip_events_logged env (path_join DBF_FOLDER s))
        (DbfToMongo.site_loop env l2 d)) /\
   same_outcomes (DbfToMongo.script_on env (l1 ++ s :: l2) db)
     (DbfToMongo.script_on env (l1 ++ l2) db))
  /\
  (truthy (mongoUri env) = true ->
   mongoose_connect env (uri_of env) = None ->
   exit_code (Part003.script_on env (l1 ++ s :: l2) db) = Some 0 /\
   exit_code (DbfToMongo.script_on env (l1 ++ s :: l2) db) = Some 0).
Proof.
  intros He.
  assert (Hv : forall d,
             Part003.site_body env s d =
             Run (skip_events (path_join DBF_FOLDER s)) d (Ret tt))
    by (intros d; now apply variant_site_body_missing).
  split; [|split; [|split]].
  - intros d. cbn [Part003.site_loop].
    now rewrite (bind_Ret _ _ _ _ _ _ (Hv d)).
  - apply same_outcomes_script_variant;
      rewrite !variant_site_loop_app; cbn [Part003.site_loop];
      now apply (skipped_turn _ _ _ _ db Hv).
  - intros Hlog.
    assert (Hm : forall d,
               DbfToMongo.site_body env s d =
               Run (skip_events_logged env (path_join DBF_FOLDER s)) d (Ret tt)).
    { intros d. rewrite (main_site_body_missing env s d He). now rewrite Hlog. }
    split.
    + intros d. cbn [DbfToMongo.site_loop].
      now rewrite (bind_Ret _ _ _ _ _ _ (Hm d)).
    + apply same_outcomes_script_main;
        rewrite !main_site_loop_app; cbn [DbfToMongo.site_loop];
        now apply (skipped_turn _ _ _ _ db Hm).
  - intros Hu Hc. split.
    + now apply variant_exit_zero.
    + now apply main_exit_zero.
Qed.

Lemma missing_site_is_skipped_witness :
  same_outcomes
    (Part003.script_on
       (Example.world Example.uri None ["_dbf/ZZ"] [] None Example.accept_all)
       (["AVB"] ++ "ZZ" :: ["AW"]) Example.empty)
    (Part003.script_on
       (Example.world Example.uri None ["_dbf/ZZ"] [] None Example.accept_all)
       (["AVB"] ++ ["AW"]) Example.empty).
Proof.
  exact (proj1 (proj2
           (missing_site_is_skipped
              (Example.world Example.uri None ["_dbf/ZZ"] [] None
                 Example.accept_all)
              ["AVB"] "ZZ" ["AW"] Example.empty eq_refl))).
Defined.

(** C9, as stated, fails in [scripts/dbfToMongo.js]: when the directory of
    the first site is missing and the error log cannot be written, the
    script reports no load at all, while the run over the other thirteen
    sites reports their ninety-one loads. *)
Lemma missing_site_counterexample :
  fs_existsSync
    (Example.world Example.uri None ["_dbf/AVB"] []
       (Some "EACCES: permission denied, open './error.log'")
       Example.accept_all)
    (path_join DBF_FOLDER "AVB") = false /\
  filter is_import_done
    (trace (DbfToMongo.script
              (Example.world Example.uri None ["_dbf/AVB"] []
                 (Some "EACCES: permission denied, open './error.log'")
                 Example.accept_all)
              Example.empty)) = [] /\
  List.length
    (filter is_import_done
       (trace (DbfToMongo.script_on
                 (Example.world Example.uri None ["_dbf/AVB"] []
                    (Some "EACCES: permission denied, open './error.log'")
                    Example.accept_all)
                 (tl folders) Example.empty))) = 91 /\
  ~ same_outcomes
      (DbfToMongo.script_on
         (Example.world Example.uri None ["_dbf/AVB"] []
            (Some "EACCES: permission denied, open './error.log'")
            Example.accept_all)
         ([] ++ "AVB" :: tl folders) Example.empty)
      (DbfToMongo.script_on
         (Example.world Example.uri None ["_dbf/AVB"] []
            (Some "EACCES: permission denied, open './error.log'")
            Example.accept_all)
         ([] ++ tl folders) Example.empty).
Proof.
  split; [reflexivity|]. split; [vm_compute; reflexivity|].
  split; [vm_compute; reflexivity|].
  intros (_ & _ & H). apply (f_equal (@List.length event)) in H.
  vm_compute in H. discriminate H.
Qed.

(** ** An error that escapes the loop over the sites *)

(** C10 (as amended).  Once the connection is made, a run of
    [scripts/dbfToMongo.js] or of [part_003] exits with code 0, whatever
    happens in the loop over the sites.  When an error escapes that loop,
    the handler of [importDbfsData] prints it right after what the loop had
    emitted, the destination stays as the loop left it, and the [finally]
    block exits.  [scripts/dbfToMongo.js] also appends the error to the
    error log as a critical error when that write succeeds, and logs nothing
    when it fails; [part_003] has no error log and only prints the error.
    So an exit code other than 0 needs a missing connection string or a
    refused connection. *)
Theorem escaped_error_exits_zero (env : Env) (sites : list string) (db : DB) :
  (truthy (mongoUri env) = true ->
   mongoose_connect env (uri_of env) = None ->
   exit_code (DbfToMongo.script_on env sites db) = Some 0 /\
   exit_code (Part003.script_on env sites db) = Some 0 /\
   (forall err,
      result (DbfToMongo.site_loop env sites db) = Throw err ->
      DbfToMongo.script_on env sites db =
      Run ([Console LLog Connecting; MongoConnect (uri_of env);
            Console LLog Connected] ++
           trace (DbfToMongo.site_loop env sites db) ++
           Console LError (ErrorMsg err) ::
           match appendFileSync_error env with
           | None => [LogAppend (now_ISO env) (Critical err)]
           | Some _ => []
           end)
        (final (DbfToMongo.site_loop env sites db)) (Exit 0)) /\
   (forall err,
      result (Part003.site_loop env sites db) = Throw err ->
      Part003.script_on env sites db =
      Run ([Console LLog Connecting; MongoConnect (uri_of env);
            Console LLog Connected] ++
           trace (Part003.site_loop env sites db) ++
           [Console LError (ErrorMsg err); Console LLog ElapsedBeforeError;
            Console LLog TimeEnd])
        (final (Part003.site_loop env sites db)) (Exit 0)))
  /\
  (forall code,
     (exit_code (DbfToMongo.script_on env sites db) = Some code \/
      exit_code (Part003.script_on env sites db) = Some code) ->
     code <> 0 ->
     truthy (mongoUri env) = false \/
     mongoose_connect env (uri_of env) <> None).
Proof.
  split.
  - intros Hu Hc. split; [now apply main_exit_zero|].
    split; [now apply variant_exit_zero|]. split; intros err Hr.
    + rewrite (main_script_connected env sites db Hu Hc). cbv zeta.
      now rewrite Hr.
    + rewrite (variant_script_connected env sites db Hu Hc). cbv zeta.
      now rewrite Hr.
  - intros code Hcode Hnz.
    destruct (truthy (mongoUri env)) eqn:Hu; [|now left].
    destruct (mongoose_connect env (uri_of env)) eqn:Hc;
      [right; discriminate|].
    exfalso. apply Hnz.
    destruct Hcode as [H|H].
    + rewrite (main_exit_zero env sites db Hu Hc) in H. congruence.
    + rewrite (variant_exit_zero env sites db Hu Hc) in H. congruence.
Qed.

Lemma escaped_error_exits_zero_witness :
  exit_code
    (DbfToMongo.script_on
       (Example.world Example.uri None [] ["_dbf/AVB/classes.dbf"] None
          Example.accept_all)
       folders Example.empty) = Some 0.
Proof.
  exact (proj1 (proj1
           (escaped_error_exits_zero
              (Example.world Example.uri None [] ["_dbf/AVB/classes.dbf"] None
                 Example.accept_all)
              folders Example.empty) eq_refl eq_refl)).
Defined.

(** C10, as stated, fails on the logging.  Take the run in which the second
    archive of the first site does not open, so that the error escapes the
    loop over the sites.  In [scripts/dbfToMongo.js], when the error log
    cannot be written, the run exits with code 0 and no line has been
    appended to the error log; in [part_003] no line is appended even with a
    writable error log, since the script has none. *)
Lemma escaped_error_not_logged_counterexample :
  result
    (DbfToMongo.site_loop
       (Example.world Example.uri None [] ["_dbf/AVB/classes.dbf"]
          (Some "EACCES: permission denied, open './error.log'")
          Example.accept_all)
       folders Example.empty) = Throw "Invalid DBF file" /\
  exit_code
    (DbfToMongo.script
       (Example.world Example.uri None [] ["_dbf/AVB/classes.dbf"]
          (Some "EACCES: permission denied, open './error.log'")
          Example.accept_all)
       Example.empty) = Some 0 /\
  filter is_log_line
    (trace
       (DbfToMongo.script
          (Example.world Example.uri None [] ["_dbf/AVB/classes.dbf"]
             (Some "EACCES: permission denied, open './error.log'")
             Example.accept_all)
          Example.empty)) = [] /\
  result
    (Part003.site_loop
       (Example.world Example.uri None [] ["_dbf/AVB/classes.dbf"] None
          Example.accept_all)
       folders Example.empty) = Throw "Invalid DBF file" /\
  exit_code
    (Part003.script
       (Example.world Example.uri None [] ["_dbf/AVB/classes.dbf"] None
          Example.accept_all)
       Example.empty) = Some 0 /\
  filter is_log_line
    (trace
       (Part003.script
          (Example.world Example.uri None [] ["_dbf/AVB/classes.dbf"] None
             Example.accept_all)
          Example.empty)) = [].
Proof. repeat split; vm_compute; reflexivity. Qed.

(** ** A write that fails *)




(** ** Chunks *)


Lemma final_insert_batches (size : nat) (model : Model) (records : list obj)
  (db : DB) (c : string) :
  1 <= size ->
  final (Part003.insert_batches size model records db) c =
  if String.eqb (collection model) c
  then fst (write_unordered (refusal model) (db (collection model))
              (map Part003.sanitizeRecord records))
  else db c.
Proof.
  intros Hs. unfold Part003.insert_batches.
  destruct (batch_loop_spec size model records (S (List.length records))
              0 0 db Hs) as (m & _ & _ & _ & _ & Hf); [lia|].
  apply Hf.
Qed.





(** ** The inserted count *)





(** ** The scenario of the first site

    The [article] archive of site [AVB] holds three records, one of them
    with a not-a-number price: the record is stored with a zero price, and
    the load reports three records read and three inserted. *)
Example scenario_AVB_article :
  final
    (DbfToMongo.processFile
       (Example.world Example.uri None [] [] None Example.accept_all)
       "_dbf/AVB/article.dbf"
       (Example.model_of "articles" Example.accept_all)
       "article" "AVB" Example.empty) "articles"
  = [[("CODE", VStr "A1"); ("PRIX", VNum 0%float)];
     [("CODE", VStr "A2"); ("PRIX", VNum 2%float)];
     [("CODE", VStr "A3"); ("PRIX", VNull)]] /\
  filter is_import_done
    (trace
       (DbfToMongo.processFile
          (Example.world Example.uri None [] [] None Example.accept_all)
          "_dbf/AVB/article.dbf"
          (Example.model_of "articles" Example.accept_all)
          "article" "AVB" Example.empty))
  = [Console LLog (ImportDone "article" 3 3)].
Proof. split; vm_compute; reflexivity. Qed.

(** ** More on the sanitizers *)

Lemma clean_clean (v : value) : clean (clean v) = clean v.
Proof.
  unfold clean at 1. now rewrite clean_not_nan.
Qed.

Lemma clean_entry_fixed (o : obj) :
  Forall (fun e : entry => nan_guard (snd e) = false) o ->
  map clean_entry o = o.
Proof.
  induction 1 as [|[k w] o Hw _ IH]; simpl; [reflexivity|].
  simpl in Hw. unfold clean. now rewrite Hw, IH.
Qed.

Lemma main_sanitize_no_nan (r : list entry) :
  Forall (fun e : entry => nan_guard (snd e) = false) (DbfToMongo.sanitizeRecord r).
Proof.
  apply Forall_forall. intros [k w] Hin. simpl.
  apply (In_sanitized _ r r k w (main_sanitize_NoDup r)
           (main_sanitize_get r k)); auto.
Qed.

Lemma variant_sanitize_no_nan (r : list entry) :
  Forall (fun e : entry => nan_guard (snd e) = false) (Part001.sanitizeRecord r).
Proof.
  apply Forall_forall. intros [k w] Hin. simpl.
  apply (In_sanitized _ (rev r) r k w (variant_sanitize_NoDup r)
           (variant_sanitize_get r k)); auto.
  intros w0 Hw. now apply in_rev.
Qed.

Lemma main_sanitize_NoDup_input (r : list entry) :
  NoDup (keys r) -> DbfToMongo.sanitizeRecord r = map clean_entry r.
Proof.
  intros H.
  unfold DbfToMongo.sanitizeRecord, DbfToMongo_Sanitizer.sanitizeRecord.
  now rewrite (fold_sanitize_fresh r [] H).
Qed.

Lemma variant_sanitize_NoDup_input (r : list entry) :
  NoDup (keys r) -> Part001.sanitizeRecord r = map clean_entry r.
Proof.
  intros H. rewrite <- (sanitizers_agree r H).
  now apply main_sanitize_NoDup_input.
Qed.

(** X1.  Sanitizing is idempotent: a sanitized record is left as it is by a
    second pass, for the sanitizer of [scripts/dbfToMongo.js] and for the one
    of the variants. *)
Theorem sanitizeRecord_idempotent (r : list entry) :
  DbfToMongo.sanitizeRecord (DbfToMongo.sanitizeRecord r)
    = DbfToMongo.sanitizeRecord r /\
  Part001.sanitizeRecord (Part001.sanitizeRecord r)
    = Part001.sanitizeRecord r.
Proof.
  split.
  - rewrite (main_sanitize_NoDup_input _ (main_sanitize_NoDup r)).
    apply clean_entry_fixed, main_sanitize_no_nan.
  - rewrite (variant_sanitize_NoDup_input _ (variant_sanitize_NoDup r)).
    apply clean_entry_fixed, variant_sanitize_no_nan.
Qed.






(** ** Rules for [keeps], [emits] and [returns] *)

Lemma keeps_ret Q {A : Type} (a : A) : keeps Q (ret a).
Proof. intros db c _. reflexivity. Qed.

Lemma keeps_throw Q {A : Type} (err : string) : keeps Q (@throw A err).
Proof. intros db c _. reflexivity. Qed.

Lemma keeps_exit Q {A : Type} (code : nat) : keeps Q (@process_exit A code).
Proof. intros db c _. reflexivity. Qed.

Lemma keeps_emit Q (e : event) : keeps Q (emit e).
Proof. intros db c _. reflexivity. Qed.

Lemma keeps_bind Q {A B : Type} (m : M A) (f : A -> M B) :
  keeps Q m -> (forall a, keeps Q (f a)) -> keeps Q (bind m f).
Proof.
  intros Hm Hf db c Hc. rewrite final_bind.
  destruct (result (m db)); try now apply Hm.
  rewrite (Hf a _ c Hc). now apply Hm.
Qed.

Lemma keeps_bind_returns Q {A B : Type} (R : A -> Prop) (m : M A)
  (f : A -> M B) :
  returns R m -> keeps Q m -> (forall a, R a -> keeps Q (f a)) ->
  keeps Q (bind m f).
Proof.
  intros Hr Hm Hf db c Hc. rewrite final_bind.
  destruct (result (m db)) eqn:E; try now apply Hm.
  rewrite (Hf a (Hr db a E) _ c Hc). now apply Hm.
Qed.

Lemma keeps_try_catch Q {A : Type} (m : M A) (h : string -> M A) :
  keeps Q m -> (forall err, keeps Q (h err)) -> keeps Q (try_catch m h).
Proof.
  intros Hm Hh db c Hc. unfold try_catch.
  destruct (result (m db)); try now apply Hm.
  simpl. rewrite (Hh err _ c Hc). now apply Hm.
Qed.

Lemma keeps_try_finally Q {A : Type} (m : M A) (fin : M unit) :
  keeps Q m -> keeps Q fin -> keeps Q (try_finally m fin).
Proof.
  intros Hm Hf db c Hc. unfold try_finally.
  destruct (result (m db)); try now apply Hm.
  - simpl. rewrite (Hf _ c Hc). now apply Hm.
  - simpl. rewrite (Hf _ c Hc). now apply Hm.
Qed.

Lemma emits_ret P {A : Type} (a : A) : emits P (ret a).
Proof. intros db. constructor. Qed.

Lemma emits_throw P {A : Type} (err : string) : emits P (@throw A err).
Proof. intros db. constructor. Qed.

Lemma emits_exit P {A : Type} (code : nat) : emits P (@process_exit A code).
Proof. intros db. constructor. Qed.

Lemma emits_emit (P : event -> Prop) (e : event) : P e -> emits P (emit e).
Proof. intros H db. repeat constructor. exact H. Qed.

Lemma emits_bind P {A B : Type} (m : M A) (f : A -> M B) :
  emits P m -> (forall a, emits P (f a)) -> emits P (bind m f).
Proof.
  intros Hm Hf db. rewrite trace_bind.
  destruct (result (m db)); try now apply Hm.
  apply Forall_app. split; [apply Hm | apply Hf].
Qed.

Lemma emits_try_catch P {A : Type} (m : M A) (h : string -> M A) :
  emits P m -> (forall err, emits P (h err)) -> emits P (try_catch m h).
Proof.
  intros Hm Hh db. unfold try_catch.
  destruct (result (m db)); try now apply Hm.
  simpl. apply Forall_app. split; [apply Hm | apply Hh].
Qed.

Lemma emits_try_finally P {A : Type} (m : M A) (fin : M unit) :
  emits P m -> emits P fin -> emits P (try_finally m fin).
Proof.
  intros Hm Hf db. unfold try_finally.
  destruct (result (m db)); try (now apply Hm);
    simpl; apply Forall_app; (split; [apply Hm | apply Hf]).
Qed.

Lemma returns_ret {A : Type} (R : A -> Prop) (a : A) : R a -> returns R (ret a).
Proof. intros H db a' [= <-]. exact H. Qed.

Lemma returns_bind {A B : Type} (R : B -> Prop) (m : M A) (f : A -> M B) :
  (forall a, returns R (f a)) -> returns R (bind m f).
Proof.
  intros Hf db b. rewrite result_bind.
  destruct (result (m db)); try discriminate. apply Hf.
Qed.

Lemma returns_try_catch {A : Type} (R : A -> Prop) (m : M A)
  (h : string -> M A) :
  returns R m -> (forall err, returns R (h err)) -> returns R (try_catch m h).
Proof.
  intros Hm Hh db a. unfold try_catch.
  destruct (result (m db)) eqn:E; simpl; try (rewrite E; discriminate).
  - rewrite E. intros [= <-]. now apply (Hm db).
  - apply Hh.
Qed.

(** The primitives. *)

Lemma keeps_deleteMany (Q : string -> Prop) (model : Model) :
  ~ Q (collection model) -> keeps Q (deleteMany model).
Proof.
  intros H db c Hc. unfold deleteMany.
  destruct (deleteMany_error model); [reflexivity|]. simpl.
  unfold db_set. destruct (String.eqb (collection model) c) eqn:E;
    [|reflexivity].
  apply String.eqb_eq in E. subst c. contradiction.
Qed.

Lemma keeps_create (Q : string -> Prop) (model : Model) (doc : obj) :
  ~ Q (collection model) -> keeps Q (create model doc).
Proof.
  intros H db c Hc. unfold create.
  destruct (refusal model (db (collection model)) doc); [reflexivity|]. simpl.
  unfold db_set. destruct (String.eqb (collection model) c) eqn:E;
    [|reflexivity].
  apply String.eqb_eq in E. subst c. contradiction.
Qed.

Lemma keeps_insertMany (Q : string -> Prop) (model : Model) (docs : list obj)
  (ordered : bool) :
  ~ Q (collection model) -> keeps Q (insertMany model docs ordered).
Proof.
  intros H db c Hc. unfold insertMany. simpl.
  unfold db_set. destruct (String.eqb (collection model) c) eqn:E;
    [|reflexivity].
  apply String.eqb_eq in E. subst c. contradiction.
Qed.

Lemma emits_deleteMany (P : event -> Prop) (model : Model) :
  P (Db (collection model) DeleteMany) -> emits P (deleteMany model).
Proof.
  intros H db. unfold deleteMany.
  destruct (deleteMany_error model); repeat constructor; exact H.
Qed.

Lemma emits_create (P : event -> Prop) (model : Model) (doc : obj) :
  P (Db (collection model) (Create doc)) -> emits P (create model doc).
Proof.
  intros H db. unfold create.
  destruct (refusal model (db (collection model)) doc);
    repeat constructor; exact H.
Qed.

Lemma emits_insertMany (P : event -> Prop) (model : Model) (docs : list obj)
  (ordered : bool) :
  P (Db (collection model) (InsertMany docs ordered)) ->
  emits P (insertMany model docs ordered).
Proof. intros H db. unfold insertMany. repeat constructor. exact H. Qed.

(** One step of a proof that a script keeps, or emits only, something: the
    rules above, then the cases of the tests of the script. *)
Ltac frame_step :=
  first
    [ apply keeps_ret | apply keeps_throw | apply keeps_exit | apply keeps_emit
    | apply emits_ret | apply emits_throw | apply emits_exit
    | apply keeps_bind | apply keeps_try_catch | apply keeps_try_finally
    | apply emits_bind | apply emits_try_catch | apply emits_try_finally
    | progress unfold console_log, console_warn, console_error, progressBar,
        existsSync, open, readRecords, import, appendFileSync
    | match goal with
      | |- forall _, _ => intro
      | |- keeps _ (if ?b then _ else _) => destruct b
      | |- keeps _ (match ?x with _ => _ end) => destruct x
      | |- emits _ (if ?b then _ else _) => destruct b
      | |- emits _ (match ?x with _ => _ end) => destruct x
      | |- emits _ (emit _) => apply emits_emit; exact I
      end ].

Ltac frame := repeat frame_step.

(** ** A load, case by case *)

Lemma open_failed env p db err :
  DBFFile_open env p = inl err -> open env p db = Run [DbfOpen p] db (Throw err).
Proof. intros H. unfold open, bind. simpl. now rewrite H. Qed.

Lemma readRecords_failed dbf db err :
  readRecords_result dbf = inl err ->
  readRecords dbf db = Run [DbfReadRecords] db (Throw err).
Proof. intros H. unfold readRecords, bind. simpl. now rewrite H. Qed.

Lemma deleteMany_failed model db err :
  deleteMany_error model = Some err ->
  deleteMany model db = Run [Db (collection model) DeleteMany] db (Throw err).
Proof. intros H. unfold deleteMany. now rewrite H. Qed.

Ltac load_case_steps :=
  unfold load_cases, load_prefix;
  match goal with
  | He : fs_existsSync _ _ = true |- _ =>
      rewrite (bind_Ret _ _ _ _ _ _ (existsSync_run _ _ _)), He; run_cbn
  end;
  match goal with
  | |- context [DBFFile_open ?env ?p] =>
      destruct (DBFFile_open env p) as [err|dbf] eqn:Ho;
      [ now rewrite (bind_Throw _ _ _ _ _ _ (open_failed _ _ _ _ Ho)) | ];
      rewrite (bind_Ret _ _ _ _ _ _ (open_ok _ _ _ _ Ho)); run_cbn
  end;
  unfold console_log, progressBar; rewrite !bind_emit; run_cbn;
  match goal with
  | |- context [deleteMany_error ?model] =>
      destruct (deleteMany_error model) as [err|] eqn:Hd;
      [ now rewrite (bind_Throw _ _ _ _ _ _ (deleteMany_failed _ _ _ Hd)) | ];
      rewrite (bind_Ret _ _ _ _ _ _ (deleteMany_ok _ _ Hd)); run_cbn
  end;
  rewrite !bind_emit; run_cbn;
  match goal with
  | |- context [readRecords_result ?dbf] =>
      destruct (readRecords_result dbf) as [err|records] eqn:Hr;
      [ now rewrite (bind_Throw _ _ _ _ _ _ (readRecords_failed _ _ _ Hr)) | ];
      rewrite (bind_Ret _ _ _ _ _ _ (readRecords_ok _ _ _ Hr)); run_cbn
  end;
  unfold load_end.

Ltac load_case_end E :=
  first
    [ rewrite (bind_Ret _ _ _ _ _ _ E)
    | rewrite (bind_Throw _ _ _ _ _ _ E)
    | rewrite (bind_Exit _ _ _ _ _ _ E)
    | rewrite (bind_Diverge _ _ _ _ _ E) ];
  cbn; rewrite ?app_nil_r; reflexivity.

Lemma main_processFile_cases env filePath model fileName folder db :
  fs_existsSync env filePath = true ->
  DbfToMongo.processFile env filePath model fileName folder db =
  load_cases env filePath model fileName db
    (fun records => DbfToMongo.insert_loop env model fileName records 0).
Proof.
  intros He. unfold DbfToMongo.processFile. load_case_steps.
  destruct (DbfToMongo.insert_loop env model fileName records 0 _)
    as [t d [n|err|code|]] eqn:E; load_case_end E.
Qed.

Lemma variant_processFile_cases env size filePath model fileName folder db :
  fs_existsSync env filePath = true ->
  Part003.processFile_with env size filePath model fileName folder db =
  load_cases env filePath model fileName db
    (fun records => Part003.insert_batches size model records).
Proof.
  intros He. unfold Part003.processFile_with. load_case_steps.
  destruct (Part003.insert_batches size model records _)
    as [t d [n|err|code|]] eqn:E; load_case_end E.
Qed.

Lemma part001_processFile_cases env filePath model fileName folder db :
  fs_existsSync env filePath = true ->
  Part001Script.processFile env filePath model fileName folder db =
  load_cases env filePath model fileName db
    (fun records => Part001Script.insert_loop model records 0).
Proof.
  intros He. unfold Part001Script.processFile. load_case_steps.
  destruct (Part001Script.insert_loop model records 0 _)
    as [t d [n|err|code|]] eqn:E; load_case_end E.
Qed.

Lemma part001_processFile_missing env filePath model fileName folder db :
  fs_existsSync env filePath = false ->
  Part001Script.processFile env filePath model fileName folder db =
  Run [FsExists filePath; Console LWarn (FileMissing fileName folder)]
    db (Ret tt).
Proof.
  intros He. unfold Part001Script.processFile.
  rewrite (bind_Ret _ _ _ _ _ _ (existsSync_run _ _ _)), He. reflexivity.
Qed.

(** ** The record-by-record loop of [part_001] *)

Section Part001Loop.

Variable model : Model.

Let coll := collection model.
Let v := refusal model.

Lemma part001_insert_loop_accepted (record : obj) (rest : list obj) (n : nat)
  (db : DB) :
  v (db coll) (Part001Script.sanitizeRecord record) = None ->
  Part001Script.insert_loop model (record :: rest) n db =
  prepend
    [Db coll (Create (Part001Script.sanitizeRecord record));
     Progress (PUpdate (S n))]
    (Part001Script.insert_loop model rest (S n)
       (db_set db coll (db coll ++ [Part001Script.sanitizeRecord record]))).
Proof.
  intros H. subst coll v. cbn [Part001Script.insert_loop]. cbv zeta.
  erewrite bind_Ret; cycle 1.
  { apply try_catch_Ret.
    rewrite (bind_Ret _ _ _ _ _ _ (create_ok _ _ _ H)).
    unfold progressBar. rewrite bind_emit. reflexivity. }
  reflexivity.
Qed.

Lemma part001_insert_loop_rejected (record : obj) (rest : list obj) (n : nat)
  (db : DB) (err : string) :
  v (db coll) (Part001Script.sanitizeRecord record) = Some err ->
  Part001Script.insert_loop model (record :: rest) n db =
  prepend
    [Db coll (Create (Part001Script.sanitizeRecord record));
     Console LError (InsertError err)]
    (Part001Script.insert_loop model rest n db).
Proof.
  intros H. subst coll v. cbn [Part001Script.insert_loop]. cbv zeta.
  erewrite bind_Ret; cycle 1.
  { erewrite try_catch_Throw;
      [|exact (bind_Throw _ _ _ _ _ _ (create_rejected _ _ _ _ H))].
    unfold console_error. rewrite bind_emit. reflexivity. }
  reflexivity.
Qed.

Lemma part001_insert_loop_spec (records : list obj) (n : nat) (db : DB) :
  let w := write_unordered v (db coll)
             (map Part001Script.sanitizeRecord records) in
  let r := Part001Script.insert_loop model records n db in
  result r = Ret (n + (List.length (fst w) - List.length (db coll))) /\
  (forall c, final r c = if String.eqb coll c then fst w else db c) /\
  List.length (filter is_error_line (trace r))
    + (List.length (fst w) - List.length (db coll))
    = List.length records.
Proof.
  revert n db. induction records as [|record rest IH]; intros n db;
    cbv zeta; cbn [map write_unordered].
  - simpl. split; [f_equal; lia|]. split; [|lia]. intros c.
    destruct (String.eqb coll c) eqn:E; [|reflexivity].
    apply String.eqb_eq in E. now subst c.
  - destruct (v (db coll) (Part001Script.sanitizeRecord record)) as [err|]
      eqn:Hv.
    + rewrite (part001_insert_loop_rejected _ _ _ _ _ Hv).
      cbn [prepend result final trace fst].
      destruct (IH n db) as (Hm & Hf & Hp). cbv zeta in Hm, Hf, Hp.
      split; [exact Hm|]. split; [exact Hf|].
      simpl. simpl in Hp. lia.
    + rewrite (part001_insert_loop_accepted _ _ _ _ Hv).
      cbn [prepend result final trace].
      specialize (IH (S n) (db_set db coll
                              (db coll ++ [Part001Script.sanitizeRecord record]))).
      cbv zeta in IH. rewrite db_set_same in IH.
      destruct (write_unordered_length v
                  (db coll ++ [Part001Script.sanitizeRecord record])
                  (map Part001Script.sanitizeRecord rest)) as (Hge & _).
      rewrite length_app in Hge. simpl in Hge.
      destruct IH as (Hm & Hf & Hp). split; [|split].
      * rewrite Hm, length_app. simpl. f_equal. lia.
      * intros c. rewrite Hf. unfold db_set.
        now destruct (String.eqb coll c).
      * rewrite length_app in Hp. simpl in Hp. simpl. lia.
Qed.

End Part001Loop.

(** X3.  The record-by-record loop of [part_001] always returns: every
    record is either stored and counted, or rejected and printed, never
    raised, so the count and the number of errors printed add up to the
    number of records.  The loop leaves every collection as the batch loop
    of [part_003] leaves it, for every batch size of one or more; its count
    is the number of documents it added to the collection, and the count of
    [part_003] is never above it ([part_003] adds the number of documents a
    batch sent when the batch meets no write error, and nothing when it
    meets one, whatever it stored). *)
Theorem per_record_loop_and_batches (size : nat) (model : Model)
  (records : list obj) (db : DB) :
  1 <= size ->
  exists n1 n3,
    result (Part001Script.insert_loop model records 0 db) = Ret n1 /\
    result (Part003.insert_batches size model records db) = Ret n3 /\
    n3 <= n1 /\
    n1 + List.length (db (collection model)) =
      List.length
        (final (Part001Script.insert_loop model records 0 db)
           (collection model)) /\
    n1 + List.length
           (filter is_error_line
              (trace (Part001Script.insert_loop model records 0 db)))
      = List.length records /\
    forall c,
      final (Part001Script.insert_loop model records 0 db) c =
      final (Part003.insert_batches size model records db) c.
Proof.
  intros Hs.
  destruct (part001_insert_loop_spec model records 0 db) as (H1 & F1 & P1).
  unfold Part003.insert_batches.
  destruct (batch_loop_spec size model records (S (List.length records)) 0 0
              db Hs) as (n3 & H3 & _ & B3 & _ & F3); [lia|].
  cbv zeta in *. cbn [skipn] in *.
  destruct (write_unordered_length (refusal model) (db (collection model))
              (map Part003.sanitizeRecord records)) as (L1 & _).
  eexists; exists n3. split; [exact H1|]. split; [exact H3|].
  unfold Part001Script.sanitizeRecord, Part003.sanitizeRecord in *.
  split; [simpl; lia|]. split; [|split].
  - rewrite F1, String.eqb_refl. simpl. lia.
  - simpl. lia.
  - intros c. now rewrite F1, F3.
Qed.

Lemma per_record_loop_and_batches_witness :
  exists n1 n3,
    result
      (Part001Script.insert_loop
         (Example.model_of "articles" (Example.reject_code "A2"))
         [Example.rec1; Example.rec2; Example.rec3] 0 Example.empty) = Ret n1 /\
    result
      (Part003.insert_batches 2
         (Example.model_of "articles" (Example.reject_code "A2"))
         [Example.rec1; Example.rec2; Example.rec3] Example.empty) = Ret n3 /\
    n3 <= n1 /\
    n1 + List.length
           (Example.empty
              (collection
                 (Example.model_of "articles" (Example.reject_code "A2")))) =
      List.length
        (final
           (Part001Script.insert_loop
              (Example.model_of "articles" (Example.reject_code "A2"))
              [Example.rec1; Example.rec2; Example.rec3] 0 Example.empty)
           (collection
              (Example.model_of "articles" (Example.reject_code "A2")))) /\
    n1 + List.length
           (filter is_error_line
              (trace
                 (Part001Script.insert_loop
                    (Example.model_of "articles" (Example.reject_code "A2"))
                    [Example.rec1; Example.rec2; Example.rec3] 0
                    Example.empty)))
      = List.length [Example.rec1; Example.rec2; Example.rec3] /\
    forall c,
      final
        (Part001Script.insert_loop
           (Example.model_of "articles" (Example.reject_code "A2"))
           [Example.rec1; Example.rec2; Example.rec3] 0 Example.empty) c =
      final
        (Part003.insert_batches 2
           (Example.model_of "articles" (Example.reject_code "A2"))
           [Example.rec1; Example.rec2; Example.rec3] Example.empty) c.
Proof.
  exact (per_record_loop_and_batches 2
           (Example.model_of "articles" (Example.reject_code "A2"))
           [Example.rec1; Example.rec2; Example.rec3] Example.empty
           (Nat.lt_0_succ 1)).
Defined.

(** ** A load whose archive or destination fails *)

Lemma every_load_cases env filePath model fileName folder db (r : run unit) :
  fs_existsSync env filePath = true ->
  (forall loop, load_cases env filePath model fileName db loop = r) ->
  every_load_is env filePath model fileName folder db r.
Proof.
  intros He H. unfold every_load_is, Part003.processFile.
  rewrite (main_processFile_cases env filePath model fileName folder db He),
    (part001_processFile_cases env filePath model fileName folder db He),
    (variant_processFile_cases env Part003.batchSize filePath model fileName
       folder db He).
  now rewrite !H.
Qed.

(** X4.  When the archive is there but does not open, or opens and the
    [deleteMany] of the load is rejected, [processFile] raises that error in
    the three scripts that have one; the destination is as it was and no
    write has been tried. *)
Theorem failed_open_or_delete_touches_nothing (env : Env) (filePath : string)
  (model : Model) (fileName folder : string) (db : DB) (err : string) :
  fs_existsSync env filePath = true ->
  DBFFile_open env filePath = inl err \/
  (exists dbf, DBFFile_open env filePath = inr dbf /\
               deleteMany_error model = Some err) ->
  exists t,
    every_load_is env filePath model fileName folder db (Run t db (Throw err)) /\
    Forall (fun e => is_db_event e = true ->
                     e = Db (collection model) DeleteMany) t.
Proof.
  intros He [Ho|(dbf & Ho & Hd)].
  - exists [FsExists filePath; DbfOpen filePath]. split.
    + apply every_load_cases; [exact He|]. intros loop.
      unfold load_cases. now rewrite Ho.
    + repeat constructor; discriminate.
  - exists [FsExists filePath; DbfOpen filePath;
            Console LLog (Reading fileName (recordCount dbf));
            Console LLog (Deleting fileName);
            Db (collection model) DeleteMany]. split.
    + apply every_load_cases; [exact He|]. intros loop.
      unfold load_cases. now rewrite Ho, Hd.
    + repeat constructor; try discriminate.
Qed.

Lemma failed_open_or_delete_touches_nothing_witness :
  exists t,
    every_load_is
      (Example.world Example.uri None [] ["_dbf/AVB/article.dbf"] None
         Example.accept_all)
      "_dbf/AVB/article.dbf" (Example.model_of "articles" Example.accept_all)
      "article" "AVB" Broken.stale
      (Run t Broken.stale (Throw "Invalid DBF file")) /\
    Forall (fun e => is_db_event e = true ->
                     e = Db (collection
                               (Example.model_of "articles" Example.accept_all))
                           DeleteMany) t.
Proof.
  exact (failed_open_or_delete_touches_nothing
           (Example.world Example.uri None [] ["_dbf/AVB/article.dbf"] None
              Example.accept_all)
           "_dbf/AVB/article.dbf"
           (Example.model_of "articles" Example.accept_all)
           "article" "AVB" Broken.stale "Invalid DBF file"
           eq_refl (or_introl eq_refl)).
Defined.

(** X5.  When the archive opens and [deleteMany] succeeds but the records
    cannot be read, [processFile] raises the error of the read in the three
    scripts, after the collection has been emptied: the documents of the
    earlier run are gone and none is written. *)
Theorem failed_read_leaves_collection_empty (env : Env) (filePath : string)
  (model : Model) (fileName folder : string) (db : DB) (dbf : Dbf)
  (err : string) :
  fs_existsSync env filePath = true ->
  DBFFile_open env filePath = inr dbf ->
  deleteMany_error model = None ->
  readRecords_result dbf = inl err ->
  every_load_is env filePath model fileName folder db
    (Run (load_prefix filePath fileName model dbf)
       (db_set db (collection model) []) (Throw err)) /\
  db_set db (collection model) [] (collection model) = [].
Proof.
  intros He Ho Hd Hr. split; [|apply db_set_same].
  apply every_load_cases; [exact He|]. intros loop.
  unfold load_cases. now rewrite Ho, Hd, Hr.
Qed.

Lemma failed_read_leaves_collection_empty_witness :
  every_load_is Broken.unread_world "_dbf/AVB/article.dbf"
    (Example.model_of "articles" Example.accept_all) "article" "AVB"
    Broken.stale
    (Run (load_prefix "_dbf/AVB/article.dbf" "article"
            (Example.model_of "articles" Example.accept_all)
            {| recordCount := 3;
               readRecords_result := inl "Premature end of file" |})
       (db_set Broken.stale
          (collection (Example.model_of "articles" Example.accept_all)) [])
       (Throw "Premature end of file")) /\
  db_set Broken.stale
    (collection (Example.model_of "articles" Example.accept_all)) []
    (collection (Example.model_of "articles" Example.accept_all)) = [].
Proof.
  exact (failed_read_leaves_collection_empty Broken.unread_world
           "_dbf/AVB/article.dbf"
           (Example.model_of "articles" Example.accept_all)
           "article" "AVB" Broken.stale
           {| recordCount := 3;
              readRecords_result := inl "Premature end of file" |}
           "Premature end of file" eq_refl eq_refl eq_refl eq_refl).
Defined.

(** ** A load replaces the collection *)

Lemma final_load_end (r : run nat) (pre : list event) (fileName : string)
  (dbf : Dbf) : final (load_end r pre fileName dbf) = final r.
Proof. unfold load_end. now destruct (result r). Qed.

Lemma result_load_end (r : run nat) (pre : list event) (fileName : string)
  (dbf : Dbf) :
  result (load_end r pre fileName dbf) =
  match result r with
  | Ret _ => Ret tt
  | Throw err => Throw err
  | Exit code => Exit code
  | Diverge => Diverge
  end.
Proof. unfold load_end. now destruct (result r). Qed.

Lemma part001_final_load env filePath model fileName folder db dbf records c :
  fs_existsSync env filePath = true ->
  DBFFile_open env filePath = inr dbf ->
  readRecords_result dbf = inr records ->
  deleteMany_error model = None ->
  final (Part001Script.processFile env filePath model fileName folder db) c =
  if String.eqb (collection model) c
  then fst (write_unordered (refusal model) []
              (map Part001.sanitizeRecord records))
  else db c.
Proof.
  intros He Ho Hr Hd.
  rewrite (part001_processFile_cases env filePath model fileName folder db He).
  unfold load_cases. rewrite Ho, Hd, Hr, final_load_end.
  destruct (part001_insert_loop_spec model records 0
              (db_set db (collection model) [])) as (_ & F & _).
  rewrite F, db_set_same. unfold db_set.
  now destruct (String.eqb (collection model) c).
Qed.

Lemma variant_final_load env filePath model fileName folder db dbf records c :
  fs_existsSync env filePath = true ->
  DBFFile_open env filePath = inr dbf ->
  readRecords_result dbf = inr records ->
  deleteMany_error model = None ->
  final (Part003.processFile env filePath model fileName folder db) c =
  if String.eqb (collection model) c
  then fst (write_unordered (refusal model) []
              (map Part001.sanitizeRecord records))
  else db c.
Proof.
  intros He Ho Hr Hd. unfold Part003.processFile.
  rewrite (variant_processFile_cases env Part003.batchSize filePath model
             fileName folder db He).
  unfold load_cases. rewrite Ho, Hd, Hr, final_load_end.
  rewrite (final_insert_batches Part003.batchSize model records _ c
             batchSize_pos).
  rewrite db_set_same. unfold db_set.
  now destruct (String.eqb (collection model) c).
Qed.

Lemma main_final_load env filePath model fileName folder db dbf records c :
  fs_existsSync env filePath = true ->
  DBFFile_open env filePath = inr dbf ->
  readRecords_result dbf = inr records ->
  deleteMany_error model = None ->
  appendFileSync_error env = None ->
  final (DbfToMongo.processFile env filePath model fileName folder db) c =
  if String.eqb (collection model) c
  then fst (write_unordered (refusal model) []
              (map DbfToMongo.sanitizeRecord records))
  else db c.
Proof.
  intros He Ho Hr Hd Hlog.
  rewrite (main_processFile_cases env filePath model fileName folder db He).
  unfold load_cases. rewrite Ho, Hd, Hr, final_load_end.
  pose proof (insert_loop_spec env model fileName records 0
                (db_set db (collection model) [])) as H.
  cbv zeta in H. rewrite db_set_same in H.
  destruct (result (DbfToMongo.insert_loop env model fileName records 0 _))
    as [m|err|code|]; try contradiction.
  - destruct H as [_ F]. rewrite F. unfold db_set.
    now destruct (String.eqb (collection model) c).
  - destruct H as [H _]. congruence.
Qed.

(** X6.  A load whose archive opens and is read, and whose [deleteMany]
    succeeds, replaces the collection: in [part_001] and [part_003] the
    collection ends as the sanitized records the destination accepts, in the
    order of the archive, whatever it held before, and every other collection
    is as it was; so loading the same archive a second time changes nothing.
    The same holds in [scripts/dbfToMongo.js] when the error log can be
    written. *)
Theorem load_replaces_collection (env : Env) (filePath : string)
  (model : Model) (fileName folder : string) (db : DB) (dbf : Dbf)
  (records : list obj) :
  fs_existsSync env filePath = true ->
  DBFFile_open env filePath = inr dbf ->
  readRecords_result dbf = inr records ->
  deleteMany_error model = None ->
  let stored1 := fst (write_unordered (refusal model) []
                        (map Part001.sanitizeRecord records)) in
  let stored := fst (write_unordered (refusal model) []
                       (map DbfToMongo.sanitizeRecord records)) in
  let load1 := Part001Script.processFile env filePath model fileName folder in
  let load3 := Part003.processFile env filePath model fileName folder in
  let load := DbfToMongo.processFile env filePath model fileName folder in
  (forall c,
     final (load1 db) c
       = (if String.eqb (collection model) c then stored1 else db c) /\
     final (load3 db) c
       = (if String.eqb (collection model) c then stored1 else db c) /\
     final (load1 (final (load1 db))) c = final (load1 db) c /\
     final (load3 (final (load3 db))) c = final (load3 db) c) /\
  (appendFileSync_error env = None ->
   forall c,
     final (load db) c
       = (if String.eqb (collection model) c then stored else db c) /\
     final (load (final (load db))) c = final (load db) c).
Proof.
  intros He Ho Hr Hd. cbv zeta. split.
  - intros c.
    rewrite !(part001_final_load env filePath model fileName folder _ dbf
                records c He Ho Hr Hd),
      !(variant_final_load env filePath model fileName folder _ dbf
          records c He Ho Hr Hd).
    repeat split; destruct (String.eqb (collection model) c); reflexivity.
  - intros Hlog c.
    rewrite !(main_final_load env filePath model fileName folder _ dbf
                records c He Ho Hr Hd Hlog).
    split; destruct (String.eqb (collection model) c); reflexivity.
Qed.

Lemma load_replaces_collection_witness :
  final
    (Part003.processFile
       (Example.world Example.uri None [] [] None Example.accept_all)
       "_dbf/AVB/article.dbf" (Example.model_of "articles" Example.accept_all)
       "article" "AVB" Broken.stale) "articles"
  = fst (write_unordered
           (refusal (Example.model_of "articles" Example.accept_all)) []
           (map Part001.sanitizeRecord
              [Example.rec1; Example.rec2; Example.rec3])).
Proof.
  exact (proj1 (proj2 (proj1
           (load_replaces_collection
              (Example.world Example.uri None [] [] None Example.accept_all)
              "_dbf/AVB/article.dbf"
              (Example.model_of "articles" Example.accept_all)
              "article" "AVB" Broken.stale Example.archive
              [Example.rec1; Example.rec2; Example.rec3]
              eq_refl eq_refl eq_refl eq_refl) "articles"))).
Defined.

(** ** What a load and a run leave alone *)

Lemma returns_bind_post {A B : Type} (R0 : A -> Prop) (R : B -> Prop)
  (m : M A) (f : A -> M B) :
  returns R0 m -> (forall a, R0 a -> returns R (f a)) -> returns R (bind m f).
Proof.
  intros Hm Hf db b. rewrite result_bind.
  destruct (result (m db)) eqn:E; try discriminate.
  apply (Hf a (Hm db a E)).
Qed.

Lemma emits_bind_post P {A B : Type} (R0 : A -> Prop) (m : M A)
  (f : A -> M B) :
  returns R0 m -> emits P m -> (forall a, R0 a -> emits P (f a)) ->
  emits P (bind m f).
Proof.
  intros Hr Hm Hf db. rewrite trace_bind.
  destruct (result (m db)) eqn:E; try now apply Hm.
  apply Forall_app. split; [apply Hm | apply (Hf a (Hr db a E))].
Qed.

Lemma returns_import env path : returns (imported env) (import env path).
Proof.
  intros db model. unfold import, bind. simpl.
  destruct (import_module env path) as [err|m] eqn:E; simpl; [discriminate|].
  intros [= <-]. now exists path.
Qed.

Lemma keeps_diverge Q {A : Type} : keeps Q (fun db => @Run A [] db Diverge).
Proof. intros db c _. reflexivity. Qed.

Lemma emits_diverge P {A : Type} : emits P (fun db => @Run A [] db Diverge).
Proof. intros db. constructor. Qed.

(** A step on the destination, for a model whose collection is known to be
    outside [Q] (to keep [Q]) or inside it (to stay within it). *)
Ltac frame_db :=
  first
    [ apply keeps_deleteMany; assumption
    | apply keeps_create; assumption
    | apply keeps_insertMany; assumption
    | apply emits_deleteMany; simpl; auto
    | apply emits_create; simpl; auto
    | apply emits_insertMany; simpl; auto ].

Ltac frames := repeat (frame; try frame_db).

Section Loops.

Variable env : Env.
Variable model : Model.
Variable Q : string -> Prop.
Hypothesis HQ : ~ Q (collection model).

Lemma main_insert_loop_keeps fileName records n :
  keeps Q (DbfToMongo.insert_loop env model fileName records n).
Proof.
  revert n. induction records as [|record rest IH]; intros n;
    cbn [DbfToMongo.insert_loop]; [apply keeps_ret|].
  apply keeps_bind; [|intros a; apply IH].
  unfold DbfToMongo.logError. frames.
Qed.

Lemma part001_insert_loop_keeps records n :
  keeps Q (Part001Script.insert_loop model records n).
Proof.
  revert n. induction records as [|record rest IH]; intros n;
    cbn [Part001Script.insert_loop]; [apply keeps_ret|].
  apply keeps_bind; [|intros a; apply IH]. frames.
Qed.

Lemma variant_batch_loop_keeps size records fuel i n :
  keeps Q (Part003.batch_loop size model records fuel i n).
Proof.
  revert i n. induction fuel as [|fuel IH]; intros i n;
    cbn [Part003.batch_loop]; [apply keeps_diverge|].
  destruct (Nat.ltb i (List.length records)); [|apply keeps_ret].
  apply keeps_bind; [frames|]. intros a.
  apply keeps_bind; [frames|]. intros _. apply IH.
Qed.

Lemma part002_batch_loop_keeps size records fuel i n :
  keeps Q (Part002.batch_loop size model records fuel i n).
Proof.
  revert i n. induction fuel as [|fuel IH]; intros i n;
    cbn [Part002.batch_loop]; [apply keeps_diverge|].
  destruct (Nat.ltb i (List.length records)); [|apply keeps_ret].
  apply keeps_bind; [frames|]. intros a.
  apply keeps_bind; [frames|]. intros _. apply IH.
Qed.

Lemma main_processFile_keeps filePath fileName folder :
  keeps Q (DbfToMongo.processFile env filePath model fileName folder).
Proof.
  unfold DbfToMongo.processFile, DbfToMongo.logError.
  frames. apply main_insert_loop_keeps.
Qed.

Lemma part001_processFile_keeps filePath fileName folder :
  keeps Q (Part001Script.processFile env filePath model fileName folder).
Proof.
  unfold Part001Script.processFile.
  frames. apply part001_insert_loop_keeps.
Qed.

Lemma variant_processFile_keeps filePath fileName folder :
  keeps Q (Part003.processFile env filePath model fileName folder).
Proof.
  unfold Part003.processFile, Part003.processFile_with.
  frames. apply variant_batch_loop_keeps.
Qed.

End Loops.

(** X7.  A load changes no collection but the one of its model, however it
    ends: returned, raised at any step, or cut short. *)
Theorem load_changes_only_its_collection (env : Env) (filePath : string)
  (model : Model) (fileName folder : string) (db : DB) (c : string) :
  c <> collection model ->
  final (DbfToMongo.processFile env filePath model fileName folder db) c = db c
  /\
  final (Part001Script.processFile env filePath model fileName folder db) c
    = db c /\
  final (Part003.processFile env filePath model fileName folder db) c = db c.
Proof.
  intros Hc.
  assert (HQ : ~ (fun c' => c' = c) (collection model)) by congruence.
  repeat split.
  - now apply (main_processFile_keeps env model _ HQ).
  - now apply (part001_processFile_keeps env model _ HQ).
  - now apply (variant_processFile_keeps env model _ HQ).
Qed.

Lemma load_changes_only_its_collection_witness :
  final
    (DbfToMongo.processFile
       (Example.world Example.uri None [] []
          (Some "EACCES: permission denied, open './error.log'")
          (Example.reject_code "A2"))
       "_dbf/AVB/classes.dbf"
       (Example.model_of "classes" (Example.reject_code "A2"))
       "classnum" "AVB" Broken.stale) "articles"
  = Broken.stale "articles".
Proof.
  refine (proj1 (load_changes_only_its_collection
                   (Example.world Example.uri None [] []
                      (Some "EACCES: permission denied, open './error.log'")
                      (Example.reject_code "A2"))
                   "_dbf/AVB/classes.dbf"
                   (Example.model_of "classes" (Example.reject_code "A2"))
                   "classnum" "AVB" Broken.stale "articles" _)).
  discriminate.
Defined.

(** ** The events of a load and of a run *)

Section LoopEvents.

Variable env : Env.
Variable model : Model.
Variable P : event -> Prop.
Hypothesis P_write :
  forall op, op <> DeleteMany -> P (Db (collection model) op).
Hypothesis P_other : forall e, is_db_event e = false -> P e.

Ltac emit_steps :=
  repeat first
    [ apply emits_emit; apply P_other; reflexivity
    | apply emits_create; apply P_write; discriminate
    | apply emits_insertMany; apply P_write; discriminate
    | frame_step ].

Lemma main_insert_loop_emits fileName records n :
  emits P (DbfToMongo.insert_loop env model fileName records n).
Proof.
  revert n. induction records as [|record rest IH]; intros n;
    cbn [DbfToMongo.insert_loop]; [apply emits_ret|].
  apply emits_bind; [|intros a; apply IH].
  unfold DbfToMongo.logError. emit_steps.
Qed.

Lemma part001_insert_loop_emits records n :
  emits P (Part001Script.insert_loop model records n).
Proof.
  revert n. induction records as [|record rest IH]; intros n;
    cbn [Part001Script.insert_loop]; [apply emits_ret|].
  apply emits_bind; [|intros a; apply IH]. emit_steps.
Qed.

Lemma variant_batch_loop_emits size records fuel i n :
  emits P (Part003.batch_loop size model records fuel i n).
Proof.
  revert i n. induction fuel as [|fuel IH]; intros i n;
    cbn [Part003.batch_loop]; [apply emits_diverge|].
  destruct (Nat.ltb i (List.length records)); [|apply emits_ret].
  apply emits_bind; [emit_steps|]. intros a.
  apply emits_bind; [emit_steps|]. intros _. apply IH.
Qed.

Lemma part002_batch_loop_emits size records fuel i n :
  emits P (Part002.batch_loop size model records fuel i n).
Proof.
  revert i n. induction fuel as [|fuel IH]; intros i n;
    cbn [Part002.batch_loop]; [apply emits_diverge|].
  destruct (Nat.ltb i (List.length records)); [|apply emits_ret].
  apply emits_bind; [emit_steps|]. intros a.
  apply emits_bind; [emit_steps|]. intros _. apply IH.
Qed.

Hypothesis P_delete : P (Db (collection model) DeleteMany).

Ltac load_emit_steps :=
  repeat first
    [ apply emits_emit; apply P_other; reflexivity
    | apply emits_deleteMany; exact P_delete
    | frame_step ].

Lemma main_processFile_emits filePath fileName folder :
  emits P (DbfToMongo.processFile env filePath model fileName folder).
Proof.
  unfold DbfToMongo.processFile, DbfToMongo.logError.
  load_emit_steps. apply main_insert_loop_emits.
Qed.

Lemma part001_processFile_emits filePath fileName folder :
  emits P (Part001Script.processFile env filePath model fileName folder).
Proof.
  unfold Part001Script.processFile.
  load_emit_steps. apply part001_insert_loop_emits.
Qed.

Lemma variant_processFile_emits filePath fileName folder :
  emits P (Part003.processFile env filePath model fileName folder).
Proof.
  unfold Part003.processFile, Part003.processFile_with.
  load_emit_steps. apply variant_batch_loop_emits.
Qed.

End LoopEvents.

Lemma writes_to_other (coll : string) (e : event) :
  is_db_event e = false -> writes_to coll e.
Proof. destruct e; simpl; try discriminate; auto. Qed.

Lemma writes_to_write (coll : string) (op : dbop) :
  op <> DeleteMany -> writes_to coll (Db coll op).
Proof. destruct op; simpl; auto; intros H; now elim H. Qed.

Lemma filter_writes (coll : string) (t : list event) :
  Forall (writes_to coll) t ->
  Forall (fun e => exists op, e = Db coll op /\ op <> DeleteMany)
    (filter is_db_event t).
Proof.
  induction 1 as [|e t He _ IH]; simpl; [constructor|].
  destruct e; simpl; try exact IH.
  constructor; [|exact IH].
  destruct op; simpl in He; try contradiction; subst;
    eexists; (split; [reflexivity | discriminate]).
Qed.

Lemma filter_load_end (r : run nat) (pre : list event) (fileName : string)
  (dbf : Dbf) :
  filter is_db_event (trace (load_end r pre fileName dbf)) =
  filter is_db_event pre ++ filter is_db_event (trace r).
Proof.
  unfold load_end. destruct (result r); simpl; rewrite !filter_app; simpl;
    rewrite ?app_nil_r; reflexivity.
Qed.

Lemma load_cases_shape env filePath model fileName db
  (loop : list obj -> DB -> run nat) :
  (forall records d, Forall (writes_to (collection model))
                       (trace (loop records d))) ->
  delete_then_writes (collection model)
    (trace (load_cases env filePath model fileName db loop)).
Proof.
  intros Hloop. unfold load_cases, delete_then_writes.
  destruct (DBFFile_open env filePath) as [err|dbf]; [now left|].
  destruct (deleteMany_error model) as [err|].
  { right. exists []. split; [reflexivity | constructor]. }
  destruct (readRecords_result dbf) as [err|records].
  { right. exists []. split; [reflexivity | constructor]. }
  right. rewrite filter_load_end. simpl.
  eexists. split; [reflexivity|]. apply filter_writes, Hloop.
Qed.

(** X8.  Among the operations a load sends to the destination, the
    [deleteMany] comes first and only once, and every other one is a write to
    the collection of the model of the load; a load whose archive is missing
    or does not open sends none. *)
Theorem load_deletes_once_then_writes (env : Env) (filePath : string)
  (model : Model) (fileName folder : string) (db : DB) :
  delete_then_writes (collection model)
    (trace (DbfToMongo.processFile env filePath model fileName folder db)) /\
  delete_then_writes (collection model)
    (trace (Part001Script.processFile env filePath model fileName folder db)) /\
  delete_then_writes (collection model)
    (trace (Part003.processFile env filePath model fileName folder db)) /\
  (fs_existsSync env filePath = false \/
   (exists err, DBFFile_open env filePath = inl err) ->
   filter is_db_event
     (trace (DbfToMongo.processFile env filePath model fileName folder db)) = []
   /\
   filter is_db_event
     (trace (Part001Script.processFile env filePath model fileName folder db))
     = [] /\
   filter is_db_event
     (trace (Part003.processFile env filePath model fileName folder db)) = []).
Proof.
  destruct (fs_existsSync env filePath) eqn:He.
  - rewrite (main_processFile_cases env filePath model fileName folder db He),
      (part001_processFile_cases env filePath model fileName folder db He).
    unfold Part003.processFile.
    rewrite (variant_processFile_cases env Part003.batchSize filePath model
               fileName folder db He).
    split; [|split; [|split]].
    + apply load_cases_shape. intros records d.
      apply main_insert_loop_emits;
        [intros; now apply writes_to_write | apply writes_to_other].
    + apply load_cases_shape. intros records d.
      apply part001_insert_loop_emits;
        [intros; now apply writes_to_write | apply writes_to_other].
    + apply load_cases_shape. intros records d.
      apply variant_batch_loop_emits;
        [intros; now apply writes_to_write | apply writes_to_other].
    + intros [H|(err & Ho)]; [discriminate|].
      unfold load_cases. rewrite Ho. repeat split.
  - rewrite (main_processFile_missing env filePath model fileName folder db He),
      (part001_processFile_missing env filePath model fileName folder db He),
      (variant_processFile_missing env filePath model fileName folder db He).
    assert (Hm : filter is_db_event
                   (trace
                      match appendFileSync_error env with
                      | Some err =>
                          Run [FsExists filePath;
                               Console LWarn (FileMissing fileName folder)]
                            db (Throw err)
                      | None =>
                          Run [FsExists filePath;
                               Console LWarn (FileMissing fileName folder);
                               LogAppend (now_ISO env)
                                 (FileMissing fileName folder)]
                            db (Ret tt)
                      end) = [])
      by now destruct (appendFileSync_error env).
    split; [now left|]. split; [now left|]. split; [now left|].
    intros _. repeat split. exact Hm.
Qed.

Lemma load_deletes_once_then_writes_witness :
  filter is_db_event
    (trace
       (DbfToMongo.processFile
          (Example.world Example.uri None ["_dbf/AVB/classes.dbf"] [] None
             Example.accept_all)
          "_dbf/AVB/classes.dbf"
          (Example.model_of "classes" Example.accept_all)
          "classnum" "AVB" Example.empty)) = [].
Proof.
  exact (proj1 (proj2 (proj2 (proj2
           (load_deletes_once_then_writes
              (Example.world Example.uri None ["_dbf/AVB/classes.dbf"] [] None
                 Example.accept_all)
              "_dbf/AVB/classes.dbf"
              (Example.model_of "classes" Example.accept_all)
              "classnum" "AVB" Example.empty))) (or_introl eq_refl))).
Defined.

(** ** A run stays within the collections of the models *)

Section Within.

Variable env : Env.

Let outside (c : string) : Prop := ~ bound env c.
Let inside : event -> Prop := db_within (bound env).

Lemma imported_not_outside model : imported env model -> ~ outside (collection model).
Proof. intros H Ho. apply Ho. now exists model. Qed.

Lemma inside_db model op : imported env model -> inside (Db (collection model) op).
Proof. intros H. simpl. now exists model. Qed.

Lemma inside_other e : is_db_event e = false -> inside e.
Proof. destruct e; simpl; try discriminate; auto. Qed.

Ltac no_db :=
  repeat first
    [ apply emits_emit; apply inside_other; reflexivity
    | frame_step ].

Lemma connect_keeps : keeps outside (connect env).
Proof.
  unfold connect. cbv zeta. apply keeps_bind; [apply keeps_emit|].
  intros _. destruct (mongoose_connect env _); frames.
Qed.

Lemma connect_emits : emits inside (connect env).
Proof.
  unfold connect. cbv zeta. apply emits_bind; [no_db|].
  intros _. destruct (mongoose_connect env _); no_db.
Qed.

(** [loadModel] and [load_models] *)

Let model_imported := model_imported env.

Ltac returns_model :=
  apply returns_try_catch;
  [ apply (returns_bind_post (imported env)); [apply returns_import|];
    intros m Hm; apply returns_ret; intros m' [= <-]; exact Hm
  | intros err; repeat (apply returns_bind; intro);
    apply returns_ret; intros m' [=] ].

Lemma main_loadModel_returns folder t :
  returns model_imported (DbfToMongo.loadModel env folder t).
Proof. unfold DbfToMongo.loadModel. cbv zeta. returns_model. Qed.

Lemma part001_loadModel_returns folder t :
  returns model_imported (Part001Script.loadModel env folder t).
Proof. unfold Part001Script.loadModel. cbv zeta. returns_model. Qed.

Lemma variant_loadModel_returns folder t :
  returns model_imported (Part003.loadModel env folder t).
Proof. unfold Part003.loadModel. cbv zeta. returns_model. Qed.

Lemma part002_loadModel_returns folder :
  returns model_imported (Part002.loadModel env folder).
Proof. unfold Part002.loadModel. returns_model. Qed.

Ltac returns_models IH lm :=
  apply (returns_bind_post model_imported); [apply lm|];
  intros o Ho; apply (returns_bind_post (all_imported env)); [apply IH|];
  intros rest Hrest; apply returns_ret; constructor; [exact Ho | exact Hrest].

Lemma main_load_models_returns folder types :
  returns (all_imported env) (DbfToMongo.load_models env folder types).
Proof.
  induction types as [|t types IH]; cbn [DbfToMongo.load_models].
  - apply returns_ret. constructor.
  - returns_models IH main_loadModel_returns.
Qed.

Lemma part001_load_models_returns folder types :
  returns (all_imported env) (Part001Script.load_models env folder types).
Proof.
  induction types as [|t types IH]; cbn [Part001Script.load_models].
  - apply returns_ret. constructor.
  - returns_models IH part001_loadModel_returns.
Qed.

Lemma variant_load_models_returns folder types :
  returns (all_imported env) (Part003.load_models env folder types).
Proof.
  induction types as [|t types IH]; cbn [Part003.load_models].
  - apply returns_ret. constructor.
  - returns_models IH variant_loadModel_returns.
Qed.

Lemma main_load_models_quiet folder types :
  keeps outside (DbfToMongo.load_models env folder types) /\
  emits inside (DbfToMongo.load_models env folder types).
Proof.
  induction types as [|t types [IHk IHe]]; cbn [DbfToMongo.load_models].
  - split; [apply keeps_ret | apply emits_ret].
  - split.
    + apply keeps_bind;
        [unfold DbfToMongo.loadModel, DbfToMongo.logError; frames|].
      intros o. apply keeps_bind; [exact IHk | frames].
    + apply emits_bind;
        [unfold DbfToMongo.loadModel, DbfToMongo.logError; no_db|].
      intros o. apply emits_bind; [exact IHe | no_db].
Qed.

Lemma part001_load_models_quiet folder types :
  keeps outside (Part001Script.load_models env folder types) /\
  emits inside (Part001Script.load_models env folder types).
Proof.
  induction types as [|t types [IHk IHe]]; cbn [Part001Script.load_models].
  - split; [apply keeps_ret | apply emits_ret].
  - split.
    + apply keeps_bind; [unfold Part001Script.loadModel; frames|].
      intros o. apply keeps_bind; [exact IHk | frames].
    + apply emits_bind; [unfold Part001Script.loadModel; no_db|].
      intros o. apply emits_bind; [exact IHe | no_db].
Qed.

Lemma variant_load_models_quiet folder types :
  keeps outside (Part003.load_models env folder types) /\
  emits inside (Part003.load_models env folder types).
Proof.
  induction types as [|t types [IHk IHe]]; cbn [Part003.load_models].
  - split; [apply keeps_ret | apply emits_ret].
  - split.
    + apply keeps_bind; [unfold Part003.loadModel; frames|].
      intros o. apply keeps_bind; [exact IHk | frames].
    + apply emits_bind; [unfold Part003.loadModel; no_db|].
      intros o. apply emits_bind; [exact IHe | no_db].
Qed.

(** [process_models] *)

Lemma main_process_models_within folderPath folder models :
  all_imported env models ->
  keeps outside (DbfToMongo.process_models env folderPath folder models) /\
  emits inside (DbfToMongo.process_models env folderPath folder models).
Proof.
  induction 1 as [|[t [model|]] models Hm _ [IHk IHe]];
    cbn [DbfToMongo.process_models].
  - split; [apply keeps_ret | apply emits_ret].
  - pose proof (Hm model eq_refl) as Hi. split.
    + apply keeps_bind; [|intros _; exact IHk].
      apply keeps_bind; [|frames].
      apply main_processFile_keeps, imported_not_outside, Hi.
    + apply emits_bind; [|intros _; exact IHe].
      apply emits_bind; [|no_db].
      apply main_processFile_emits;
        [intros; now apply inside_db | apply inside_other
        | now apply inside_db].
  - split.
    + apply keeps_bind; [apply keeps_ret | intros _; exact IHk].
    + apply emits_bind; [apply emits_ret | intros _; exact IHe].
Qed.

Lemma part001_process_models_within folderPath folder models :
  all_imported env models ->
  keeps outside (Part001Script.process_models env folderPath folder models) /\
  emits inside (Part001Script.process_models env folderPath folder models).
Proof.
  induction 1 as [|[t [model|]] models Hm _ [IHk IHe]];
    cbn [Part001Script.process_models].
  - split; [apply keeps_ret | apply emits_ret].
  - pose proof (Hm model eq_refl) as Hi. split.
    + apply keeps_bind; [|intros _; exact IHk].
      apply keeps_bind; [|frames].
      apply part001_processFile_keeps, imported_not_outside, Hi.
    + apply emits_bind; [|intros _; exact IHe].
      apply emits_bind; [|no_db].
      apply part001_processFile_emits;
        [intros; now apply inside_db | apply inside_other
        | now apply inside_db].
  - split.
    + apply keeps_bind; [apply keeps_ret | intros _; exact IHk].
    + apply emits_bind; [apply emits_ret | intros _; exact IHe].
Qed.

Lemma variant_process_models_within folderPath folder models :
  all_imported env models ->
  keeps outside (Part003.process_models env folderPath folder models) /\
  emits inside (Part003.process_models env folderPath folder models).
Proof.
  induction 1 as [|[t [model|]] models Hm _ [IHk IHe]];
    cbn [Part003.process_models].
  - split; [apply keeps_ret | apply emits_ret].
  - pose proof (Hm model eq_refl) as Hi. split.
    + apply keeps_bind; [|intros _; exact IHk].
      apply keeps_bind; [|frames].
      apply variant_processFile_keeps, imported_not_outside, Hi.
    + apply emits_bind; [|intros _; exact IHe].
      apply emits_bind; [|no_db].
      apply variant_processFile_emits;
        [intros; now apply inside_db | apply inside_other
        | now apply inside_db].
  - split.
    + apply keeps_bind; [apply keeps_ret | intros _; exact IHk].
    + apply emits_bind; [apply emits_ret | intros _; exact IHe].
Qed.

(** A turn of the loop over the sites, and the loop *)

Lemma main_site_body_within folder :
  keeps outside (DbfToMongo.site_body env folder) /\
  emits inside (DbfToMongo.site_body env folder).
Proof.
  unfold DbfToMongo.site_body. cbv zeta. split.
  - apply keeps_bind; [frames|]. intros found.
    destruct (negb found); [unfold DbfToMongo.logError; frames|].
    apply keeps_bind; [frames|]. intros _.
    apply (keeps_bind_returns _ (all_imported env));
      [apply main_load_models_returns | apply main_load_models_quiet|].
    intros models Hm. now apply main_process_models_within.
  - apply emits_bind; [no_db|]. intros found.
    destruct (negb found); [unfold DbfToMongo.logError; no_db|].
    apply emits_bind; [no_db|]. intros _.
    apply (emits_bind_post _ (all_imported env));
      [apply main_load_models_returns | apply main_load_models_quiet|].
    intros models Hm. now apply main_process_models_within.
Qed.

Lemma part001_site_body_within folder :
  keeps outside (Part001Script.site_body env folder) /\
  emits inside (Part001Script.site_body env folder).
Proof.
  unfold Part001Script.site_body. cbv zeta. split.
  - apply keeps_bind; [frames|]. intros found.
    destruct (negb found); [frames|].
    apply keeps_bind; [frames|]. intros _.
    apply (keeps_bind_returns _ (all_imported env));
      [apply part001_load_models_returns | apply part001_load_models_quiet|].
    intros models Hm. now apply part001_process_models_within.
  - apply emits_bind; [no_db|]. intros found.
    destruct (negb found); [no_db|].
    apply emits_bind; [no_db|]. intros _.
    apply (emits_bind_post _ (all_imported env));
      [apply part001_load_models_returns | apply part001_load_models_quiet|].
    intros models Hm. now apply part001_process_models_within.
Qed.

Lemma variant_site_body_within folder :
  keeps outside (Part003.site_body env folder) /\
  emits inside (Part003.site_body env folder).
Proof.
  unfold Part003.site_body. cbv zeta. split.
  - apply keeps_bind; [frames|]. intros found.
    destruct (negb found); [frames|].
    apply keeps_bind; [frames|]. intros _.
    apply (keeps_bind_returns _ (all_imported env));
      [apply variant_load_models_returns | apply variant_load_models_quiet|].
    intros models Hm. now apply variant_process_models_within.
  - apply emits_bind; [no_db|]. intros found.
    destruct (negb found); [no_db|].
    apply emits_bind; [no_db|]. intros _.
    apply (emits_bind_post _ (all_imported env));
      [apply variant_load_models_returns | apply variant_load_models_quiet|].
    intros models Hm. now apply variant_process_models_within.
Qed.

Lemma part002_site_body_within folder :
  keeps outside (Part002.site_body env folder) /\
  emits inside (Part002.site_body env folder).
Proof.
  unfold Part002.site_body. cbv zeta. split.
  - apply keeps_bind; [frames|]. intros found.
    destruct (negb found); [frames|].
    apply keeps_bind; [frames|]. intros _.
    apply (keeps_bind_returns _ model_imported);
      [apply part002_loadModel_returns | unfold Part002.loadModel; frames|].
    intros [model|] Hm; [|apply keeps_ret].
    pose proof (imported_not_outside model (Hm model eq_refl)) as Ho.
    frames. now apply part002_batch_loop_keeps.
  - apply emits_bind; [no_db|]. intros found.
    destruct (negb found); [no_db|].
    apply emits_bind; [no_db|]. intros _.
    apply (emits_bind_post _ model_imported);
      [apply part002_loadModel_returns | unfold Part002.loadModel; no_db|].
    intros [model|] Hm; [|apply emits_ret].
    pose proof (Hm model eq_refl) as Hi.
    repeat first
      [ apply emits_emit; apply inside_other; reflexivity
      | apply emits_deleteMany; now apply inside_db
      | apply part002_batch_loop_emits;
        [intros; now apply inside_db | apply inside_other]
      | frame_step ].
Qed.

End Within.

Section WithinRun.

Variable env : Env.

Let outside (c : string) : Prop := ~ bound env c.
Let inside : event -> Prop := db_within (bound env).

Ltac quiet :=
  repeat first
    [ apply emits_emit; apply inside_other; reflexivity
    | apply connect_keeps | apply connect_emits
    | frame_step ].

Lemma main_site_loop_within sites :
  keeps outside (DbfToMongo.site_loop env sites) /\
  emits inside (DbfToMongo.site_loop env sites).
Proof.
  induction sites as [|s sites [IHk IHe]]; cbn [DbfToMongo.site_loop].
  - split; [apply keeps_ret | apply emits_ret].
  - split.
    + apply keeps_bind; [apply main_site_body_within | intros _; exact IHk].
    + apply emits_bind; [apply main_site_body_within | intros _; exact IHe].
Qed.

Lemma part001_site_loop_within sites :
  keeps outside (Part001Script.site_loop env sites) /\
  emits inside (Part001Script.site_loop env sites).
Proof.
  induction sites as [|s sites [IHk IHe]]; cbn [Part001Script.site_loop].
  - split; [apply keeps_ret | apply emits_ret].
  - split.
    + apply keeps_bind; [apply part001_site_body_within | intros _; exact IHk].
    + apply emits_bind; [apply part001_site_body_within | intros _; exact IHe].
Qed.

Lemma variant_site_loop_within sites :
  keeps outside (Part003.site_loop env sites) /\
  emits inside (Part003.site_loop env sites).
Proof.
  induction sites as [|s sites [IHk IHe]]; cbn [Part003.site_loop].
  - split; [apply keeps_ret | apply emits_ret].
  - split.
    + apply keeps_bind; [apply variant_site_body_within | intros _; exact IHk].
    + apply emits_bind; [apply variant_site_body_within | intros _; exact IHe].
Qed.

Lemma part002_site_loop_within sites :
  keeps outside (Part002.site_loop env sites) /\
  emits inside (Part002.site_loop env sites).
Proof.
  induction sites as [|s sites [IHk IHe]]; cbn [Part002.site_loop].
  - split; [apply keeps_ret | apply emits_ret].
  - split.
    + apply keeps_bind; [apply part002_site_body_within | intros _; exact IHk].
    + apply emits_bind; [apply part002_site_body_within | intros _; exact IHe].
Qed.

Lemma main_script_within sites :
  keeps outside (DbfToMongo.script_on env sites) /\
  emits inside (DbfToMongo.script_on env sites).
Proof.
  destruct (main_site_loop_within sites) as [Hk He].
  unfold DbfToMongo.script_on, DbfToMongo.importDbfsData_on,
    DbfToMongo.connectDB, DbfToMongo.logError.
  split.
  - apply keeps_bind; [quiet|]. intros _.
    apply keeps_try_finally; [|quiet]. apply keeps_try_catch; [|quiet].
    apply keeps_bind; [quiet|]. intros _.
    apply keeps_bind; [exact Hk | quiet].
  - apply emits_bind; [quiet|]. intros _.
    apply emits_try_finally; [|quiet]. apply emits_try_catch; [|quiet].
    apply emits_bind; [quiet|]. intros _.
    apply emits_bind; [exact He | quiet].
Qed.

Lemma part001_script_within sites :
  keeps outside (Part001Script.script_on env sites) /\
  emits inside (Part001Script.script_on env sites).
Proof.
  destruct (part001_site_loop_within sites) as [Hk He].
  unfold Part001Script.script_on, Part001Script.importDbfsData_on,
    Part001Script.connectDB.
  split.
  - apply keeps_bind; [quiet|]. intros _.
    apply keeps_try_finally; [|quiet]. apply keeps_try_catch; [|quiet].
    apply keeps_bind; [quiet|]. intros _.
    apply keeps_bind; [exact Hk | quiet].
  - apply emits_bind; [quiet|]. intros _.
    apply emits_try_finally; [|quiet]. apply emits_try_catch; [|quiet].
    apply emits_bind; [quiet|]. intros _.
    apply emits_bind; [exact He | quiet].
Qed.

Lemma variant_script_within sites :
  keeps outside (Part003.script_on env sites) /\
  emits inside (Part003.script_on env sites).
Proof.
  destruct (variant_site_loop_within sites) as [Hk He].
  unfold Part003.script_on, Part003.importDbfsData_on, Part003.connectDB.
  split.
  - apply keeps_bind; [quiet|]. intros _.
    apply keeps_try_finally; [|quiet]. apply keeps_try_catch; [|quiet].
    apply keeps_bind; [quiet|]. intros _.
    apply keeps_bind; [exact Hk | quiet].
  - apply emits_bind; [quiet|]. intros _.
    apply emits_try_finally; [|quiet]. apply emits_try_catch; [|quiet].
    apply emits_bind; [quiet|]. intros _.
    apply emits_bind; [exact He | quiet].
Qed.

Lemma part002_script_within sites :
  keeps outside (Part002.script_on env sites) /\
  emits inside (Part002.script_on env sites).
Proof.
  destruct (part002_site_loop_within sites) as [Hk He].
  unfold Part002.script_on, Part002.importDbfsData_on, Part002.connectDB.
  split.
  - apply keeps_bind; [quiet|]. intros _.
    apply keeps_try_catch; [|quiet].
    apply keeps_bind; [quiet|]. intros _.
    apply keeps_bind; [exact Hk | quiet].
  - apply emits_bind; [quiet|]. intros _.
    apply emits_try_catch; [|quiet].
    apply emits_bind; [quiet|]. intros _.
    apply emits_bind; [exact He | quiet].
Qed.

End WithinRun.

(** X9.  A run of any of the four scripts, however it ends, sends operations
    only to collections of models that a module of the world exports, and
    leaves every other collection of the destination as it was. *)
Theorem run_stays_within_its_models (env : Env) (sites : list string)
  (db : DB) :
  (forall c,
     ~ bound env c ->
     final (DbfToMongo.script_on env sites db) c = db c /\
     final (Part001Script.script_on env sites db) c = db c /\
     final (Part002.script_on env sites db) c = db c /\
     final (Part003.script_on env sites db) c = db c) /\
  Forall (db_within (bound env)) (trace (DbfToMongo.script_on env sites db)) /\
  Forall (db_within (bound env))
    (trace (Part001Script.script_on env sites db)) /\
  Forall (db_within (bound env)) (trace (Part002.script_on env sites db)) /\
  Forall (db_within (bound env)) (trace (Part003.script_on env sites db)).
Proof.
  split.
  - intros c Hc. repeat split.
    + now apply (proj1 (main_script_within env sites)).
    + now apply (proj1 (part001_script_within env sites)).
    + now apply (proj1 (part002_script_within env sites)).
    + now apply (proj1 (variant_script_within env sites)).
  - repeat split.
    + apply (proj2 (main_script_within env sites)).
    + apply (proj2 (part001_script_within env sites)).
    + apply (proj2 (part002_script_within env sites)).
    + apply (proj2 (variant_script_within env sites)).
Qed.

Lemma single_world_bound (c : string) :
  bound Single.world c -> c = "articles".
Proof.
  intros (model & (path & Hp) & Hc). unfold Single.world in Hp. simpl in Hp.
  destruct (String.eqb path "./models/bases/AVB/AVBArticle.js");
    [|discriminate].
  injection Hp as <-. now subst c.
Qed.

Lemma run_stays_within_its_models_witness :
  final (DbfToMongo.script Single.world Broken.stale) "clients"
  = Broken.stale "clients".
Proof.
  refine (proj1 (proj1 (run_stays_within_its_models Single.world folders
                          Broken.stale) "clients" _)).
  intros H. apply single_world_bound in H. discriminate H.
Defined.

(** ** The models of a site *)

Lemma import_run env path db :
  import env path db =
  match import_module env path with
  | inr model => Run [ImportModule path] db (Ret model)
  | inl err => Run [ImportModule path] db (Throw err)
  end.
Proof. unfold import, bind. simpl. now destruct (import_module env path). Qed.

Lemma variant_loadModel_run env folder t db :
  Part003.loadModel env folder t db =
  match import_module env (model_path folder (modelFileName folder t)) with
  | inr model =>
      Run [ImportModule (model_path folder (modelFileName folder t))] db
        (Ret (Some model))
  | inl err =>
      Run [ImportModule (model_path folder (modelFileName folder t));
           Console LWarn (ModelLoadFailed (modelFileName folder t) err)] db
        (Ret None)
  end.
Proof.
  unfold Part003.loadModel, try_catch, bind. cbv zeta. rewrite import_run.
  now destruct (import_module env _).
Qed.

Lemma part001_loadModel_run env folder t db :
  Part001Script.loadModel env folder t db =
  match import_module env (model_path folder (modelFileName folder t)) with
  | inr model =>
      Run [ImportModule (model_path folder (modelFileName folder t))] db
        (Ret (Some model))
  | inl err =>
      Run [ImportModule (model_path folder (modelFileName folder t));
           Console LWarn (ModelLoadFailed (modelFileName folder t) err)] db
        (Ret None)
  end.
Proof.
  unfold Part001Script.loadModel, try_catch, bind. cbv zeta.
  rewrite import_run. now destruct (import_module env _).
Qed.

Lemma main_loadModel_run env folder t db :
  DbfToMongo.loadModel env folder t db =
  match import_module env (model_path folder (modelFileName folder t)) with
  | inr model =>
      Run [ImportModule (model_path folder (modelFileName folder t))] db
        (Ret (Some model))
  | inl err =>
      match appendFileSync_error env with
      | None =>
          Run [ImportModule (model_path folder (modelFileName folder t));
               Console LWarn (ModelLoadFailed (modelFileName folder t) err);
               LogAppend (now_ISO env)
                 (ModelLoadFailed (modelFileName folder t) err)] db
            (Ret None)
      | Some err' =>
          Run [ImportModule (model_path folder (modelFileName folder t));
               Console LWarn (ModelLoadFailed (modelFileName folder t) err)]
            db (Throw err')
      end
  end.
Proof.
  unfold DbfToMongo.loadModel, DbfToMongo.logError, try_catch, bind.
  cbv zeta. rewrite import_run.
  destruct (import_module env _); [|reflexivity]. simpl.
  rewrite appendFileSync_run. now destruct (appendFileSync_error env).
Qed.

Lemma variant_load_models_run env folder types db :
  result (Part003.load_models env folder types db)
    = Ret (map (binding env folder) types) /\
  final (Part003.load_models env folder types db) = db.
Proof.
  revert db. induction types as [|t types IH]; intros db;
    cbn [Part003.load_models map]; [now split|].
  rewrite result_bind, final_bind, variant_loadModel_run. unfold binding at 1.
  destruct (import_module env _); cbn [result final];
    rewrite result_bind, final_bind; destruct (IH db) as [-> ->]; now split.
Qed.

Lemma part001_load_models_run env folder types db :
  result (Part001Script.load_models env folder types db)
    = Ret (map (binding env folder) types) /\
  final (Part001Script.load_models env folder types db) = db.
Proof.
  revert db. induction types as [|t types IH]; intros db;
    cbn [Part001Script.load_models map]; [now split|].
  rewrite result_bind, final_bind, part001_loadModel_run. unfold binding at 1.
  destruct (import_module env _); cbn [result final];
    rewrite result_bind, final_bind; destruct (IH db) as [-> ->]; now split.
Qed.

Lemma main_load_models_run env folder types db :
  appendFileSync_error env = None \/ all_bound env folder types ->
  result (DbfToMongo.load_models env folder types db)
    = Ret (map (binding env folder) types) /\
  final (DbfToMongo.load_models env folder types db) = db.
Proof.
  intros H. revert db. induction types as [|t types IH]; intros db;
    cbn [DbfToMongo.load_models map]; [now split|].
  assert (H' : appendFileSync_error env = None \/ all_bound env folder types).
  { destruct H as [H|H]; [now left | right; now inversion H]. }
  specialize (IH H').
  rewrite result_bind, final_bind, main_loadModel_run. unfold binding at 1.
  destruct (import_module env (model_path folder (modelFileName folder t)))
    as [err|model] eqn:Ei.
  - destruct (appendFileSync_error env) as [err'|] eqn:El.
    + exfalso. destruct H as [H|H]; [discriminate|].
      inversion H as [|? ? Ht _]. apply Ht. unfold binding. simpl.
      now rewrite Ei.
    + cbn [result final]. rewrite result_bind, final_bind.
      destruct (IH db) as [-> ->]. now split.
  - cbn [result final]. rewrite result_bind, final_bind.
    destruct (IH db) as [-> ->]. now split.
Qed.

Lemma main_load_models_unlogged env folder types db err :
  appendFileSync_error env = Some err ->
  ~ all_bound env folder types ->
  result (DbfToMongo.load_models env folder types db) = Throw err /\
  final (DbfToMongo.load_models env folder types db) = db.
Proof.
  intros El. revert db. induction types as [|t types IH]; intros db Hn.
  { elim Hn. constructor. }
  cbn [DbfToMongo.load_models].
  rewrite result_bind, final_bind, main_loadModel_run.
  destruct (import_module env (model_path folder (modelFileName folder t)))
    as [e|model] eqn:Ei.
  - rewrite El. now split.
  - cbn [result final]. rewrite result_bind, final_bind.
    assert (Hn' : ~ all_bound env folder types).
    { intros Ha. apply Hn. constructor; [|exact Ha].
      unfold binding. simpl. rewrite Ei. discriminate. }
    destruct (IH db Hn') as [-> ->]. now split.
Qed.

(** X10.  The [models] object of a site holds one entry per record type, in
    the order of the types: the model the module of the site and type
    exports, or [null] when the import fails.  Building it never touches the
    destination.  In [part_001] and [part_003] it never raises.  In
    [scripts/dbfToMongo.js] a failed import is also appended to the error
    log: the object is built as long as that write succeeds or every import
    succeeds, and otherwise the error of the write is raised. *)
Theorem models_of_a_site (env : Env) (folder : string)
  (types : list RecordType) (db : DB) :
  (result (Part001Script.load_models env folder types db)
     = Ret (map (binding env folder) types) /\
   final (Part001Script.load_models env folder types db) = db) /\
  (result (Part003.load_models env folder types db)
     = Ret (map (binding env folder) types) /\
   final (Part003.load_models env folder types db) = db) /\
  final (DbfToMongo.load_models env folder types db) = db /\
  (appendFileSync_error env = None \/ all_bound env folder types ->
   result (DbfToMongo.load_models env folder types db)
     = Ret (map (binding env folder) types)) /\
  (forall err,
     appendFileSync_error env = Some err ->
     ~ all_bound env folder types ->
     result (DbfToMongo.load_models env folder types db) = Throw err).
Proof.
  split; [apply part001_load_models_run|].
  split; [apply variant_load_models_run|].
  split; [|split].
  - destruct (appendFileSync_error env) as [err|] eqn:El.
    + assert (D : all_bound env folder types \/ ~ all_bound env folder types).
      { unfold all_bound. induction types as [|t types IH].
        - left. constructor.
        - destruct IH as [IH|IH].
          + destruct (snd (binding env folder t)) eqn:E.
            * left. constructor; [rewrite E; discriminate | exact IH].
            * right. intros H. inversion H as [|? ? Ht _]. now apply Ht.
          + right. intros H. inversion H. now apply IH. }
      destruct D as [D|D].
      * now apply main_load_models_run; right.
      * now apply (main_load_models_unlogged env folder types db err).
    + apply main_load_models_run. now left.
  - intros H. now apply main_load_models_run.
  - intros err El Hn.
    now apply (main_load_models_unlogged env folder types db err).
Qed.

Lemma models_of_a_site_witness :
  result
    (DbfToMongo.load_models
       (Example.world Example.uri None [] []
          (Some "EACCES: permission denied, open './error.log'")
          Example.accept_all)
       "AVB" record_types Example.empty)
  = Ret (map (binding
                (Example.world Example.uri None [] []
                   (Some "EACCES: permission denied, open './error.log'")
                   Example.accept_all) "AVB")
           record_types).
Proof.
  refine (proj1 (proj2 (proj2 (proj2
            (models_of_a_site
               (Example.world Example.uri None [] []
                  (Some "EACCES: permission denied, open './error.log'")
                  Example.accept_all)
               "AVB" record_types Example.empty)))) (or_intror _)).
  repeat constructor; discriminate.
Defined.

(** ** A record type of a site with no model or no archive *)

Lemma main_process_models_app env folderPath folder l1 l2 db :
  DbfToMongo.process_models env folderPath folder (l1 ++ l2) db =
  bind (DbfToMongo.process_models env folderPath folder l1)
    (fun _ => DbfToMongo.process_models env folderPath folder l2) db.
Proof.
  revert db. induction l1 as [|[t o] l1 IH]; intros db;
    cbn [app DbfToMongo.process_models].
  - now rewrite bind_ret_l.
  - rewrite bind_assoc. apply bind_ext. intros _ d. apply IH.
Qed.

Lemma part001_process_models_app env folderPath folder l1 l2 db :
  Part001Script.process_models env folderPath folder (l1 ++ l2) db =
  bind (Part001Script.process_models env folderPath folder l1)
    (fun _ => Part001Script.process_models env folderPath folder l2) db.
Proof.
  revert db. induction l1 as [|[t o] l1 IH]; intros db;
    cbn [app Part001Script.process_models].
  - now rewrite bind_ret_l.
  - rewrite bind_assoc. apply bind_ext. intros _ d. apply IH.
Qed.

Lemma variant_process_models_app env folderPath folder l1 l2 db :
  Part003.process_models env folderPath folder (l1 ++ l2) db =
  bind (Part003.process_models env folderPath folder l1)
    (fun _ => Part003.process_models env folderPath folder l2) db.
Proof.
  revert db. induction l1 as [|[t o] l1 IH]; intros db;
    cbn [app Part003.process_models].
  - now rewrite bind_ret_l.
  - rewrite bind_assoc. apply bind_ext. intros _ d. apply IH.
Qed.

(** X11.  A record type of a site whose model is [null], or whose archive is
    not in the directory of the site, does not stop the loop over the record
    types: in [part_001] and [part_003] the loop leaves the same destination,
    ends the same way and reports the same loads with the same counts as the
    loop without that record type.  In [scripts/dbfToMongo.js] the missing
    archive is also appended to the error log, and the same holds when the
    model is [null] or that write succeeds. *)
Theorem record_type_with_nothing_to_load_is_skipped (env : Env)
  (folderPath folder : string) (ms1 ms2 : list (RecordType * option Model))
  (t : RecordType) (o : option Model) (db : DB) :
  nothing_to_load env folderPath t o ->
  same_outcomes
    (Part001Script.process_models env folderPath folder
       (ms1 ++ (t, o) :: ms2) db)
    (Part001Script.process_models env folderPath folder (ms1 ++ ms2) db) /\
  same_outcomes
    (Part003.process_models env folderPath folder (ms1 ++ (t, o) :: ms2) db)
    (Part003.process_models env folderPath folder (ms1 ++ ms2) db) /\
  (o = None \/ appendFileSync_error env = None ->
   same_outcomes
     (DbfToMongo.process_models env folderPath folder
        (ms1 ++ (t, o) :: ms2) db)
     (DbfToMongo.process_models env folderPath folder (ms1 ++ ms2) db)).
Proof.
  intros Hn. unfold same_outcomes. split; [|split].
  - rewrite !part001_process_models_app.
    cbn [Part001Script.process_models].
    destruct o as [model|].
    + destruct Hn as [Hn|Hn]; [discriminate|].
      apply (skipped_turn _ _ _
               [FsExists (path_join folderPath (fileMap t));
                Console LWarn (FileMissing (key_of t) folder);
                Console LLog Elapsed]); [|reflexivity].
      intros d.
      rewrite (bind_Ret _ _ _ _ _ _
                 (part001_processFile_missing _ _ _ _ _ _ Hn)).
      reflexivity.
    + now apply (skipped_turn _ _ _ []).
  - rewrite !variant_process_models_app. cbn [Part003.process_models].
    destruct o as [model|].
    + destruct Hn as [Hn|Hn]; [discriminate|].
      apply (skipped_turn _ _ _
               [FsExists (path_join folderPath (fileMap t));
                Console LWarn (FileMissing (key_of t) folder);
                Console LLog Elapsed]); [|reflexivity].
      intros d.
      rewrite (bind_Ret _ _ _ _ _ _
                 (variant_processFile_missing _ _ _ _ _ _ Hn)).
      reflexivity.
    + now apply (skipped_turn _ _ _ []).
  - intros Hl. rewrite !main_process_models_app.
    cbn [DbfToMongo.process_models].
    destruct o as [model|].
    + destruct Hn as [Hn|Hn]; [discriminate|].
      destruct Hl as [Hl|Hl]; [discriminate|].
      apply (skipped_turn _ _ _
               [FsExists (path_join folderPath (fileMap t));
                Console LWarn (FileMissing (key_of t) folder);
                LogAppend (now_ISO env) (FileMissing (key_of t) folder);
                Console LLog Elapsed]); [|reflexivity].
      intros d.
      erewrite bind_Ret; cycle 1.
      { rewrite (main_processFile_missing _ _ _ _ _ _ Hn), Hl. reflexivity. }
      reflexivity.
    + now apply (skipped_turn _ _ _ []).
Qed.

Lemma record_type_with_nothing_to_load_is_skipped_witness :
  same_outcomes
    (Part003.process_models
       (Example.world Example.uri None ["_dbf/AVB/classes.dbf"] [] None
          Example.accept_all)
       "_dbf/AVB" "AVB"
       ([binding
           (Example.world Example.uri None ["_dbf/AVB/classes.dbf"] [] None
              Example.accept_all) "AVB" article]
        ++ binding
             (Example.world Example.uri None ["_dbf/AVB/classes.dbf"] []
                None Example.accept_all) "AVB" classnum
           :: [binding
                 (Example.world Example.uri None ["_dbf/AVB/classes.dbf"]
                    [] None Example.accept_all) "AVB" fournisseur])
       Example.empty)
    (Part003.process_models
       (Example.world Example.uri None ["_dbf/AVB/classes.dbf"] [] None
          Example.accept_all)
       "_dbf/AVB" "AVB"
       ([binding
           (Example.world Example.uri None ["_dbf/AVB/classes.dbf"] [] None
              Example.accept_all) "AVB" article]
        ++ [binding
              (Example.world Example.uri None ["_dbf/AVB/classes.dbf"] []
                 None Example.accept_all) "AVB" fournisseur])
       Example.empty).
Proof.
  exact (proj1 (proj2
    (record_type_with_nothing_to_load_is_skipped
       (Example.world Example.uri None ["_dbf/AVB/classes.dbf"] [] None
          Example.accept_all)
       "_dbf/AVB" "AVB" _ _ classnum _ Example.empty
       (or_intror eq_refl)))).
Defined.

(** ** The ordered batches of [part_002] *)

Lemma write_ordered_app v (c a b : list obj) :
  write_ordered v c (a ++ b) =
  match snd (write_ordered v c a) with
  | None => write_ordered v (fst (write_ordered v c a)) b
  | Some _ => write_ordered v c a
  end.
Proof.
  revert c. induction a as [|d a IH]; intros c; simpl; [reflexivity|].
  destruct (v c d) as [err|]; [reflexivity | apply IH].
Qed.

Lemma write_ordered_prefix v (c docs : list obj) :
  exists k,
    k <= List.length docs /\
    fst (write_ordered v c docs) = c ++ firstn k docs /\
    match snd (write_ordered v c docs) with
    | None => k = List.length docs
    | Some err =>
        exists d, nth_error docs k = Some d /\
                  v (c ++ firstn k docs) d = Some err
    end.
Proof.
  revert c. induction docs as [|d docs IH]; intros c; simpl.
  - exists 0. rewrite app_nil_r. repeat split; lia.
  - destruct (v c d) as [err|] eqn:E; simpl.
    + exists 0. simpl. rewrite app_nil_r. split; [lia|]. split; [reflexivity|].
      exists d. now split.
    + destruct (IH (c ++ [d])) as (k & Hk & Hf & Hs).
      exists (S k). simpl. split; [lia|].
      rewrite <- app_assoc in Hf, Hs. simpl in Hf, Hs.
      split; [exact Hf|].
      destruct (snd (write_ordered v (c ++ [d]) docs)); [exact Hs | lia].
Qed.

Lemma write_ordered_all v (c docs : list obj) :
  snd (write_ordered v c docs) = None ->
  fst (write_ordered v c docs) = c ++ docs.
Proof.
  intros H.
  destruct (write_ordered_prefix v c docs) as (k & _ & Hf & Hs).
  rewrite H in Hs. subst k. now rewrite Hf, firstn_all.
Qed.

Lemma first_invalid_In (model : Model) (docs : list obj) (d : obj) :
  first_invalid model docs = None -> In d docs -> validate model d = None.
Proof.
  induction docs as [|d0 docs IH]; simpl; [tauto|].
  destruct (validate model d0) eqn:E; [discriminate|].
  intros H [->|Hin]; [exact E | now apply IH].
Qed.

Section OrderedLoop.

Variable size : nat.
Variable model : Model.
Variable records : list obj.

Lemma part002_batch_end (fuel i n : nat) (db : DB) :
  List.length records <= i ->
  Part002.batch_loop size model records (S fuel) i n db = Run [] db (Ret n).
Proof.
  intros H. simpl. apply Nat.ltb_ge in H. now rewrite H.
Qed.

Lemma part002_batch_written (fuel i n : nat) (db : DB) :
  i < List.length records ->
  snd (insert_ordered model (db (collection model))
         (map Part002.sanitizeRecord (slice records i (i + size)))) = None ->
  Part002.batch_loop size model records (S fuel) i n db =
  let batch := map Part002.sanitizeRecord (slice records i (i + size)) in
  let r := Part002.batch_loop size model records fuel (i + size)
             (n + List.length batch)
             (db_set db (collection model)
                (fst (insert_ordered model (db (collection model)) batch))) in
  Run (Db (collection model) (InsertMany batch true)
         :: Progress (PUpdate (n + List.length batch))
         :: trace r)
    (final r) (result r).
Proof.
  intros Hi Hw. cbn [Part002.batch_loop].
  apply Nat.ltb_lt in Hi. rewrite Hi.
  unfold bind, insertMany. simpl. rewrite Hw. simpl. reflexivity.
Qed.

(** The batch at [i] is the first [size] of the records from [i] on. *)
Lemma part002_batch_firstn (i : nat) :
  map Part002.sanitizeRecord (slice records i (i + size))
    = firstn size (map Part002.sanitizeRecord (skipn i records)).
Proof.
  unfold slice. replace (i + size - i) with size by lia.
  now rewrite firstn_map.
Qed.

Lemma part002_batch_loop_spec (fuel i n : nat) (db : DB) :
  1 <= size ->
  List.length records - i < fuel ->
  let rest := map Part002.sanitizeRecord (skipn i records) in
  let r := Part002.batch_loop size model records fuel i n db in
  exists k,
    k <= List.length rest /\
    (forall c, final r c =
               if String.eqb (collection model) c
               then db (collection model) ++ firstn k rest
               else db c) /\
    match result r with
    | Ret m => m = n + List.length rest /\ k = List.length rest
    | Throw err =>
        (Nat.divide size k /\
         first_invalid model (firstn size (skipn k rest)) = Some err) \/
        (exists d,
           nth_error rest k = Some d /\
           validate model d = None /\
           write_error model (db (collection model) ++ firstn k rest) d
             = Some err)
    | Exit _ | Diverge => False
    end.
Proof.
  intros Hs. revert i n db.
  induction fuel as [|fuel IH]; intros i n db Hfuel; [lia|].
  cbv zeta.
  destruct (Nat.lt_ge_cases i (List.length records)) as [Hi|Hi].
  - pose proof (skipn_batch size records i) as Hrest.
    change Part003.sanitizeRecord with Part002.sanitizeRecord in Hrest.
    set (batch := map Part002.sanitizeRecord (slice records i (i + size)))
      in *.
    set (rest' := map Part002.sanitizeRecord (skipn (i + size) records)) in *.
    assert (Hb : batch = firstn size (batch ++ rest')).
    { rewrite <- Hrest. apply part002_batch_firstn. }
    rewrite Hrest.
    destruct (snd (insert_ordered model (db (collection model)) batch))
      as [err|] eqn:Hw.
    + rewrite (part002_batch_rejected size model records fuel i n db err Hi Hw).
      fold batch. cbn [final result].
      unfold insert_ordered in Hw |- *.
      destruct (first_invalid model batch) as [e|] eqn:Hv.
      * cbn [snd] in Hw. injection Hw as ->.
        exists 0. split; [lia|]. cbn [fst firstn]. split.
        -- intros c. rewrite app_nil_r. unfold db_set.
           destruct (String.eqb (collection model) c) eqn:E; [|reflexivity].
           apply String.eqb_eq in E. now subst c.
        -- left. split; [apply Nat.divide_0_r|].
           cbn [skipn]. now rewrite <- Hb.
      * destruct (write_ordered_prefix (write_error model)
                    (db (collection model)) batch) as (k & Hk & Hf & He).
        rewrite Hw in He. destruct He as (d & Hd & Hwe).
        assert (Hlt : k < List.length batch).
        { apply nth_error_Some. congruence. }
        exists k. split; [rewrite length_app; lia|].
        assert (Hfk : firstn k (batch ++ rest') = firstn k batch).
        { rewrite firstn_app.
          replace (k - List.length batch) with 0 by lia.
          cbn [firstn]. apply app_nil_r. }
        rewrite Hfk. split.
        -- intros c. rewrite Hf. unfold db_set.
           now destruct (String.eqb (collection model) c).
        -- right. exists d. split; [|split].
           ++ now rewrite nth_error_app1.
           ++ apply (first_invalid_In model batch d Hv).
              now apply (nth_error_In batch k).
           ++ exact Hwe.
    + rewrite (part002_batch_written fuel i n db Hi Hw). cbv zeta.
      fold batch. cbn [final result].
      assert (Hv : first_invalid model batch = None).
      { unfold insert_ordered in Hw.
        destruct (first_invalid model batch); [discriminate | reflexivity]. }
      assert (Hf : fst (insert_ordered model (db (collection model)) batch)
                   = db (collection model) ++ batch).
      { unfold insert_ordered in Hw |- *. rewrite Hv in Hw |- *.
        now apply write_ordered_all. }
      rewrite Hf.
      destruct (IH (i + size) (n + List.length batch)
                  (db_set db (collection model)
                     (db (collection model) ++ batch)))
        as (k & Hk & Hfin & Hres); [lia|].
      cbv zeta in Hk, Hfin, Hres. fold rest' in Hk, Hfin, Hres.
      rewrite db_set_same in Hfin, Hres.
      exists (List.length batch + k). split; [rewrite length_app; lia|].
      rewrite firstn_app_2. split.
      * intros c. rewrite Hfin, <- app_assoc. unfold db_set.
        now destruct (String.eqb (collection model) c).
      * destruct (result (Part002.batch_loop size model records fuel
                            (i + size) (n + List.length batch) _))
          as [m|err|code|]; try exact Hres.
        -- rewrite length_app. split; lia.
        -- destruct (Nat.le_gt_cases (List.length records) (i + size))
             as [Hend|Hmore].
           ++ exfalso. subst rest'.
              rewrite (skipn_all2 records Hend) in Hres. cbn [map] in Hres.
              destruct Hres as [[_ H]|(d & H & _)].
              ** rewrite skipn_nil, firstn_nil in H. discriminate H.
              ** now destruct k.
           ++ assert (Hlen : List.length batch = size).
              { subst batch. unfold slice.
                rewrite length_map, length_firstn, length_skipn. lia. }
              destruct Hres as [[Hdiv H]|(d & Hd & Hvd & Hwe)].
              ** left. split.
                 --- rewrite Hlen. apply Nat.divide_add_r;
                       [apply Nat.divide_refl | exact Hdiv].
                 --- rewrite skipn_app, skipn_all2 by lia.
                     replace (List.length batch + k - List.length batch)
                       with k by lia.
                     exact H.
              ** right. exists d. split; [|split].
                 --- rewrite nth_error_app2 by lia.
                     replace (List.length batch + k - List.length batch)
                       with k by lia.
                     exact Hd.
                 --- exact Hvd.
                 --- now rewrite app_assoc.
  - rewrite (part002_batch_end fuel i n db Hi).
    rewrite (skipn_all2 records Hi). cbn [map List.length final result].
    exists 0. split; [lia|]. split; [|lia].
    intros c. cbn [firstn]. rewrite app_nil_r.
    destruct (String.eqb (collection model) c) eqn:E; [|reflexivity].
    apply String.eqb_eq in E. now subst c.
Qed.

End OrderedLoop.

(** The collection after the ordered batches, and how the loop ends. *)
Lemma ordered_batches_core (size : nat) (model : Model)
  (records : list obj) (db : DB) :
  1 <= size ->
  let r := Part002.batch_loop size model records
             (S (List.length records)) 0 0 db in
  let docs := map Part002.sanitizeRecord records in
  exists k,
    k <= List.length records /\
    (forall c, final r c =
               if String.eqb (collection model) c
               then db (collection model) ++ firstn k docs
               else db c) /\
    match result r with
    | Ret n => n = List.length records /\ k = List.length records
    | Throw err =>
        (Nat.divide size k /\
         first_invalid model (firstn size (skipn k docs)) = Some err) \/
        (exists d,
           nth_error docs k = Some d /\
           validate model d = None /\
           write_error model (db (collection model) ++ firstn k docs) d
             = Some err)
    | Exit _ | Diverge => False
    end.
Proof.
  intros Hs. cbv zeta.
  destruct (part002_batch_loop_spec size model records
              (S (List.length records)) 0 0 db Hs) as (k & Hk & Hf & Hr);
    [lia|].
  cbv zeta in Hk, Hf, Hr. rewrite skipn_O in Hk, Hf, Hr.
  rewrite length_map in Hk, Hr.
  exists k. split; [exact Hk|]. split; [exact Hf|]. exact Hr.
Qed.

(** X12.  The batch loop of [part_002] writes with [insertMany] in its
    default, ordered mode and has no handler.  For every batch size of at
    least one, the collection ends as its contents followed by the first [k]
    sanitized records, in order, every other collection is left alone, and
    the loop either returns the number of records, all of them stored, or
    raises, every later record left unwritten.  It raises the validation
    error of the first invalid document of a batch, none of which is stored
    ([k] is then a number of whole batches), or else the write error of
    document [k], a valid document the server refuses.  The loop never runs
    for ever. *)
Theorem ordered_batches_stop_at_first_rejection (size : nat) (model : Model)
  (records : list obj) (db : DB) :
  1 <= size ->
  let r := Part002.batch_loop size model records
             (S (List.length records)) 0 0 db in
  let docs := map Part002.sanitizeRecord records in
  exists k,
    k <= List.length records /\
    (forall c, final r c =
               if String.eqb (collection model) c
               then db (collection model) ++ firstn k docs
               else db c) /\
    match result r with
    | Ret n => n = List.length records /\ k = List.length records
    | Throw err =>
        (Nat.divide size k /\
         first_invalid model (firstn size (skipn k docs)) = Some err) \/
        (exists d,
           nth_error docs k = Some d /\
           validate model d = None /\
           write_error model (db (collection model) ++ firstn k docs) d
             = Some err)
    | Exit _ | Diverge => False
    end.
Proof. apply ordered_batches_core. Qed.

Lemma ordered_batches_stop_at_first_rejection_witness :
  exists k,
    k <= 3 /\
    (forall c,
       final (Part002.batch_loop 2
                (Example.model_with_schema "articles"
                   (Example.required "PRIX"))
                [Example.rec1; Example.rec2; Example.rec3] 4 0 0
                Example.empty) c =
       if String.eqb "articles" c
       then [] ++ firstn k (map Part002.sanitizeRecord
                              [Example.rec1; Example.rec2; Example.rec3])
       else []) /\
    match result (Part002.batch_loop 2
                    (Example.model_with_schema "articles"
                       (Example.required "PRIX"))
                    [Example.rec1; Example.rec2; Example.rec3] 4 0 0
                    Example.empty) with
    | Ret n => n = 3 /\ k = 3
    | Throw err =>
        (Nat.divide 2 k /\
         first_invalid
           (Example.model_with_schema "articles" (Example.required "PRIX"))
           (firstn 2
              (skipn k (map Part002.sanitizeRecord
                          [Example.rec1; Example.rec2; Example.rec3])))
           = Some err) \/
        (exists d,
           nth_error (map Part002.sanitizeRecord
                        [Example.rec1; Example.rec2; Example.rec3]) k
             = Some d /\
           Example.required "PRIX" d = None /\
           Example.accept_all
             ([] ++ firstn k (map Part002.sanitizeRecord
                                [Example.rec1; Example.rec2; Example.rec3])) d
             = Some err)
    | Exit _ | Diverge => False
    end.
Proof.
  exact (ordered_batches_stop_at_first_rejection 2
           (Example.model_with_schema "articles" (Example.required "PRIX"))
           [Example.rec1; Example.rec2; Example.rec3] Example.empty
           (le_S 1 1 (le_n 1))).
Defined.

(** One batch of a thousand whose third document fails validation: the
    call is rejected before anything is sent, and the collection stays
    empty. *)
Example scenario_ordered_batch_invalid :
  result
    (Part002.batch_loop Part002.batchSize
       (Example.model_with_schema "articles" (Example.required "PRIX"))
       [Example.rec1; Example.rec2; Example.rec3] 4 0 0 Example.empty)
  = Throw "Path `PRIX` is required." /\
  final
    (Part002.batch_loop Part002.batchSize
       (Example.model_with_schema "articles" (Example.required "PRIX"))
       [Example.rec1; Example.rec2; Example.rec3] 4 0 0 Example.empty)
    "articles" = [].
Proof. split; vm_compute; reflexivity. Qed.

(** ** The exit code of [part_001] and of [part_002] *)

Section VariantsSettle.
Variable env : Env.

Lemma part001_settles_loadModel folder t :
  settles (Part001Script.loadModel env folder t).
Proof. unfold Part001Script.loadModel. settle_all. Qed.

Lemma part001_settles_insert_loop model records n :
  settles (Part001Script.insert_loop model records n).
Proof.
  revert n. induction records as [|record rest IH]; intros n; simpl.
  - apply settles_ret.
  - settle_all. apply IH.
Qed.

Lemma part001_settles_processFile filePath model fileName folder :
  settles (Part001Script.processFile env filePath model fileName folder).
Proof.
  unfold Part001Script.processFile.
  settle_all; apply part001_settles_insert_loop.
Qed.

Lemma part001_settles_load_models folder types :
  settles (Part001Script.load_models env folder types).
Proof.
  induction types as [|t types IH]; simpl.
  - apply settles_ret.
  - settle_all; try apply part001_settles_loadModel. apply IH.
Qed.

Lemma part001_settles_process_models folderPath folder models :
  settles (Part001Script.process_models env folderPath folder models).
Proof.
  induction models as [|[t model] models IH]; simpl.
  - apply settles_ret.
  - settle_all;
      first [ apply part001_settles_processFile
            | apply part001_settles_insert_loop | apply IH ].
Qed.

Lemma part001_settles_site_body folder :
  settles (Part001Script.site_body env folder).
Proof.
  unfold Part001Script.site_body.
  settle_all; try apply part001_settles_load_models;
    apply part001_settles_process_models.
Qed.

Lemma part001_settles_site_loop sites :
  settles (Part001Script.site_loop env sites).
Proof.
  induction sites as [|s sites IH]; simpl.
  - apply settles_ret.
  - apply settles_bind; [apply part001_settles_site_body | intros _; apply IH].
Qed.

Lemma part002_settles_loadModel folder : settles (Part002.loadModel env folder).
Proof. unfold Part002.loadModel. settle_all. Qed.

Lemma part002_settles_batch_loop model records :
  settles (Part002.batch_loop Part002.batchSize model records
             (S (List.length records)) 0 0).
Proof.
  intros db.
  destruct (part002_batch_loop_spec Part002.batchSize model records
              (S (List.length records)) 0 0 db) as (k & _ & _ & Hr).
  - unfold Part002.batchSize. lia.
  - lia.
  - cbv zeta in Hr.
    now destruct (result (Part002.batch_loop Part002.batchSize model records
                            (S (List.length records)) 0 0 db)).
Qed.

Lemma part002_settles_site_body folder :
  settles (Part002.site_body env folder).
Proof.
  unfold Part002.site_body.
  settle_all; first [apply part002_settles_loadModel
                    | apply part002_settles_batch_loop].
Qed.

Lemma part002_settles_site_loop sites : settles (Part002.site_loop env sites).
Proof.
  induction sites as [|s sites IH]; simpl.
  - apply settles_ret.
  - apply settles_bind; [apply part002_settles_site_body | intros _; apply IH].
Qed.

End VariantsSettle.

Lemma part001_connectDB_ok env db :
  mongoose_connect env (uri_of env) = None ->
  Part001Script.connectDB env db =
  Run [Console LLog Connecting; MongoConnect (uri_of env);
       Console LLog Connected] db (Ret tt).
Proof.
  intros Hc. unfold uri_of in Hc.
  unfold Part001Script.connectDB, try_catch, connect, bind. simpl.
  rewrite Hc. reflexivity.
Qed.

Lemma part001_connectDB_refused env db err :
  mongoose_connect env (uri_of env) = Some err ->
  Part001Script.connectDB env db =
  Run [Console LLog Connecting; MongoConnect (uri_of env);
       Console LError (MongoError err)] db (Exit 1).
Proof.
  intros Hc. unfold uri_of in Hc.
  unfold Part001Script.connectDB, try_catch, connect, bind. simpl.
  rewrite Hc. reflexivity.
Qed.

Lemma part002_connectDB_refused env db err :
  mongoose_connect env (uri_of env) = Some err ->
  Part002.connectDB env db =
  Run [Console LLog Connecting; MongoConnect (uri_of env);
       Console LError (MongoError err)] db (Exit 1).
Proof.
  intros Hc. unfold uri_of in Hc.
  unfold Part002.connectDB, try_catch, connect, bind. simpl.
  rewrite Hc. reflexivity.
Qed.

Lemma part001_script_start_failed env sites db :
  started env = false ->
  result (Part001Script.script_on env sites db) = Exit 1 /\
  final (Part001Script.script_on env sites db) = db.
Proof.
  unfold started. intros H.
  unfold Part001Script.script_on, Part001Script.importDbfsData_on.
  destruct (truthy (mongoUri env)); [|now split].
  cbn [negb]. rewrite bind_ret_l.
  destruct (mongoose_connect env (uri_of env)) as [err|] eqn:Hc;
    [|discriminate].
  unfold try_finally, try_catch.
  rewrite (bind_Exit _ _ _ _ _ _ (part001_connectDB_refused env db err Hc)).
  now split.
Qed.

Lemma part002_script_start_failed env sites db :
  started env = false ->
  result (Part002.script_on env sites db) = Exit 1 /\
  final (Part002.script_on env sites db) = db.
Proof.
  unfold started. intros H.
  unfold Part002.script_on, Part002.importDbfsData_on.
  destruct (truthy (mongoUri env)); [|now split].
  cbn [negb]. rewrite bind_ret_l.
  destruct (mongoose_connect env (uri_of env)) as [err|] eqn:Hc;
    [|discriminate].
  unfold try_catch.
  rewrite (bind_Exit _ _ _ _ _ _ (part002_connectDB_refused env db err Hc)).
  now split.
Qed.

Lemma part001_script_started env sites db :
  started env = true ->
  result (Part001Script.script_on env sites db) = Exit 0 /\
  final (Part001Script.script_on env sites db)
    = final (Part001Script.site_loop env sites db).
Proof.
  unfold started. intros H. apply andb_prop in H. destruct H as [Hu Hc].
  destruct (mongoose_connect env (uri_of env)) eqn:Hc'; [discriminate|].
  unfold Part001Script.script_on, Part001Script.importDbfsData_on.
  rewrite Hu. cbn [negb]. rewrite bind_ret_l.
  unfold try_finally, try_catch.
  rewrite (bind_Ret _ _ _ _ _ _ (part001_connectDB_ok env db Hc')).
  pose proof (part001_settles_site_loop env sites db) as Hs.
  destruct (Part001Script.site_loop env sites db) as [t d [[]|err|code|]] eqn:E;
    simpl in Hs; try contradiction.
  - rewrite (bind_Ret _ _ _ _ _ _ E). cbn. now split.
  - rewrite (bind_Throw _ _ _ _ _ _ E). cbn. now split.
Qed.

Lemma part002_script_started env sites db :
  started env = true ->
  result (Part002.script_on env sites db)
    = Exit (match result (Part002.site_loop env sites db) with
            | Ret _ => 0
            | _ => 1
            end) /\
  final (Part002.script_on env sites db)
    = final (Part002.site_loop env sites db).
Proof.
  unfold started. intros H. apply andb_prop in H. destruct H as [Hu Hc].
  destruct (mongoose_connect env (uri_of env)) eqn:Hc'; [discriminate|].
  unfold Part002.script_on, Part002.importDbfsData_on.
  rewrite Hu. cbn [negb]. rewrite bind_ret_l.
  unfold try_catch.
  rewrite (bind_Ret _ _ _ _ _ _ (part002_connectDB_ok env db Hc')).
  pose proof (part002_settles_site_loop env sites db) as Hs.
  destruct (Part002.site_loop env sites db) as [t d [[]|err|code|]] eqn:E;
    simpl in Hs; try contradiction.
  - rewrite (bind_Ret _ _ _ _ _ _ E). cbn. now split.
  - rewrite (bind_Throw _ _ _ _ _ _ E). cbn. now split.
Qed.

(** X13.  Every run of [part_001] and of [part_002] ends in [process.exit],
    over any list of sites.  When the start fails (no connection string, or
    the connection is refused) both exit with code 1 and leave the
    destination as it was.  Once the connection is made, [part_001] exits
    with code 0 whatever happens in the loop over the sites, while
    [part_002] exits with code 0 when the loop returns and with code 1 when
    an error leaves it; both leave the destination as the loop left it. *)
Theorem exit_code_of_the_variants (env : Env) (sites : list string) (db : DB) :
  result (Part001Script.script_on env sites db)
    = Exit (if started env then 0 else 1) /\
  result (Part002.script_on env sites db)
    = Exit (if started env
            then match result (Part002.site_loop env sites db) with
                 | Ret _ => 0
                 | _ => 1
                 end
            else 1) /\
  (forall c,
     final (Part001Script.script_on env sites db) c
       = if started env
         then final (Part001Script.site_loop env sites db) c
         else db c) /\
  (forall c,
     final (Part002.script_on env sites db) c
       = if started env
         then final (Part002.site_loop env sites db) c
         else db c).
Proof.
  destruct (started env) eqn:Hs.
  - destruct (part001_script_started env sites db Hs) as [-> ->].
    destruct (part002_script_started env sites db Hs) as [-> ->].
    repeat split.
  - destruct (part001_script_start_failed env sites db Hs) as [-> ->].
    destruct (part002_script_start_failed env sites db Hs) as [-> ->].
    repeat split.
Qed.

(** ** A site with nothing to load, in [part_001] and [part_002] *)

Lemma part001_site_loop_app env l1 l2 db :
  Part001Script.site_loop env (l1 ++ l2) db =
  bind (Part001Script.site_loop env l1)
    (fun _ => Part001Script.site_loop env l2) db.
Proof.
  revert db. induction l1 as [|s l1 IH]; intros db;
    cbn [app Part001Script.site_loop].
  - now rewrite bind_ret_l.
  - rewrite bind_assoc. apply bind_ext. intros _ d. apply IH.
Qed.

Lemma part002_site_loop_app env l1 l2 db :
  Part002.site_loop env (l1 ++ l2) db =
  bind (Part002.site_loop env l1) (fun _ => Part002.site_loop env l2) db.
Proof.
  revert db. induction l1 as [|s l1 IH]; intros db;
    cbn [app Part002.site_loop].
  - now rewrite bind_ret_l.
  - rewrite bind_assoc. apply bind_ext. intros _ d. apply IH.
Qed.

Lemma part001_site_body_missing env s db :
  fs_existsSync env (path_join DBF_FOLDER s) = false ->
  Part001Script.site_body env s db =
  Run (skip_events (path_join DBF_FOLDER s)) db (Ret tt).
Proof.
  intros He. unfold Part001Script.site_body. cbv zeta.
  rewrite (bind_Ret _ _ _ _ _ _ (existsSync_run _ _ _)), He. reflexivity.
Qed.

Lemma part002_loadModel_run env folder db :
  Part002.loadModel env folder db =
  match import_module env (model_path folder (modelFileName folder article)) with
  | inr model =>
      Run [ImportModule (model_path folder (modelFileName folder article))] db
        (Ret (Some model))
  | inl err =>
      Run [ImportModule (model_path folder (modelFileName folder article));
           Console LWarn (ModelLoadFailed folder err)] db
        (Ret None)
  end.
Proof.
  unfold Part002.loadModel, try_catch, bind. rewrite import_run.
  now destruct (import_module env _).
Qed.

(** What [part_002] prints and looks up for a site it has nothing to load
    for. *)
Lemma part002_site_body_nothing env s :
  nothing_to_do env s ->
  exists skip,
    filter is_import_done skip = [] /\
    forall db, Part002.site_body env s db = Run skip db (Ret tt).
Proof.
  intros H. unfold Part002.site_body. cbv zeta.
  destruct (fs_existsSync env (path_join DBF_FOLDER s)) eqn:Ef.
  - destruct (import_module env (model_path s (modelFileName s article)))
      as [err|model] eqn:Ei.
    + exists [FsExists (path_join DBF_FOLDER s); Console LLog (FolderStart s);
              ImportModule (model_path s (modelFileName s article));
              Console LWarn (ModelLoadFailed s err)].
      split; [reflexivity|]. intros db.
      rewrite (bind_Ret _ _ _ _ _ _ (existsSync_run _ _ _)), Ef. run_cbn.
      unfold console_log. rewrite bind_emit.
      erewrite bind_Ret; cycle 1.
      { rewrite part002_loadModel_run, Ei. reflexivity. }
      reflexivity.
    + destruct H as [H|[[err H]|H]]; [congruence | congruence |].
      exists [FsExists (path_join DBF_FOLDER s); Console LLog (FolderStart s);
              ImportModule (model_path s (modelFileName s article));
              FsExists (path_join (path_join DBF_FOLDER s) "article.dbf");
              Console LWarn
                (FileMissing "article" (path_join DBF_FOLDER s))].
      split; [reflexivity|]. intros db.
      rewrite (bind_Ret _ _ _ _ _ _ (existsSync_run _ _ _)), Ef. run_cbn.
      unfold console_log. rewrite bind_emit.
      erewrite bind_Ret; cycle 1.
      { rewrite part002_loadModel_run, Ei. reflexivity. }
      cbv beta iota zeta.
      rewrite (bind_Ret _ _ _ _ _ _ (existsSync_run _ _ _)), H.
      cbn [negb]. run_cbn. reflexivity.
  - exists (skip_events (path_join DBF_FOLDER s)).
    split; [reflexivity|]. intros db.
    rewrite (bind_Ret _ _ _ _ _ _ (existsSync_run _ _ _)), Ef. reflexivity.
Qed.

(** X14.  A site with nothing to load is skipped.  In [part_001] a site whose
    directory is missing, and in [part_002] a site whose directory is
    missing, whose article model cannot be imported or whose directory holds
    no [article.dbf], only costs a warning: the loop over the sites leaves
    the same destination, ends the same way and reports the same loads with
    the same counts as the loop over the list without that site. *)
Theorem site_with_nothing_to_load_is_skipped (env : Env) (l1 l2 : list string)
  (s : string) (db : DB) :
  (fs_existsSync env (path_join DBF_FOLDER s) = false ->
   same_outcomes (Part001Script.site_loop env (l1 ++ s :: l2) db)
     (Part001Script.site_loop env (l1 ++ l2) db)) /\
  (nothing_to_do env s ->
   same_outcomes (Part002.site_loop env (l1 ++ s :: l2) db)
     (Part002.site_loop env (l1 ++ l2) db)).
Proof.
  split.
  - intros He. unfold same_outcomes.
    rewrite !part001_site_loop_app. cbn [Part001Script.site_loop].
    apply (skipped_turn _ _ _ (skip_events (path_join DBF_FOLDER s)));
      [|reflexivity].
    intros d. now apply part001_site_body_missing.
  - intros Hn. unfold same_outcomes.
    destruct (part002_site_body_nothing env s Hn) as (skip & Hs & Hb).
    rewrite !part002_site_loop_app. cbn [Part002.site_loop].
    now apply (skipped_turn _ _ _ skip).
Qed.

Lemma site_with_nothing_to_load_is_skipped_witness :
  same_outcomes
    (Part002.site_loop
       (Example.world Example.uri None ["_dbf/AW/article.dbf"] [] None
          Example.accept_all)
       (["AVB"] ++ "AW" :: ["DQ"]) Example.empty)
    (Part002.site_loop
       (Example.world Example.uri None ["_dbf/AW/article.dbf"] [] None
          Example.accept_all)
       (["AVB"] ++ ["DQ"]) Example.empty).
Proof.
  exact (proj2
    (site_with_nothing_to_load_is_skipped
       (Example.world Example.uri None ["_dbf/AW/article.dbf"] [] None
          Example.accept_all)
       ["AVB"] ["DQ"] "AW" Example.empty)
    (or_intror (or_intror eq_refl))).
Defined.

(** ** The load of a site in [part_002] *)

Lemma filter_none {A : Type} (f : A -> bool) (l : list A) :
  Forall (fun a => f a = false) l -> filter f l = [].
Proof.
  induction 1 as [|a l Ha _ IH]; simpl; [reflexivity|]. now rewrite Ha.
Qed.

Lemma part002_batch_loop_reports_nothing size model records fuel i n :
  emits (fun e => is_import_done e = false)
    (Part002.batch_loop size model records fuel i n).
Proof.
  revert i n. induction fuel as [|fuel IH]; intros i n;
    cbn [Part002.batch_loop]; [apply emits_diverge|].
  destruct (Nat.ltb i (List.length records)); [|apply emits_ret].
  apply emits_bind; [now apply emits_insertMany|]. intros a.
  apply emits_bind; [now apply emits_emit|]. intros _. apply IH.
Qed.

(** What the turn of a site emits before its first write. *)
Lemma part002_site_body_loaded env s model dbf records db :
  fs_existsSync env (path_join DBF_FOLDER s) = true ->
  import_module env (model_path s (modelFileName s article)) = inr model ->
  fs_existsSync env (path_join (path_join DBF_FOLDER s) "article.dbf") = true ->
  DBFFile_open env (path_join (path_join DBF_FOLDER s) "article.dbf")
    = inr dbf ->
  deleteMany_error model = None ->
  readRecords_result dbf = inr records ->
  let filePath := path_join (path_join DBF_FOLDER s) "article.dbf" in
  let pre := [FsExists (path_join DBF_FOLDER s); Console LLog (FolderStart s);
              ImportModule (model_path s (modelFileName s article));
              FsExists filePath; DbfOpen filePath;
              Console LLog (Reading filePath (recordCount dbf));
              Console LLog (Deleting s);
              Db (collection model) DeleteMany;
              Progress (PStart (recordCount dbf));
              DbfReadRecords] in
  let l := Part002.batch_loop Part002.batchSize model records
             (S (List.length records)) 0 0
             (db_set db (collection model) []) in
  Part002.site_body env s db =
  match result l with
  | Ret n =>
      Run (pre ++ trace l ++
           [Progress PStop; Console LLog (ImportDoneFolder s n)])
        (final l) (Ret tt)
  | Throw err => Run (pre ++ trace l) (final l) (Throw err)
  | Exit code => Run (pre ++ trace l) (final l) (Exit code)
  | Diverge => Run (pre ++ trace l) (final l) Diverge
  end.
Proof.
  intros Ef Ei Ea Ho Hd Hr. cbv zeta. unfold Part002.site_body. cbv zeta.
  rewrite (bind_Ret _ _ _ _ _ _ (existsSync_run _ _ _)), Ef. run_cbn.
  unfold console_log, progressBar. rewrite bind_emit.
  erewrite bind_Ret; cycle 1.
  { rewrite part002_loadModel_run, Ei. reflexivity. }
  cbv beta iota zeta.
  rewrite (bind_Ret _ _ _ _ _ _ (existsSync_run _ _ _)), Ea. run_cbn.
  rewrite (bind_Ret _ _ _ _ _ _ (open_ok _ _ _ _ Ho)). run_cbn.
  rewrite !bind_emit. run_cbn.
  rewrite (bind_Ret _ _ _ _ _ _ (deleteMany_ok _ _ Hd)). run_cbn.
  rewrite !bind_emit. run_cbn.
  rewrite (bind_Ret _ _ _ _ _ _ (readRecords_ok _ _ _ Hr)). run_cbn.
  destruct (Part002.batch_loop Part002.batchSize model records _ 0 0 _)
    as [t d [n|err|code|]] eqn:E.
  - rewrite (bind_Ret _ _ _ _ _ _ E). cbn. reflexivity.
  - rewrite (bind_Throw _ _ _ _ _ _ E). cbn. rewrite ?app_nil_r. reflexivity.
  - rewrite (bind_Exit _ _ _ _ _ _ E). cbn. rewrite ?app_nil_r. reflexivity.
  - rewrite (bind_Diverge _ _ _ _ _ E). cbn. rewrite ?app_nil_r. reflexivity.
Qed.

(** X15.  The load of a site in [part_002], when the directory, the article
    model and [article.dbf] are there, the archive opens and is read and the
    old documents are deleted: the collection of the model ends as the first
    [k] sanitized records, every other collection is left alone, and the
    turn either returns, having stored every record and reported their
    number, or raises and reports no count.  It raises the validation error
    of the first invalid document of a batch of a thousand, none of which is
    stored, or else the write error of document [k], a valid document the
    server refuses. *)
Theorem site_load_is_all_or_error (env : Env) (s : string) (model : Model)
  (dbf : Dbf) (records : list obj) (db : DB) :
  fs_existsSync env (path_join DBF_FOLDER s) = true ->
  import_module env (model_path s (modelFileName s article)) = inr model ->
  fs_existsSync env (path_join (path_join DBF_FOLDER s) "article.dbf") = true ->
  DBFFile_open env (path_join (path_join DBF_FOLDER s) "article.dbf")
    = inr dbf ->
  deleteMany_error model = None ->
  readRecords_result dbf = inr records ->
  let r := Part002.site_body env s db in
  let docs := map Part002.sanitizeRecord records in
  exists k,
    k <= List.length records /\
    (forall c, final r c =
               if String.eqb (collection model) c then firstn k docs
               else db c) /\
    match result r with
    | Ret _ =>
        k = List.length records /\
        filter is_import_done (trace r)
          = [Console LLog (ImportDoneFolder s (List.length records))]
    | Throw err =>
        ((Nat.divide Part002.batchSize k /\
          first_invalid model (firstn Part002.batchSize (skipn k docs))
            = Some err) \/
         (exists d, nth_error docs k = Some d /\
                    validate model d = None /\
                    write_error model (firstn k docs) d = Some err)) /\
        filter is_import_done (trace r) = []
    | Exit _ | Diverge => False
    end.
Proof.
  intros Ef Ei Ea Ho Hd Hr. cbv zeta.
  rewrite (part002_site_body_loaded env s model dbf records db
             Ef Ei Ea Ho Hd Hr). cbv zeta.
  assert (Hsize : 1 <= Part002.batchSize) by (unfold Part002.batchSize; lia).
  destruct (ordered_batches_core Part002.batchSize model records
              (db_set db (collection model) []) Hsize)
    as (k & Hk & Hf & He).
  pose proof (filter_none _ _
                (part002_batch_loop_reports_nothing Part002.batchSize model
                   records (S (List.length records)) 0 0
                   (db_set db (collection model) []))) as Hq.
  exists k. split; [exact Hk|].
  destruct (result (Part002.batch_loop Part002.batchSize model records
                      (S (List.length records)) 0 0
                      (db_set db (collection model) [])))
    as [n|err|code|]; try contradiction; cbn [final result trace].
  - split.
    + intros c. rewrite Hf, db_set_same. unfold db_set.
      now destruct (String.eqb (collection model) c).
    + destruct He as [-> ->]. split; [reflexivity|].
      rewrite !filter_app, Hq. reflexivity.
  - split.
    + intros c. rewrite Hf, db_set_same. unfold db_set.
      now destruct (String.eqb (collection model) c).
    + rewrite db_set_same in He. split; [exact He|].
      rewrite !filter_app, Hq. reflexivity.
Qed.

Lemma site_load_is_all_or_error_witness :
  exists k,
    k <= 3 /\
    (forall c,
       final (Part002.site_body
                (Example.world Example.uri None [] [] None
                   (Example.reject_code "A2")) "AVB" Example.empty) c =
       if String.eqb "./models/bases/AVB/AVBArticle.js" c
       then firstn k (map Part002.sanitizeRecord
                        [Example.rec1; Example.rec2; Example.rec3])
       else []) /\
    match result (Part002.site_body
                    (Example.world Example.uri None [] [] None
                       (Example.reject_code "A2")) "AVB" Example.empty) with
    | Ret _ =>
        k = 3 /\
        filter is_import_done
          (trace (Part002.site_body
                    (Example.world Example.uri None [] [] None
                       (Example.reject_code "A2")) "AVB" Example.empty))
          = [Console LLog (ImportDoneFolder "AVB" 3)]
    | Throw err =>
        ((Nat.divide Part002.batchSize k /\
          first_invalid
            (Example.model_of "./models/bases/AVB/AVBArticle.js"
               (Example.reject_code "A2"))
            (firstn Part002.batchSize
               (skipn k (map Part002.sanitizeRecord
                           [Example.rec1; Example.rec2; Example.rec3])))
            = Some err) \/
         (exists d,
            nth_error (map Part002.sanitizeRecord
                         [Example.rec1; Example.rec2; Example.rec3]) k
              = Some d /\
            validate
              (Example.model_of "./models/bases/AVB/AVBArticle.js"
                 (Example.reject_code "A2")) d = None /\
            Example.reject_code "A2"
              (firstn k (map Part002.sanitizeRecord
                           [Example.rec1; Example.rec2; Example.rec3])) d
              = Some err)) /\
        filter is_import_done
          (trace (Part002.site_body
                    (Example.world Example.uri None [] [] None
                       (Example.reject_code "A2")) "AVB" Example.empty))
          = []
    | Exit _ | Diverge => False
    end.
Proof.
  exact (site_load_is_all_or_error
           (Example.world Example.uri None [] [] None
              (Example.reject_code "A2"))
           "AVB"
           (Example.model_of "./models/bases/AVB/AVBArticle.js"
              (Example.reject_code "A2"))
           Example.archive [Example.rec1; Example.rec2; Example.rec3]
           Example.empty eq_refl eq_refl eq_refl eq_refl eq_refl eq_refl).
Defined.
